(** * hono-starter: response envelopes, validation hook and structured logger

    A shallow embedding of
      - src/lib/utils/response-utils.ts  (HONO_ERROR, HONO_RESPONSE,
        HONO_PAGINATED_RESPONSE, isErrorResponse, isSuccessResponse),
      - src/lib/core/create-router.ts    (createDefaultHook, createRouter),
      - src/lib/core/hono-logger.ts      (formatContext, createLogEntry,
        HonoLogger, hexToAnsi, logger, logger.sentry),
      - src/lib/middlewares/on-error.middleware.ts  (onError),
      - src/modules/mailer/service/index.ts  (sendEmail and the three
        template senders),
      - src/env.ts                       (EnvSchema),
    together with the part of the JavaScript runtime these functions lean on
    (truthiness, [===], property access, JSON.stringify / JSON.parse). *)

From Stdlib Require Import ZArith List String Ascii Bool Lia.
From Stdlib Require Import DecimalString DecimalZ DecimalNat DecimalPos.
From Stdlib Require DecimalFacts QArith.
Import ListNotations.
Local Open Scope string_scope.
Local Open Scope Z_scope.

(* ===================================================================== *)
(** ** JavaScript values *)
(* ===================================================================== *)

Module JS.

(** A value of type [any].  Numbers are the integers the code handles
    (status codes, page counts); objects keep their properties in
    insertion order, as JavaScript does. *)
Unset Elimination Schemes.
Inductive JSValue : Type :=
| JUndefined
| JNull
| JBool (b : bool)
| JNum (n : Z)
| JStr (s : string)
| JArr (elems : list JSValue)
| JObj (props : list (string * JSValue)).
Set Elimination Schemes.

(** Induction on a value, with the hypothesis available for every element
    of an array and every property of an object. *)
Definition JSValue_ind (P : JSValue -> Prop)
  (Hundef : P JUndefined) (Hnull : P JNull)
  (Hbool : forall b, P (JBool b)) (Hnum : forall n, P (JNum n))
  (Hstr : forall s, P (JStr s))
  (Harr : forall l, Forall P l -> P (JArr l))
  (Hobj : forall ps, Forall (fun kv => P (snd kv)) ps -> P (JObj ps))
  : forall v, P v :=
  fix go (v : JSValue) : P v :=
    match v with
    | JUndefined => Hundef
    | JNull => Hnull
    | JBool b => Hbool b
    | JNum n => Hnum n
    | JStr s => Hstr s
    | JArr l =>
        Harr l ((fix all (l : list JSValue) : Forall P l :=
                   match l with
                   | [] => Forall_nil P
                   | x :: r => Forall_cons x (go x) (all r)
                   end) l)
    | JObj ps =>
        Hobj ps ((fix all (ps : list (string * JSValue))
                    : Forall (fun kv => P (snd kv)) ps :=
                    match ps with
                    | [] => Forall_nil _
                    | kv :: r => Forall_cons kv (go (snd kv)) (all r)
                    end) ps)
    end.

(** [v === undefined] *)
Definition is_undefined (v : JSValue) : bool :=
  match v with
  | JUndefined => true
  | _ => false
  end.

(** What evaluating an expression gives: a value, or a thrown TypeError. *)
Inductive Completion (A : Type) : Type :=
| Normal (a : A)
| Throw (msg : string).
Arguments Normal {A} a.
Arguments Throw {A} msg.

(** ToBoolean: [undefined], [null], [false], [0] and the empty string are falsy. *)
Definition truthy (v : JSValue) : bool :=
  match v with
  | JUndefined | JNull => false
  | JBool b => b
  | JNum n => negb (n =? 0)
  | JStr s => negb (String.eqb s "")
  | JArr _ | JObj _ => true
  end.

(** [a === b] when [b] is a primitive.  Two object operands are compared by
    identity in JavaScript; the code only ever compares against the
    literals [true] and [false], so objects are never equal here. *)
Definition strict_eq (a b : JSValue) : bool :=
  match a, b with
  | JUndefined, JUndefined => true
  | JNull, JNull => true
  | JBool x, JBool y => Bool.eqb x y
  | JNum x, JNum y => x =? y
  | JStr x, JStr y => String.eqb x y
  | _, _ => false
  end.

(** Own-property lookup in an object. *)
Fixpoint lookup (k : string) (props : list (string * JSValue)) : option JSValue :=
  match props with
  | [] => None
  | (k', v) :: rest => if String.eqb k k' then Some v else lookup k rest
  end.

(** [v.k]: throws on [null] and [undefined]; a primitive or an array has no
    own property of the names used here, a missing property reads as
    [undefined]. *)
Definition get_prop (v : JSValue) (k : string) : Completion JSValue :=
  match v with
  | JUndefined => Throw "Cannot read properties of undefined"
  | JNull => Throw "Cannot read properties of null"
  | JObj props =>
      match lookup k props with
      | Some x => Normal x
      | None => Normal JUndefined
      end
  | _ => Normal JUndefined
  end.

(** [k in v] for an object [v]. *)
Definition has_property (k : string) (v : JSValue) : bool :=
  match v with
  | JObj props =>
      match lookup k props with
      | Some _ => true
      | None => false
      end
  | _ => false
  end.

(** [o.k = v] on an object literal: overwrite in place, else append. *)
Fixpoint set_prop (k : string) (v : JSValue) (props : list (string * JSValue))
  : list (string * JSValue) :=
  match props with
  | [] => [(k, v)]
  | (k', v') :: rest =>
      if String.eqb k k' then (k, v) :: rest else (k', v') :: set_prop k v rest
  end.

(** [{ ...a, ...b }]: the properties of [b] are assigned over those of [a]. *)
Definition spread (a b : list (string * JSValue)) : list (string * JSValue) :=
  fold_left (fun acc kv => set_prop (fst kv) (snd kv) acc) b a.

(** [s || d] on an optional string: [undefined] and the empty string are falsy. *)
Definition or_string (s : option string) (d : string) : string :=
  match s with
  | Some x => if String.eqb x "" then d else x
  | None => d
  end.

(** [s || undefined]. *)
Definition or_undefined (s : string) : option string :=
  if String.eqb s "" then None else Some s.

(** Truthiness of an optional string, as in [if (requestId)]. *)
Definition truthy_string (s : option string) : bool :=
  match s with
  | Some x => negb (String.eqb x "")
  | None => false
  end.

(** Destructuring default [{ x = d }]: applies only when [x] is [undefined]. *)
Definition default {A : Type} (x : option A) (d : A) : A :=
  match x with
  | Some a => a
  | None => d
  end.

(** [String(n)] for an array length or index. *)
Definition string_of_nat (n : nat) : string :=
  NilZero.string_of_uint (Nat.to_uint n).

(** [String(n)] for an integer. *)
Definition string_of_Z (n : Z) : string :=
  NilZero.string_of_int (Z.to_int n).

(** [Array.prototype.join] on an array of strings. *)
Fixpoint join (sep : string) (l : list string) : string :=
  match l with
  | [] => ""
  | [x] => x
  | x :: rest => x ++ sep ++ join sep rest
  end.

(** Interpolating an optional string in a template literal. *)
Definition show (s : option string) : string :=
  match s with
  | Some x => x
  | None => "undefined"
  end.

End JS.
Import JS.

(* ===================================================================== *)
(** ** JSON.stringify and JSON.parse *)
(* ===================================================================== *)

Module Json.

Definition dquote : ascii := ascii_of_nat 34.
Definition nl : ascii := ascii_of_nat 10.

Definition hex_char (n : nat) : ascii :=
  nth n [ "0"; "1"; "2"; "3"; "4"; "5"; "6"; "7"; "8"; "9";
          "a"; "b"; "c"; "d"; "e"; "f" ]%char "0"%char.

(** QuoteJSONString, one code unit: the two-character escapes, [\u00xx]
    for the other control characters, everything else as it is. *)
Definition escape_char (c : ascii) : string :=
  let n := nat_of_ascii c in
  if Ascii.eqb c dquote then String "\" (String dquote "")
  else if Ascii.eqb c "\" then "\\"
  else if Nat.eqb n 8 then "\b"
  else if Nat.eqb n 9 then "\t"
  else if Nat.eqb n 10 then "\n"
  else if Nat.eqb n 12 then "\f"
  else if Nat.eqb n 13 then "\r"
  else if Nat.ltb n 32 then
    "\u00" ++ String (hex_char (Nat.div n 16)) (String (hex_char (Nat.modulo n 16)) "")
  else String c "".

Fixpoint escape (s : string) : string :=
  match s with
  | EmptyString => ""
  | String c r => escape_char c ++ escape r
  end.

Definition quote (s : string) : string :=
  String dquote (escape s ++ String dquote "").

(** The closing step of SerializeJSONArray / SerializeJSONObject: no
    line breaks when [gap] is empty, one member per line otherwise. *)
Definition wrap (opening closing gap stepback indent : string) (partial : list string)
  : string :=
  match partial with
  | [] => opening ++ closing
  | _ =>
      if String.eqb gap "" then opening ++ join "," partial ++ closing
      else
        opening ++ String nl indent
        ++ join ("," ++ String nl indent) partial
        ++ String nl stepback ++ closing
  end.

(** SerializeJSONProperty: [None] is [undefined].  An [undefined] array
    element is written [null], an [undefined] property is left out. *)
Fixpoint serialize (gap indent : string) (v : JSValue) {struct v} : option string :=
  match v with
  | JUndefined => None
  | JNull => Some "null"
  | JBool b => Some (if b then "true" else "false")
  | JNum n => Some (string_of_Z n)
  | JStr s => Some (quote s)
  | JArr elems =>
      let partial :=
        map (fun x =>
               match serialize gap (indent ++ gap) x with
               | Some s => s
               | None => "null"
               end) elems in
      Some (wrap "[" "]" gap indent (indent ++ gap) partial)
  | JObj props =>
      let partial :=
        flat_map (fun kv =>
                    match serialize gap (indent ++ gap) (snd kv) with
                    | Some s =>
                        [quote (fst kv) ++ (if String.eqb gap "" then ":" else ": ") ++ s]
                    | None => []
                    end) props in
      Some (wrap "{" "}" gap indent (indent ++ gap) partial)
  end.

(** [JSON.stringify(value)] *)
Definition stringify (v : JSValue) : option string := serialize "" "" v.

(** [JSON.stringify(value, null, 2)] *)
Definition stringify_pretty (v : JSValue) : option string := serialize "  " "" v.

(** *** JSON.parse *)

Definition is_ws (c : ascii) : bool :=
  let n := nat_of_ascii c in
  Nat.eqb n 32 || Nat.eqb n 9 || Nat.eqb n 10 || Nat.eqb n 13.

Fixpoint skip_ws (s : string) : string :=
  match s with
  | String c r => if is_ws c then skip_ws r else s
  | EmptyString => EmptyString
  end.

(** The rest of [s] after the prefix [p], if [s] starts with it. *)
Fixpoint expect (p s : string) : option string :=
  match p with
  | EmptyString => Some s
  | String a p' =>
      match s with
      | String b s' => if Ascii.eqb a b then expect p' s' else None
      | EmptyString => None
      end
  end.

Definition hex_value (c : ascii) : option N :=
  let n := N_of_ascii c in
  if (48 <=? n)%N && (n <=? 57)%N then Some (n - 48)%N
  else if (97 <=? n)%N && (n <=? 102)%N then Some (n - 87)%N
  else if (65 <=? n)%N && (n <=? 70)%N then Some (n - 55)%N
  else None.

Definition hex4 (a b c d : ascii) : option N :=
  match hex_value a, hex_value b, hex_value c, hex_value d with
  | Some x, Some y, Some z, Some w => Some (((x * 16 + y) * 16 + z) * 16 + w)%N
  | _, _, _, _ => None
  end.

(** The UTF-8 bytes of a code point of the basic plane.  A surrogate
    escape has no byte form in this model of strings. *)
Definition utf8 (cp : N) : option string :=
  if (cp <? 128)%N then Some (String (ascii_of_N cp) "")
  else if (cp <? 2048)%N then
    Some (String (ascii_of_N (192 + cp / 64))
            (String (ascii_of_N (128 + cp mod 64)) ""))
  else if (55296 <=? cp)%N && (cp <=? 57343)%N then None
  else
    Some (String (ascii_of_N (224 + cp / 4096))
            (String (ascii_of_N (128 + (cp / 64) mod 64))
               (String (ascii_of_N (128 + cp mod 64)) ""))).

Definition prepend (p : string) (r : option (string * string)) : option (string * string) :=
  match r with
  | Some (x, rest) => Some (p ++ x, rest)
  | None => None
  end.

(** A string literal after its opening quote: the characters up to the
    closing quote, and what follows it. *)
Fixpoint parse_string_body (s : string) : option (string * string) :=
  match s with
  | EmptyString => None
  | String c r =>
      if Ascii.eqb c dquote then Some ("", r)
      else if Ascii.eqb c "\" then
        match r with
        | EmptyString => None
        | String e r1 =>
            if Ascii.eqb e dquote then prepend (String dquote "") (parse_string_body r1)
            else if Ascii.eqb e "\" then prepend "\" (parse_string_body r1)
            else if Ascii.eqb e "/" then prepend "/" (parse_string_body r1)
            else if Ascii.eqb e "b" then
              prepend (String (ascii_of_nat 8) "") (parse_string_body r1)
            else if Ascii.eqb e "t" then
              prepend (String (ascii_of_nat 9) "") (parse_string_body r1)
            else if Ascii.eqb e "n" then
              prepend (String (ascii_of_nat 10) "") (parse_string_body r1)
            else if Ascii.eqb e "f" then
              prepend (String (ascii_of_nat 12) "") (parse_string_body r1)
            else if Ascii.eqb e "r" then
              prepend (String (ascii_of_nat 13) "") (parse_string_body r1)
            else if Ascii.eqb e "u" then
              match r1 with
              | String h1 (String h2 (String h3 (String h4 r2))) =>
                  match hex4 h1 h2 h3 h4 with
                  | Some cp =>
                      match utf8 cp with
                      | Some bytes => prepend bytes (parse_string_body r2)
                      | None => None
                      end
                  | None => None
                  end
              | _ => None
              end
            else None
        end
      else if Nat.ltb (nat_of_ascii c) 32 then None
      else prepend (String c "") (parse_string_body r)
  end.

Definition is_digit (c : ascii) : bool :=
  let n := nat_of_ascii c in
  Nat.leb 48 n && Nat.leb n 57.

Fixpoint span_digits (s : string) : string * string :=
  match s with
  | EmptyString => ("", "")
  | String c r =>
      if is_digit c then
        let (ds, rest) := span_digits r in (String c ds, rest)
      else ("", s)
  end.

(** The integer part of a JSON number: a single 0, or digits that do not
    start with 0. *)
Definition json_int (ds : string) : bool :=
  match ds with
  | EmptyString => false
  | String c r => negb (Ascii.eqb c "0") || String.eqb r ""
  end.

(** An integer literal.  A fraction or an exponent is left unread, and the
    caller then fails on it: this model has no fractional numbers. *)
Definition parse_number (s : string) : option (Z * string) :=
  let '(negative, s1) :=
    match s with
    | String c r => if Ascii.eqb c "-" then (true, r) else (false, s)
    | EmptyString => (false, s)
    end in
  let (ds, rest) := span_digits s1 in
  if json_int ds then
    match NilZero.uint_of_string ds with
    | Some u => Some (if negative then - Z.of_uint u else Z.of_uint u, rest)
    | None => None
    end
  else None.

(** The recursive descent, with [fuel] bounding the number of nested
    calls; [parse] gives it more than any text can use. *)
Fixpoint parse_value (fuel : nat) (s : string) {struct fuel}
  : option (JSValue * string) :=
  match fuel with
  | O => None
  | S fuel' =>
      match skip_ws s with
      | EmptyString => None
      | String c r =>
          if Ascii.eqb c "n" then option_map (pair JNull) (expect "ull" r)
          else if Ascii.eqb c "t" then option_map (pair (JBool true)) (expect "rue" r)
          else if Ascii.eqb c "f" then option_map (pair (JBool false)) (expect "alse" r)
          else if Ascii.eqb c dquote then
            match parse_string_body r with
            | Some (x, r') => Some (JStr x, r')
            | None => None
            end
          else if Ascii.eqb c "[" then
            match skip_ws r with
            | EmptyString => None
            | String c' r' =>
                if Ascii.eqb c' "]" then Some (JArr [], r')
                else
                  match parse_elements fuel' r with
                  | Some (l, r'') => Some (JArr l, r'')
                  | None => None
                  end
            end
          else if Ascii.eqb c "{" then
            match skip_ws r with
            | EmptyString => None
            | String c' r' =>
                if Ascii.eqb c' "}" then Some (JObj [], r')
                else
                  match parse_members fuel' r with
                  | Some (ms, r'') => Some (JObj (spread [] ms), r'')
                  | None => None
                  end
            end
          else
            match parse_number (String c r) with
            | Some (z, r') => Some (JNum z, r')
            | None => None
            end
      end
  end

with parse_elements (fuel : nat) (s : string) {struct fuel}
  : option (list JSValue * string) :=
  match fuel with
  | O => None
  | S fuel' =>
      match parse_value fuel' s with
      | None => None
      | Some (v, r) =>
          match skip_ws r with
          | EmptyString => None
          | String c r' =>
              if Ascii.eqb c "," then
                match parse_elements fuel' r' with
                | Some (l, r'') => Some (v :: l, r'')
                | None => None
                end
              else if Ascii.eqb c "]" then Some ([v], r')
              else None
          end
      end
  end

with parse_members (fuel : nat) (s : string) {struct fuel}
  : option (list (string * JSValue) * string) :=
  match fuel with
  | O => None
  | S fuel' =>
      match skip_ws s with
      | EmptyString => None
      | String q r =>
          if Ascii.eqb q dquote then
            match parse_string_body r with
            | None => None
            | Some (k, r1) =>
                match skip_ws r1 with
                | EmptyString => None
                | String colon r2 =>
                    if Ascii.eqb colon ":" then
                      match parse_value fuel' r2 with
                      | None => None
                      | Some (v, r3) =>
                          match skip_ws r3 with
                          | EmptyString => None
                          | String c r4 =>
                              if Ascii.eqb c "," then
                                match parse_members fuel' r4 with
                                | Some (ms, r5) => Some ((k, v) :: ms, r5)
                                | None => None
                                end
                              else if Ascii.eqb c "}" then Some ([(k, v)], r4)
                              else None
                          end
                      end
                    else None
                end
            end
          else None
      end
  end.

(** [JSON.parse(text)]: one value, surrounded by white space only. *)
Definition parse (text : string) : Completion JSValue :=
  match parse_value (S (String.length text)) text with
  | Some (v, rest) =>
      match skip_ws rest with
      | EmptyString => Normal v
      | _ => Throw "SyntaxError"
      end
  | None => Throw "SyntaxError"
  end.

End Json.

(* ===================================================================== *)
(** ** src/lib/http/status-codes and the clock *)
(* ===================================================================== *)

Definition HTTPStatusKey := string.
Definition HTTPStatusValue := Z.

(** The module "../http/status-codes" is imported by response-utils.ts and
    create-router.ts: the table [HTTP] from status keys to numeric codes, the
    table [HTTP_STATUS_PHRASE] from numeric codes to phrases, and the
    constant [UNPROCESSABLE_ENTITY].  The code is parametric in them. *)
Class StatusCodes : Type := {
  HTTP : HTTPStatusKey -> HTTPStatusValue;
  HTTP_STATUS_PHRASE : HTTPStatusValue -> option string;
  UNPROCESSABLE_ENTITY : HTTPStatusValue
}.

(** Modelled from the spec: the entries of src/lib/http/status-codes.ts that
    the spec and the doc comments of response-utils.ts name, with their
    standard values ("UNPROCESSABLE_ENTITY" is 422 "Unprocessable Entity",
    "OK" is 200).  A key outside this list reads as 0 with no phrase. *)
Definition std_HTTP (k : HTTPStatusKey) : HTTPStatusValue :=
  if String.eqb k "OK" then 200
  else if String.eqb k "CREATED" then 201
  else if String.eqb k "ACCEPTED" then 202
  else if String.eqb k "NO_CONTENT" then 204
  else if String.eqb k "BAD_REQUEST" then 400
  else if String.eqb k "UNPROCESSABLE_ENTITY" then 422
  else if String.eqb k "INTERNAL_SERVER_ERROR" then 500
  else 0.

Definition std_HTTP_STATUS_PHRASE (v : HTTPStatusValue) : option string :=
  if v =? 200 then Some "OK"
  else if v =? 201 then Some "Created"
  else if v =? 202 then Some "Accepted"
  else if v =? 204 then Some "No Content"
  else if v =? 400 then Some "Bad Request"
  else if v =? 422 then Some "Unprocessable Entity"
  else if v =? 500 then Some "Internal Server Error"
  else None.

Definition std_codes : StatusCodes :=
  {| HTTP := std_HTTP;
     HTTP_STATUS_PHRASE := std_HTTP_STATUS_PHRASE;
     UNPROCESSABLE_ENTITY := 422 |}.

(** A [Date]: milliseconds since the epoch, as read by [new Date()]. *)
Definition Date := Z.

(** The runtime's date formatting, [Date.prototype.toISOString] and
    [Date.prototype.toUTCString]. *)
Class DateFormat : Type := {
  toISOString : Date -> string;
  toUTCString : Date -> string
}.

(** The two formats as ECMAScript defines them, on the proleptic Gregorian
    calendar in UTC. *)
Module JSDate.

(** The last [w] decimal digits of [n], zero-padded. *)
Fixpoint digits (w : nat) (n : Z) : string :=
  match w with
  | O => ""
  | S w' => digits w' (n / 10) ++ String (ascii_of_nat (48 + Z.to_nat (n mod 10))) ""
  end.

(** Year, month (1 to 12) and day of the month of a day number counted
    from 1970-01-01. *)
Definition civil (day : Z) : Z * Z * Z :=
  let z := day + 719468 in
  let era := z / 146097 in
  let doe := z - era * 146097 in
  let yoe := (doe - doe / 1460 + doe / 36524 - doe / 146096) / 365 in
  let doy := doe - (365 * yoe + yoe / 4 - yoe / 100) in
  let mp := (5 * doy + 2) / 153 in
  let d := doy - (153 * mp + 2) / 5 + 1 in
  let m := if mp <? 10 then mp + 3 else mp - 9 in
  let y := yoe + era * 400 + (if m <=? 2 then 1 else 0) in
  (y, m, d).

Definition time_of_day (t : Date) : string :=
  let ms := t mod 86400000 in
  digits 2 (ms / 3600000) ++ ":" ++ digits 2 ((ms / 60000) mod 60) ++ ":"
  ++ digits 2 ((ms / 1000) mod 60).

Definition toISOString (t : Date) : string :=
  let '(y, m, d) := civil (t / 86400000) in
  (if (0 <=? y) && (y <=? 9999) then digits 4 y
   else (if y <? 0 then "-" else "+") ++ digits 6 (Z.abs y))
  ++ "-" ++ digits 2 m ++ "-" ++ digits 2 d ++ "T" ++ time_of_day t
  ++ "." ++ digits 3 (t mod 1000) ++ "Z".

Definition day_name (day : Z) : string :=
  nth (Z.to_nat ((day + 4) mod 7))
      [ "Sun"; "Mon"; "Tue"; "Wed"; "Thu"; "Fri"; "Sat" ] "".

Definition month_name (m : Z) : string :=
  nth (Z.to_nat (m - 1))
      [ "Jan"; "Feb"; "Mar"; "Apr"; "May"; "Jun";
        "Jul"; "Aug"; "Sep"; "Oct"; "Nov"; "Dec" ] "".

Definition toUTCString (t : Date) : string :=
  let day := t / 86400000 in
  let '(y, m, d) := civil day in
  day_name day ++ ", " ++ digits 2 d ++ " " ++ month_name m ++ " "
  ++ (if y <? 0 then "-" else "")
  ++ (if Z.abs y <? 10000 then digits 4 (Z.abs y) else string_of_Z (Z.abs y))
  ++ " " ++ time_of_day t ++ " GMT".

End JSDate.

Definition js_dates : DateFormat :=
  {| toISOString := JSDate.toISOString; toUTCString := JSDate.toUTCString |}.

(* ===================================================================== *)
(** ** src/lib/utils/response-utils.ts *)
(* ===================================================================== *)

Module Issue.
(** [{ message: string; path?: string; code?: string }] *)
Record t : Type := mk {
  message : string;
  path : option string;
  code : option string
}.
End Issue.

Module ErrorResponse.
Record error_t : Type := mk_error {
  name : string;
  issues : list Issue.t
}.
Record t : Type := mk {
  success : bool;
  error : error_t;
  statusCode : HTTPStatusValue;
  timestamp : option string;
  requestId : option string
}.
End ErrorResponse.

Module SuccessResponse.
Record t : Type := mk {
  success : bool;
  message : string;
  statusCode : HTTPStatusValue;
  data : option JSValue;
  timestamp : option string;
  requestId : option string
}.
End SuccessResponse.

Module ErrorOptions.
Record t : Type := mk {
  name : option string;
  issues : option (list Issue.t);
  timestamp : option bool;
  requestId : option string
}.
(** [options = {}] *)
Definition empty : t := mk None None None None.
End ErrorOptions.

Module ResponseOptions.
(** [data] is [JUndefined] when the caller leaves it out. *)
Record t : Type := mk {
  data : JSValue;
  message : option string;
  statusCode : option HTTPStatusKey;
  timestamp : option bool;
  requestId : option string
}.
Definition empty : t := mk JUndefined None None None None.
End ResponseOptions.

Module Pagination.
Record t : Type := mk {
  page : Z;
  limit : Z;
  total : Z;
  totalPages : Z;
  hasNext : option bool;
  hasPrev : option bool
}.
End Pagination.

Section ResponseUtils.
Context {codes : StatusCodes} {fmt : DateFormat}.

(** [now] is what [new Date()] reads when the builder runs. *)
Definition HONO_ERROR (now : Date) (statusCode : HTTPStatusKey) (message : string)
           (options : ErrorOptions.t) : ErrorResponse.t :=
  let statusValue := HTTP statusCode in
  let defaultName := or_string (HTTP_STATUS_PHRASE statusValue) "Error" in
  let name := default (ErrorOptions.name options) defaultName in
  let issues := ErrorOptions.issues options in
  let timestamp := default (ErrorOptions.timestamp options) true in
  let requestId := ErrorOptions.requestId options in
  (* an array, even an empty one, is truthy *)
  let errorIssues :=
    match issues with
    | Some l => l
    | None => [Issue.mk message None None]
    end in
  ErrorResponse.mk
    false
    (ErrorResponse.mk_error name errorIssues)
    statusValue
    (if timestamp then Some (toISOString now) else None)
    (if truthy_string requestId then requestId else None).

Definition defaultMessages (k : HTTPStatusKey) : option string :=
  if String.eqb k "OK" then Some "Operation completed successfully"
  else if String.eqb k "CREATED" then Some "Resource created successfully"
  else if String.eqb k "ACCEPTED" then Some "Request accepted for processing"
  else if String.eqb k "NO_CONTENT" then Some "Operation completed successfully"
  else None.

Definition HONO_RESPONSE (now : Date) (options : ResponseOptions.t)
  : SuccessResponse.t :=
  let data := ResponseOptions.data options in
  let message := ResponseOptions.message options in
  let statusCode := default (ResponseOptions.statusCode options) "OK" in
  let timestamp := default (ResponseOptions.timestamp options) true in
  let requestId := ResponseOptions.requestId options in
  let statusValue := HTTP statusCode in
  let responseMessage :=
    or_string message
      (or_string (defaultMessages statusCode) "Operation completed successfully") in
  SuccessResponse.mk
    true
    responseMessage
    statusValue
    (if negb (is_undefined data) && negb (String.eqb statusCode "NO_CONTENT")
     then Some data else None)
    (if timestamp then Some (toISOString now) else None)
    (if truthy_string requestId then requestId else None).

(** [{ ...pagination, hasNext: ..., hasPrev: ... }]: the four counters, then
    the two flags, each flag the caller's value unless it is [undefined]. *)
Definition paginationData (pagination : Pagination.t) : JSValue :=
  JObj [ ("page", JNum (Pagination.page pagination));
         ("limit", JNum (Pagination.limit pagination));
         ("total", JNum (Pagination.total pagination));
         ("totalPages", JNum (Pagination.totalPages pagination));
         ("hasNext",
          JBool (default (Pagination.hasNext pagination)
                   (Pagination.page pagination <? Pagination.totalPages pagination)));
         ("hasPrev",
          JBool (default (Pagination.hasPrev pagination)
                   (Pagination.page pagination >? 1))) ].

(** [options] is [Omit<ResponseOptions, "data">]: its [data] is not read. *)
Definition HONO_PAGINATED_RESPONSE (now : Date) (data : list JSValue)
           (pagination : Pagination.t) (options : ResponseOptions.t)
  : SuccessResponse.t :=
  HONO_RESPONSE now
    (ResponseOptions.mk
       (JObj [ ("items", JArr data); ("pagination", paginationData pagination) ])
       (Some (or_string (ResponseOptions.message options)
                ("Retrieved " ++ string_of_nat (List.length data) ++ " items")))
       (ResponseOptions.statusCode options)
       (ResponseOptions.timestamp options)
       (ResponseOptions.requestId options)).

End ResponseUtils.

(** [response && response.success === false]: the left operand itself when
    it is falsy, the comparison otherwise. *)
Definition isErrorResponse (response : JSValue) : Completion JSValue :=
  if truthy response then
    match get_prop response "success" with
    | Normal v => Normal (JBool (strict_eq v (JBool false)))
    | Throw m => Throw m
    end
  else Normal response.

(** [response && response.success === true] *)
Definition isSuccessResponse (response : JSValue) : Completion JSValue :=
  if truthy response then
    match get_prop response "success" with
    | Normal v => Normal (JBool (strict_eq v (JBool true)))
    | Throw m => Throw m
    end
  else Normal response.

(** The envelopes as the JavaScript objects the builders return: the
    properties of the object literal, then the optional ones in the order
    they are assigned. *)
Definition optional (k : string) (v : option JSValue) : list (string * JSValue) :=
  match v with
  | Some x => [(k, x)]
  | None => []
  end.

Definition Issue_to_js (i : Issue.t) : JSValue :=
  JObj ([ ("message", JStr (Issue.message i)) ]
        ++ optional "path" (option_map JStr (Issue.path i))
        ++ optional "code" (option_map JStr (Issue.code i))).

Definition ErrorResponse_to_js (r : ErrorResponse.t) : JSValue :=
  JObj ([ ("success", JBool (ErrorResponse.success r));
          ("error",
           JObj [ ("name", JStr (ErrorResponse.name (ErrorResponse.error r)));
                  ("issues",
                   JArr (map Issue_to_js (ErrorResponse.issues (ErrorResponse.error r)))) ]);
          ("statusCode", JNum (ErrorResponse.statusCode r)) ]
        ++ optional "timestamp" (option_map JStr (ErrorResponse.timestamp r))
        ++ optional "requestId" (option_map JStr (ErrorResponse.requestId r))).

Definition SuccessResponse_to_js (r : SuccessResponse.t) : JSValue :=
  JObj ([ ("success", JBool (SuccessResponse.success r));
          ("message", JStr (SuccessResponse.message r));
          ("statusCode", JNum (SuccessResponse.statusCode r)) ]
        ++ optional "data" (SuccessResponse.data r)
        ++ optional "timestamp" (option_map JStr (SuccessResponse.timestamp r))
        ++ optional "requestId" (option_map JStr (SuccessResponse.requestId r))).

(* ===================================================================== *)
(** ** src/lib/core/create-router.ts *)
(* ===================================================================== *)

(** An element of a Zod issue path: a field name or an array index. *)
Inductive PropertyKey : Type :=
| Field (s : string)
| Index (n : nat).

Module ZodIssue.
Record t : Type := mk {
  message : string;
  path : list PropertyKey;
  code : string
}.
End ZodIssue.

Module ZodError.
(** [issues] is [None] when the error object carries no issue array. *)
Record t : Type := mk {
  issues : option (list ZodIssue.t)
}.
End ZodError.

Module HookResult.
(** The validation result handed to a hook.  [error] is [None] when the
    result has no [error] property (or an undefined one). *)
Record t : Type := mk {
  success : bool;
  error : option ZodError.t
}.
End HookResult.

Module Context.
(** The part of Hono's request context the hook reads: [c.get("requestId")]. *)
Record t : Type := mk {
  requestId : option string
}.
End Context.

Module JsonResponse.
(** [c.json(body, status)] *)
Record t : Type := mk {
  body : ErrorResponse.t;
  status : HTTPStatusValue
}.
End JsonResponse.

(** A hook returns a response, or nothing ([undefined]).  Its first
    argument is what [new Date()] reads while it runs. *)
Definition Hook := Date -> HookResult.t -> Context.t -> option JsonResponse.t.

Module RouterConfig.
Record t : Type := mk {
  strict : option bool;
  defaultHook : option Hook;
  includeErrorDetails : option bool
}.
Definition empty : t := mk None None None.
End RouterConfig.

Module OpenAPIHono.
(** [new OpenAPIHono({ strict, defaultHook })] *)
Record t : Type := mk {
  strict : bool;
  defaultHook : Hook
}.
End OpenAPIHono.

Definition PropertyKey_to_string (k : PropertyKey) : string :=
  match k with
  | Field s => s
  | Index n => string_of_nat n
  end.

Section CreateRouter.
Context {codes : StatusCodes} {fmt : DateFormat}.

(** The callback of [result.error.issues.map(...)]. *)
Definition map_issue (issue : ZodIssue.t) : Issue.t :=
  Issue.mk
    (ZodIssue.message issue)
    (or_undefined (join "." (map PropertyKey_to_string (ZodIssue.path issue))))
    (or_undefined (ZodIssue.code issue)).

(** [result.error?.issues] *)
Definition result_issues (result : HookResult.t) : option (list ZodIssue.t) :=
  match HookResult.error result with
  | Some e => ZodError.issues e
  | None => None
  end.

Definition createDefaultHook (includeErrorDetails : bool) : Hook :=
  fun now result c =>
    if negb (HookResult.success result) then
      let requestId := Context.requestId c in
      let issues :=
        match (if includeErrorDetails then result_issues result else None) with
        | Some l => map map_issue l
        | None => [Issue.mk "Validation failed" None None]
        end in
      let errorResponse :=
        HONO_ERROR now "UNPROCESSABLE_ENTITY" "Validation failed"
          (ErrorOptions.mk (Some "Validation Error") (Some issues) (Some true) requestId) in
      Some (JsonResponse.mk errorResponse UNPROCESSABLE_ENTITY)
    else None.

Definition createRouter (config : RouterConfig.t) : OpenAPIHono.t :=
  let strict := default (RouterConfig.strict config) false in
  let includeErrorDetails := default (RouterConfig.includeErrorDetails config) true in
  let hook :=
    match RouterConfig.defaultHook config with
    | Some h => h
    | None => createDefaultHook includeErrorDetails
    end in
  OpenAPIHono.mk strict hook.

End CreateRouter.

(* ===================================================================== *)
(** ** src/env.ts *)
(* ===================================================================== *)

Inductive NodeEnv : Type :=
| development
| test
| production.

Module Env.
(** The parsed environment, as far as the logger reads it. *)
Record t : Type := mk {
  NODE_ENV : NodeEnv;
  SENTRY_ENABLED : bool;
  SENTRY_ENABLE_LOGS : bool
}.
End Env.

Definition NodeEnv_eqb (a b : NodeEnv) : bool :=
  match a, b with
  | development, development => true
  | test, test => true
  | production, production => true
  | _, _ => false
  end.

(* ===================================================================== *)
(** ** src/lib/core/hono-logger.ts *)
(* ===================================================================== *)

Module Level.
Inductive t : Type :=
| error
| warn
| log
| debug
| verbose.

Definition eqb (a b : t) : bool :=
  match a, b with
  | error, error => true
  | warn, warn => true
  | log, log => true
  | debug, debug => true
  | verbose, verbose => true
  | _, _ => false
  end.
End Level.

(** Sentry's [SeverityLevel]. *)
Module Severity.
Inductive t : Type :=
| debug
| info
| warning
| error
| fatal.
End Severity.

Definition SENTRY_LEVELS (level : Level.t) : Severity.t :=
  match level with
  | Level.error => Severity.error
  | Level.warn => Severity.warning
  | Level.log => Severity.info
  | Level.debug => Severity.debug
  | Level.verbose => Severity.debug
  end.

(** [Record<string, any>] *)
Definition LogContext := list (string * JSValue).

Module JSError.
(** [new Error(message)] *)
Record t : Type := mk {
  message : string
}.
End JSError.

Module Tags.
(** [{ source: "custom-logger", logId }] *)
Record t : Type := mk {
  source : string;
  logId : option string
}.
End Tags.

Module User.
Record t : Type := mk {
  id : option string;
  email : option string;
  username : option string
}.
End User.

(** A call on the Sentry client, with the fields of its argument. *)
Module Sentry.
Inductive call : Type :=
| addBreadcrumb (message : string) (level : Severity.t) (category : string)
                (data : option LogContext)
| captureException (error : JSError.t) (tags : Tags.t) (level : option Severity.t)
                   (extra : option LogContext)
| captureMessage (message : string) (level : Severity.t) (tags : Tags.t)
                 (extra : option LogContext)
| setContext (key : string) (context : LogContext)
| setUser (user : User.t)
| setTag (key value : string).
End Sentry.

(** What a logger call reads and writes: the configuration and the clock,
    the random source behind [nanoid], the console and the Sentry client. *)
Module World.
Record t : Type := mk {
  env : Env.t;
  clock : Date;
  ids : nat -> string;
  drawn : nat;
  console : list string;
  collector : list Sentry.call
}.
End World.

Definition IO (A : Type) : Type := World.t -> A * World.t.

Definition ret {A : Type} (a : A) : IO A := fun w => (a, w).

Definition bind {A B : Type} (c : IO A) (k : A -> IO B) : IO B :=
  fun w => let (a, w') := c w in k a w'.

Notation "x <- c ;; k" := (bind c (fun x => k))
  (at level 61, c at next level, right associativity).
Notation "c ;; k" := (bind c (fun _ => k))
  (at level 61, right associativity).

(** [nanoid()]: the next identifier of the random source. *)
Definition nanoid : IO string :=
  fun w =>
    (World.ids w (World.drawn w),
     World.mk (World.env w) (World.clock w) (World.ids w) (S (World.drawn w))
       (World.console w) (World.collector w)).

(** [new Date()] *)
Definition new_Date : IO Date := fun w => (World.clock w, w).

(** Reading the imported [env]. *)
Definition read_env : IO Env.t := fun w => (World.env w, w).

(** [console.log(line)]: lines are kept oldest first. *)
Definition console_log (line : string) : IO unit :=
  fun w =>
    (tt,
     World.mk (World.env w) (World.clock w) (World.ids w) (World.drawn w)
       (World.console w ++ [line]) (World.collector w)).

(** A method call on [Sentry]: calls are kept oldest first. *)
Definition Sentry_call (c : Sentry.call) : IO unit :=
  fun w =>
    (tt,
     World.mk (World.env w) (World.clock w) (World.ids w) (World.drawn w)
       (World.console w) (World.collector w ++ [c])).

Definition ESC : string := String (ascii_of_nat 27) "".

(** [String.prototype.slice(a, b)] for [0 <= a <= b]. *)
Definition slice (s : string) (a b : nat) : string := substring a (b - a) s.

Fixpoint hex_digits (acc : option Z) (s : string) : option Z :=
  match s with
  | EmptyString => acc
  | String c r =>
      match Json.hex_value c with
      | Some d =>
          hex_digits (Some (match acc with
                            | Some a => a * 16 + Z.of_N d
                            | None => Z.of_N d
                            end)) r
      | None => acc
      end
  end.

(** [parseInt(s, 16)]: white space, a sign, an optional [0x], then the
    longest run of hexadecimal digits; [None] is [NaN]. *)
Definition parseInt16 (s : string) : option Z :=
  let s1 := Json.skip_ws s in
  let '(negative, s2) :=
    match s1 with
    | String c r =>
        if Ascii.eqb c "-" then (true, r)
        else if Ascii.eqb c "+" then (false, r)
        else (false, s1)
    | EmptyString => (false, s1)
    end in
  let s3 :=
    match s2 with
    | String z (String x r) =>
        if Ascii.eqb z "0" && (Ascii.eqb x "x" || Ascii.eqb x "X") then r else s2
    | _ => s2
    end in
  match hex_digits None s3 with
  | Some n => Some (if negative then - n else n)
  | None => None
  end.

Definition show_number (n : option Z) : string :=
  match n with
  | Some z => string_of_Z z
  | None => "NaN"
  end.

(** [isBg = false] *)
Definition hexToAnsi (hex : string) (isBg : option bool) : string :=
  let r := parseInt16 (slice hex 1 3) in
  let g := parseInt16 (slice hex 3 5) in
  let b := parseInt16 (slice hex 5 7) in
  ESC ++ "[" ++ (if default isBg false then "48" else "38") ++ ";2;"
  ++ show_number r ++ ";" ++ show_number g ++ ";" ++ show_number b ++ "m".

Module COLORS.
Definition Reset : string := ESC ++ "[0m".
Definition Dim : string := ESC ++ "[2m".
(** [bg = false] *)
Definition hex (h : string) (bg : option bool) : string :=
  hexToAnsi h (Some (default bg false)).
End COLORS.

(** The [try] block cannot fail here: a value of this model has no cycle
    and no BigInt, so [JSON.stringify] returns. *)
Definition formatContext (context : option LogContext) : string :=
  match context with
  | None => ""
  | Some [] => ""
  | Some ctx => String Json.nl (show (Json.stringify_pretty (JObj ctx)))
  end.

Module LogEntry.
Record t : Type := mk {
  logId : option string;
  timestamp : string;
  level : Level.t;
  message : string;
  context : LogContext;
  contextStr : string;
  fullMessage : string
}.
End LogEntry.

(** [list.includes(level)] *)
Definition includes (l : list Level.t) (level : Level.t) : bool :=
  existsb (Level.eqb level) l.

(** The value of an optional string as a property. *)
Definition js_string (s : option string) : JSValue :=
  match s with
  | Some x => JStr x
  | None => JUndefined
  end.

Definition createLogEntry {fmt : DateFormat} (level : Level.t) (message : string)
           (context : option LogContext) : IO LogEntry.t :=
  logId <- (if includes [Level.error; Level.warn; Level.verbose] level
            then (i <- nanoid ;; ret (Some i))
            else ret None) ;;
  now <- new_Date ;;
  let timestamp := toUTCString now in
  let contextStr := formatContext context in
  ret (LogEntry.mk logId timestamp level message (default context [])
         contextStr (message ++ contextStr)).

Definition HonoLogger {fmt : DateFormat} (message : string) (rest : list string) : IO unit :=
  now <- new_Date ;;
  console_log
    ((COLORS.Dim ++ "[" ++ toUTCString now ++ "]:" ++ COLORS.Reset ++ " " ++ message)
     ++ " " ++ join " " rest).

Module logger.

Definition error {fmt : DateFormat} (message : string) (context : option LogContext) : IO unit :=
  logEntry <- createLogEntry Level.error message context ;;
  console_log
    (COLORS.Dim ++ "[" ++ LogEntry.timestamp logEntry ++ "]: "
     ++ show (LogEntry.logId logEntry) ++ " -" ++ COLORS.Reset
     ++ COLORS.hex "#d11824ff" None ++ " ERROR - " ++ LogEntry.fullMessage logEntry
     ++ COLORS.Reset) ;;
  env <- read_env ;;
  if Env.SENTRY_ENABLED env && Env.SENTRY_ENABLE_LOGS env then
    Sentry_call
      (Sentry.addBreadcrumb (LogEntry.message logEntry) (SENTRY_LEVELS Level.error)
         "logger"
         (Some (spread [("logId", js_string (LogEntry.logId logEntry))]
                  (LogEntry.context logEntry)))) ;;
    Sentry_call
      (Sentry.captureException (JSError.mk (LogEntry.message logEntry))
         (Tags.mk "custom-logger" (LogEntry.logId logEntry))
         (Some Severity.error)
         (Some (LogEntry.context logEntry)))
  else ret tt.

Definition debug {fmt : DateFormat} (message : string) (context : option LogContext) : IO unit :=
  logEntry <- createLogEntry Level.debug message context ;;
  console_log
    (COLORS.Dim ++ "[" ++ LogEntry.timestamp logEntry ++ "]: -" ++ COLORS.Reset
     ++ COLORS.hex "#da61e7ff" None ++ " DEBUG - " ++ LogEntry.fullMessage logEntry
     ++ COLORS.Reset) ;;
  env <- read_env ;;
  if Env.SENTRY_ENABLED env && Env.SENTRY_ENABLE_LOGS env
     && NodeEnv_eqb (Env.NODE_ENV env) development then
    Sentry_call
      (Sentry.addBreadcrumb (LogEntry.message logEntry) (SENTRY_LEVELS Level.debug)
         "logger" (Some (LogEntry.context logEntry)))
  else ret tt.

Definition log {fmt : DateFormat} (message : string) (context : option LogContext) : IO unit :=
  logEntry <- createLogEntry Level.log message context ;;
  console_log
    (COLORS.Dim ++ "[" ++ LogEntry.timestamp logEntry ++ "]: -" ++ COLORS.Reset
     ++ COLORS.hex "#22b872ff" None ++ " LOG - " ++ LogEntry.fullMessage logEntry
     ++ COLORS.Reset) ;;
  env <- read_env ;;
  if Env.SENTRY_ENABLED env && Env.SENTRY_ENABLE_LOGS env then
    Sentry_call
      (Sentry.addBreadcrumb (LogEntry.message logEntry) (SENTRY_LEVELS Level.log)
         "logger" (Some (LogEntry.context logEntry)))
  else ret tt.

Definition warn {fmt : DateFormat} (message : string) (context : option LogContext) : IO unit :=
  logEntry <- createLogEntry Level.warn message context ;;
  console_log
    (COLORS.Dim ++ "[" ++ LogEntry.timestamp logEntry ++ "]: "
     ++ show (LogEntry.logId logEntry) ++ " -" ++ COLORS.Reset
     ++ COLORS.hex "#bb7339ff" None ++ " WARN - " ++ LogEntry.fullMessage logEntry
     ++ COLORS.Reset) ;;
  env <- read_env ;;
  if Env.SENTRY_ENABLED env && Env.SENTRY_ENABLE_LOGS env then
    Sentry_call
      (Sentry.addBreadcrumb (LogEntry.message logEntry) (SENTRY_LEVELS Level.warn)
         "logger"
         (Some (spread [("logId", js_string (LogEntry.logId logEntry))]
                  (LogEntry.context logEntry)))) ;;
    Sentry_call
      (Sentry.captureMessage (LogEntry.message logEntry) Severity.warning
         (Tags.mk "custom-logger" (LogEntry.logId logEntry))
         (Some (LogEntry.context logEntry)))
  else ret tt.

Definition verbose {fmt : DateFormat} (message : string) (context : option LogContext) : IO unit :=
  logEntry <- createLogEntry Level.verbose message context ;;
  console_log
    (COLORS.Dim ++ "[" ++ LogEntry.timestamp logEntry ++ "]: "
     ++ show (LogEntry.logId logEntry) ++ " -" ++ COLORS.Reset
     ++ COLORS.hex "#33c7de" None ++ " VERBOSE - " ++ LogEntry.fullMessage logEntry
     ++ COLORS.Reset) ;;
  env <- read_env ;;
  if Env.SENTRY_ENABLED env && Env.SENTRY_ENABLE_LOGS env
     && NodeEnv_eqb (Env.NODE_ENV env) development then
    Sentry_call
      (Sentry.addBreadcrumb (LogEntry.message logEntry) (SENTRY_LEVELS Level.verbose)
         "logger"
         (Some (spread [("logId", js_string (LogEntry.logId logEntry))]
                  (LogEntry.context logEntry))))
  else ret tt.

(** *** logger.sentry *)

Module sentry.

Definition captureException {fmt : DateFormat} (error : JSError.t) (context : option LogContext)
  : IO unit :=
  logId <- nanoid ;;
  now <- new_Date ;;
  console_log
    (COLORS.Dim ++ "[" ++ toUTCString now ++ "]: " ++ logId ++ " -" ++ COLORS.Reset
     ++ COLORS.hex "#d11824ff" None ++ " EXCEPTION - " ++ JSError.message error
     ++ COLORS.Reset) ;;
  env <- read_env ;;
  if Env.SENTRY_ENABLED env then
    Sentry_call
      (Sentry.captureException error (Tags.mk "custom-logger" (Some logId)) None context)
  else ret tt.

Definition setContext (key : string) (context : LogContext) : IO unit :=
  env <- read_env ;;
  if Env.SENTRY_ENABLED env then Sentry_call (Sentry.setContext key context)
  else ret tt.

Definition setUser (user : User.t) : IO unit :=
  env <- read_env ;;
  if Env.SENTRY_ENABLED env then Sentry_call (Sentry.setUser user)
  else ret tt.

Definition setTag (key value : string) : IO unit :=
  env <- read_env ;;
  if Env.SENTRY_ENABLED env then Sentry_call (Sentry.setTag key value)
  else ret tt.

(** [level = "info"] *)
Definition captureMessage (message : string) (level : option Severity.t)
           (extra : option LogContext) : IO unit :=
  logId <- nanoid ;;
  env <- read_env ;;
  if Env.SENTRY_ENABLED env then
    Sentry_call
      (Sentry.captureMessage message (default level Severity.info)
         (Tags.mk "custom-logger" (Some logId)) extra)
  else ret tt.

(** [category = "custom"], [level = "info"] *)
Definition addBreadcrumb (message : string) (category : option string)
           (level : option Severity.t) (data : option LogContext) : IO unit :=
  env <- read_env ;;
  if Env.SENTRY_ENABLED env then
    Sentry_call
      (Sentry.addBreadcrumb message (default level Severity.info)
         (default category "custom") data)
  else ret tt.

End sentry.

End logger.

(* ===================================================================== *)
(** ** src/lib/middlewares/on-error.middleware.ts *)
(* ===================================================================== *)

(** The constants [OK] and [INTERNAL_SERVER_ERROR] that the error handler
    imports from "../http/status-codes". *)
Class StatusConstants : Type := {
  OK : HTTPStatusValue;
  INTERNAL_SERVER_ERROR : HTTPStatusValue
}.


Module HTTPError.
(** The error handed to the handler: an [Error], with a [status] property
    when it is an [HTTPException]. *)
Record t : Type := mk {
  message : string;
  stack : option string;
  status : option HTTPStatusValue
}.
End HTTPError.

Module HonoContext.
(** What the handler reads of the request context: the status of
    [c.newResponse(null)] and [c.env?.NODE_ENV]. *)
Record t : Type := mk {
  newResponse_status : HTTPStatusValue;
  env_NODE_ENV : option string
}.
End HonoContext.

Module Response.
(** [c.json(body, status)] with an object literal as body. *)
Record t : Type := mk {
  body : JSValue;
  status : HTTPStatusValue
}.
End Response.

(** The string a [NODE_ENV] value is. *)
Definition NodeEnv_to_string (e : NodeEnv) : string :=
  match e with
  | development => "development"
  | test => "test"
  | production => "production"
  end.

(** [env] is the imported configuration. *)
Definition onError {codes : StatusCodes} {consts : StatusConstants}
           (env : Env.t) (err : HTTPError.t) (c : HonoContext.t) : Response.t :=
  let currentStatus :=
    match HTTPError.status err with
    | Some s => s
    | None => HonoContext.newResponse_status c
    end in
  let statusCode :=
    if negb (currentStatus =? OK) then currentStatus else INTERNAL_SERVER_ERROR in
  let curr_env :=
    or_string (HonoContext.env_NODE_ENV c) (NodeEnv_to_string (Env.NODE_ENV env)) in
  Response.mk
    (JObj [ ("message", JStr (HTTPError.message err));
            ("statusCode", JNum statusCode);
            ("error", JStr (default (HTTP_STATUS_PHRASE statusCode) "Unknown Error"));
            ("stack",
             if String.eqb curr_env "production" then JUndefined
             else js_string (HTTPError.stack err)) ])
    statusCode.

(* ===================================================================== *)
(** ** src/modules/mailer/service/index.ts *)
(* ===================================================================== *)

(** [string | string[]] *)
Inductive Recipients : Type :=
| One (address : string)
| Many (addresses : list string).

Module EmailOptions.
Record t : Type := mk {
  to : Recipients;
  subject : string;
  html : option string;
  text : option string;
  from : option string;
  replyTo : option string;
  cc : option Recipients;
  bcc : option Recipients
}.
End EmailOptions.

Module EmailResponse.
(** [data] is [Some d] when the object has a [data] property. *)
Record t : Type := mk {
  success : bool;
  data : option JSValue;
  error : option string
}.
End EmailResponse.

Module EmailData.
(** The object handed to [resend.emails.send]. *)
Record t : Type := mk {
  from : string;
  to : Recipients;
  subject : string;
  replyTo : option string;
  cc : option Recipients;
  bcc : option Recipients;
  html : option string;
  text : option string
}.
End EmailData.

Module Resend.
(** The [error] of a response of the Resend client. *)
Record error_t : Type := mk_error {
  message : string
}.

(** What a rejected call throws: an [Error], or some other value. *)
Inductive thrown : Type :=
| an_Error (message : string)
| not_an_Error (v : JSValue).

(** How [await resend.emails.send(emailData)] ends: with [{ data, error }]
    ([error] is [None] for [null]), or with an exception. *)
Inductive outcome : Type :=
| resolved (data : JSValue) (error : option error_t)
| rejected (t : thrown).
End Resend.

Module MailConsole.
(** The second argument of a console call. *)
Inductive payload : Type :=
| value (v : JSValue)
| api_error (e : Resend.error_t)
| exception (t : Resend.thrown).

(** [console.log(label, payload)] and [console.error(label, payload)]. *)
Inductive entry : Type :=
| log (label : string) (p : payload)
| error (label : string) (p : payload).
End MailConsole.

Module MailWorld.
(** What sending reads and writes: the Resend client (how it answers each
    message), the messages handed to it and the console, oldest first. *)
Record t : Type := mk {
  resend : EmailData.t -> Resend.outcome;
  sent : list EmailData.t;
  console : list MailConsole.entry
}.
End MailWorld.

(** [v?.k] *)
Definition optional_chain (v : JSValue) (k : string) : JSValue :=
  match v with
  | JUndefined | JNull => JUndefined
  | _ =>
      match get_prop v k with
      | Normal x => x
      | Throw _ => JUndefined
      end
  end.

(** [console.log] or [console.error] with two arguments. *)
Definition mail_console (e : MailConsole.entry) (w : MailWorld.t) : MailWorld.t :=
  MailWorld.mk (MailWorld.resend w) (MailWorld.sent w) (MailWorld.console w ++ [e]).

(** [await resend.emails.send(emailData)] *)
Definition resend_send (emailData : EmailData.t) (w : MailWorld.t)
  : Resend.outcome * MailWorld.t :=
  (MailWorld.resend w emailData,
   MailWorld.mk (MailWorld.resend w) (MailWorld.sent w ++ [emailData])
     (MailWorld.console w)).

Definition sendEmail (options : EmailOptions.t) (w : MailWorld.t)
  : EmailResponse.t * MailWorld.t :=
  if negb (truthy_string (EmailOptions.html options))
     && negb (truthy_string (EmailOptions.text options))
  then
    (EmailResponse.mk false None
       (Some "Either html or text content must be provided"), w)
  else
    let emailData :=
      EmailData.mk
        (or_string (EmailOptions.from options) "onboarding@resend.dev")
        (EmailOptions.to options)
        (EmailOptions.subject options)
        (EmailOptions.replyTo options)
        (EmailOptions.cc options)
        (EmailOptions.bcc options)
        (if truthy_string (EmailOptions.html options)
         then EmailOptions.html options else None)
        (if truthy_string (EmailOptions.text options)
         then EmailOptions.text options else None) in
    let (answer, w1) := resend_send emailData w in
    match answer with
    | Resend.resolved data (Some error) =>
        (EmailResponse.mk false None
           (Some (or_string (Some (Resend.message error)) "Failed to send email")),
         mail_console
           (MailConsole.error "❌ Email sending failed:" (MailConsole.api_error error)) w1)
    | Resend.resolved data None =>
        (EmailResponse.mk true (Some data) None,
         mail_console
           (MailConsole.log "✅ Email sent successfully:"
              (MailConsole.value (optional_chain data "id"))) w1)
    | Resend.rejected t =>
        (EmailResponse.mk false None
           (Some match t with
                 | Resend.an_Error message => message
                 | Resend.not_an_Error _ => "Unknown error occurred"
                 end),
         mail_console
           (MailConsole.error "❌ Email sending error:" (MailConsole.exception t)) w1)
    end.

(** The module "../templates" is imported by the service: the subject, the
    HTML and the plain text of each of the three messages, as functions of
    the data the service passes.  The code is parametric in them. *)
Class Templates : Type := {
  welcome_subject : string;
  welcome_html : string -> string;
  welcome_text : string -> string;
  passwordReset_subject : string;
  passwordReset_html : string -> string;
  passwordReset_text : string -> string;
  orderConfirmation_subject : string -> string -> string;
  orderConfirmation_html : string -> string -> string;
  orderConfirmation_text : string -> string -> string
}.

Section Mailer.
Context {templates : Templates}.

(** [sendEmail({ to, subject, html, text })] *)
Definition template_mail (to subject html text : string) : EmailOptions.t :=
  EmailOptions.mk (One to) subject (Some html) (Some text) None None None None.

Definition sendWelcomeEmail (to name : string) (w : MailWorld.t)
  : EmailResponse.t * MailWorld.t :=
  sendEmail
    (template_mail to welcome_subject (welcome_html name) (welcome_text name)) w.

Definition sendPasswordResetEmail (to resetLink : string) (w : MailWorld.t)
  : EmailResponse.t * MailWorld.t :=
  sendEmail
    (template_mail to passwordReset_subject (passwordReset_html resetLink)
       (passwordReset_text resetLink)) w.

Definition sendOrderConfirmationEmail (to orderNumber orderTotal : string)
           (w : MailWorld.t) : EmailResponse.t * MailWorld.t :=
  sendEmail
    (template_mail to (orderConfirmation_subject orderNumber orderTotal)
       (orderConfirmation_html orderNumber orderTotal)
       (orderConfirmation_text orderNumber orderTotal)) w.

End Mailer.

(* ===================================================================== *)
(** ** src/env.ts: the schema *)
(* ===================================================================== *)

(** [process.env]: a variable is a string, or is not set. *)
Definition ProcessEnv := string -> option string.

Module ParsedEnv.
(** [z.infer<typeof EnvSchema>] *)
Record t : Type := mk {
  NODE_ENV : NodeEnv;
  PORT : QArith_base.Q;
  DATABASE_URL : string;
  RESEND_API_KEY : string;
  SENTRY_ENABLED : bool;
  SENTRY_DSN : option string;
  SENTRY_TRACES_SAMPLE_RATE : QArith_base.Q;
  SENTRY_ENABLE_LOGS : bool
}.
End ParsedEnv.

(** What the logger reads of the parsed environment. *)
Definition logger_env (e : ParsedEnv.t) : Env.t :=
  Env.mk (ParsedEnv.NODE_ENV e) (ParsedEnv.SENTRY_ENABLED e)
    (ParsedEnv.SENTRY_ENABLE_LOGS e).

(** [z.enum(["development", "test", "production"]).default("development")]:
    [None] is a validation error. *)
Definition NODE_ENV_schema (value : option string) : option NodeEnv :=
  match value with
  | None => Some development
  | Some s =>
      if String.eqb s "development" then Some development
      else if String.eqb s "test" then Some test
      else if String.eqb s "production" then Some production
      else None
  end.

(** [z.coerce.boolean().default(d)]: the default for a variable that is not
    set, [Boolean(value)] otherwise. *)
Definition coerce_boolean_default (d : bool) (value : option string) : bool :=
  match value with
  | None => d
  | Some s => truthy (JStr s)
  end.

(** [z.string()] *)
Definition string_schema (value : option string) : option string := value.

(** [z.string().nonempty()] *)
Definition nonempty_string_schema (value : option string) : option string :=
  match value with
  | Some s => if String.eqb s "" then None else Some s
  | None => None
  end.

Section EnvSchema.

(** The runtime's [Number(text)], [None] when the result is not a finite
    number. *)
Variable Number : string -> option QArith_base.Q.

(** [z.coerce.number().default(d)] *)
Definition coerce_number_default (d : QArith_base.Q) (value : option string)
  : option QArith_base.Q :=
  match value with
  | None => Some d
  | Some s => Number s
  end.

(** [z.coerce.number().min(lo).max(hi).default(d)] *)
Definition coerce_number_between (lo hi d : QArith_base.Q) (value : option string)
  : option QArith_base.Q :=
  match value with
  | None => Some d
  | Some s =>
      match Number s with
      | Some q =>
          if QArith_base.Qle_bool lo q && QArith_base.Qle_bool q hi then Some q else None
      | None => None
      end
  end.

(** [EnvSchema.safeParse(process.env)]: [None] is a validation error, on
    which the process exits. *)
Definition EnvSchema (env : ProcessEnv) : option ParsedEnv.t :=
  match NODE_ENV_schema (env "NODE_ENV"),
        coerce_number_default (QArith_base.inject_Z 9999) (env "PORT"),
        string_schema (env "DATABASE_URL"),
        nonempty_string_schema (env "RESEND_API_KEY"),
        coerce_number_between (QArith_base.inject_Z 0) (QArith_base.inject_Z 1)
          (QArith_base.Qmake 1 10) (env "SENTRY_TRACES_SAMPLE_RATE") with
  | Some node, Some port, Some database, Some key, Some rate =>
      Some (ParsedEnv.mk node port database key
              (coerce_boolean_default false (env "SENTRY_ENABLED"))
              (env "SENTRY_DSN")
              rate
              (coerce_boolean_default true (env "SENTRY_ENABLE_LOGS")))
  | _, _, _, _, _ => None
  end.

End EnvSchema.

(* ===================================================================== *)
(** ** Specification of the JSON round trip *)
(* ===================================================================== *)

Import Json.

(** [rest] cannot continue a run of digits. *)
Definition ends_number (rest : string) : bool :=
  match rest with
  | EmptyString => true
  | String c _ => negb (is_digit c)
  end.

(** The first character of a printed integer. *)
Definition starts_number (c : ascii) : bool := is_digit c || Ascii.eqb c "-".

(** What [JSON.parse(JSON.stringify(v))] is: [undefined] becomes [null]
    in an array and disappears from an object, the rest is kept. *)
Fixpoint image (v : JSValue) : JSValue :=
  match v with
  | JUndefined => JNull
  | JArr l => JArr (map image l)
  | JObj ps =>
      JObj (spread []
              (flat_map (fun kv =>
                           if is_undefined (snd kv) then []
                           else [(fst kv, image (snd kv))]) ps))
  | _ => v
  end.

(** The text of [v] as an array element: [JSON.stringify(v)], or [null]
    for [undefined]. *)
Definition ser (v : JSValue) : string :=
  match serialize "" "" v with
  | Some s => s
  | None => "null"
  end.

(** The text of a property, ["key":value]. *)
Definition entry (kv : string * JSValue) : string :=
  quote (fst kv) ++ ":" ++ ser (snd kv).

(** The properties [JSON.stringify] writes. *)
Definition defined (kv : string * JSValue) : bool := negb (is_undefined (snd kv)).

(** The characters a serialised value can start with. *)
Definition value_start (c : ascii) : bool :=
  starts_number c || Ascii.eqb c "n" || Ascii.eqb c "t" || Ascii.eqb c "f"
  || Ascii.eqb c dquote || Ascii.eqb c "[" || Ascii.eqb c "{".

(** The parser reads back a serialised value placed before [rest]. *)
Definition reads_back (v : JSValue) : Prop :=
  forall fuel rest,
    (String.length (ser v) < fuel)%nat -> ends_number rest = true ->
    parse_value fuel (ser v ++ rest) = Some (image v, rest).

(* ===================================================================== *)
(** ** Vocabulary of the claims *)
(* ===================================================================== *)

(** A validation failure with one structured issue, at [user.email]. *)
Definition sample_issue : ZodIssue.t :=
  ZodIssue.mk "Required" [Field "user"; Field "email"] "invalid_type".

(** [{ success: false, error: { issues: [sample_issue] } }] *)
Definition sample_failure : HookResult.t :=
  HookResult.mk false (Some (ZodError.mk (Some [sample_issue]))).

(** The issues of the response a hook returns. *)
Definition response_issues (r : option JsonResponse.t) : option (list Issue.t) :=
  option_map (fun j => ErrorResponse.issues (ErrorResponse.error (JsonResponse.body j))) r.

(** C1 as the spec words it: one [{message, path, code}] per structured
    issue, the path dot-joined and left out when empty. *)
Definition spec_issue (issue : ZodIssue.t) : Issue.t :=
  let p := join "." (map PropertyKey_to_string (ZodIssue.path issue)) in
  Issue.mk (ZodIssue.message issue)
    (if String.eqb p "" then None else Some p)
    (if String.eqb (ZodIssue.code issue) "" then None else Some (ZodIssue.code issue)).

(** [{ message: "Validation failed" }] *)
Definition generic_issue : Issue.t := Issue.mk "Validation failed" None None.

(** The spec's example call. *)
Definition example_page : Pagination.t := Pagination.mk 2 3 10 4 None None.
Definition example_items : list JSValue := [JNum 1; JNum 2; JNum 3].

(** [v.a.b] *)
Definition get_path (v : JSValue) (a b : string) : Completion JSValue :=
  match get_prop v a with
  | Normal x => get_prop x b
  | Throw m => Throw m
  end.

(** [envelope.data.pagination.k], [None] when the envelope has no [data]. *)
Definition pagination_field (r : SuccessResponse.t) (k : string)
  : option (Completion JSValue) :=
  option_map (fun d => get_path d "pagination" k) (SuccessResponse.data r).

(** Whether an optional value is there. *)
Definition present {A : Type} (o : option A) : bool :=
  match o with
  | Some _ => true
  | None => false
  end.

(** The identifier [nanoid()] hands out next in world [w]. *)
Definition next_id (w : World.t) : string := World.ids w (World.drawn w).

(** The Sentry calls recorded in [w'] since [w]. *)
Definition calls_since (w w' : World.t) : list Sentry.call :=
  skipn (List.length (World.collector w)) (World.collector w').

(** Running a logger operation: the calls it makes on the Sentry client. *)
Definition calls_of (op : IO unit) (w : World.t) : list Sentry.call :=
  calls_since w (snd (op w)).

(** Calls that only leave a breadcrumb, as opposed to capturing. *)
Definition is_breadcrumb (c : Sentry.call) : bool :=
  match c with
  | Sentry.addBreadcrumb _ _ _ _ => true
  | _ => false
  end.

(** [JSON.parse(JSON.stringify(v))], when [v] serialises to a text. *)
Definition round_trip (v : JSValue) : Completion JSValue :=
  match stringify v with
  | Some text => parse text
  | None => Throw "SyntaxError"
  end.



(** One position of a fixed-width text format. *)
Inductive Slot : Type :=
| Digit
| Lit (c : ascii).

(** [s] has exactly the characters [format] asks for. *)
Fixpoint fits (format : list Slot) (s : string) : bool :=
  match format, s with
  | [], EmptyString => true
  | Digit :: format', String c s' => is_digit c && fits format' s'
  | Lit a :: format', String c s' => Ascii.eqb a c && fits format' s'
  | _, _ => false
  end.

(** [-DD-DDTDD:DD:DD.DDDZ], what follows the year in the ISO 8601 form
    ECMAScript uses. *)
Definition after_year : list Slot :=
  [ Lit "-"; Digit; Digit; Lit "-"; Digit; Digit; Lit "T";
    Digit; Digit; Lit ":"; Digit; Digit; Lit ":"; Digit; Digit;
    Lit "."; Digit; Digit; Digit; Lit "Z" ]%char.

(** [YYYY-MM-DDTHH:mm:ss.sssZ], or the expanded form with a signed
    six-digit year. *)
Definition iso8601 (s : string) : bool :=
  fits (repeat Digit 4 ++ after_year) s
  || fits (Lit "+"%char :: repeat Digit 6 ++ after_year) s
  || fits (Lit "-"%char :: repeat Digit 6 ++ after_year) s.

(* ===================================================================== *)
(** ** Vocabulary of the further properties *)
(* ===================================================================== *)

(** A text made of JSON white space only. *)
Fixpoint ws_only (s : string) : bool :=
  match s with
  | EmptyString => true
  | String c r => is_ws c && ws_only r
  end.

(** The text of [v] as an array element when [JSON.stringify] is given the
    indentation unit [gap], inside a line indented by [indent]. *)
Definition ser_indented (gap indent : string) (v : JSValue) : string :=
  match serialize gap indent v with
  | Some s => s
  | None => "null"
  end.

(** The text of a property with a non-empty [gap], ["key": value]. *)
Definition entry_indented (gap indent : string) (kv : string * JSValue) : string :=
  quote (fst kv) ++ ": " ++ ser_indented gap indent (snd kv).

(** The parser reads back an indented value placed before [rest]. *)
Definition reads_back_indented (gap : string) (v : JSValue) : Prop :=
  forall indent fuel rest,
    ws_only indent = true ->
    (String.length (ser_indented gap indent v) < fuel)%nat ->
    ends_number rest = true ->
    parse_value fuel (ser_indented gap indent v ++ rest) = Some (image v, rest).



(** One call on the logger module. *)
Inductive LoggerCall : Type :=
| call_error (message : string) (context : option LogContext)
| call_warn (message : string) (context : option LogContext)
| call_log (message : string) (context : option LogContext)
| call_debug (message : string) (context : option LogContext)
| call_verbose (message : string) (context : option LogContext)
| call_HonoLogger (message : string) (rest : list string)
| call_captureException (error : JSError.t) (context : option LogContext)
| call_setContext (key : string) (context : LogContext)
| call_setUser (user : User.t)
| call_setTag (key value : string)
| call_captureMessage (message : string) (level : option Severity.t)
                      (extra : option LogContext)
| call_addBreadcrumb (message : string) (category : option string)
                     (level : option Severity.t) (data : option LogContext).

Definition run_call {fmt : DateFormat} (c : LoggerCall) : IO unit :=
  match c with
  | call_error message context => logger.error message context
  | call_warn message context => logger.warn message context
  | call_log message context => logger.log message context
  | call_debug message context => logger.debug message context
  | call_verbose message context => logger.verbose message context
  | call_HonoLogger message rest => HonoLogger message rest
  | call_captureException error context => logger.sentry.captureException error context
  | call_setContext key context => logger.sentry.setContext key context
  | call_setUser user => logger.sentry.setUser user
  | call_setTag key value => logger.sentry.setTag key value
  | call_captureMessage message level extra =>
      logger.sentry.captureMessage message level extra
  | call_addBreadcrumb message category level data =>
      logger.sentry.addBreadcrumb message category level data
  end.

(** A program that makes the calls one after the other. *)
Fixpoint run_calls {fmt : DateFormat} (cs : list LoggerCall) : IO unit :=
  match cs with
  | [] => ret tt
  | c :: rest => run_call c ;; run_calls rest
  end.

(** The calls that print a line. *)
Definition writes_line (c : LoggerCall) : bool :=
  match c with
  | call_error _ _ | call_warn _ _ | call_log _ _ | call_debug _ _
  | call_verbose _ _ | call_HonoLogger _ _ | call_captureException _ _ => true
  | _ => false
  end.

(** The calls that take an identifier from [nanoid]. *)
Definition draws_id (c : LoggerCall) : bool :=
  match c with
  | call_error _ _ | call_warn _ _ | call_verbose _ _
  | call_captureException _ _ | call_captureMessage _ _ _ => true
  | _ => false
  end.

(** The calls outside [logger.sentry]. *)
Definition is_level_call (c : LoggerCall) : bool :=
  match c with
  | call_error _ _ | call_warn _ _ | call_log _ _ | call_debug _ _
  | call_verbose _ _ | call_HonoLogger _ _ => true
  | _ => false
  end.

(** How many of the calls satisfy [f]. *)
Definition count (f : LoggerCall -> bool) (cs : list LoggerCall) : nat :=
  List.length (filter f cs).

(** The data of the breadcrumb that comes first among [calls]. *)
Definition first_breadcrumb_data (calls : list Sentry.call) : option LogContext :=
  match calls with
  | Sentry.addBreadcrumb _ _ _ (Some data) :: _ => Some data
  | _ => None
  end.

(** The property [k] of an object built by assigning [props] in order: the
    last assignment to [k]. *)
Definition last_assigned (k : string) (props : list (string * JSValue)) : option JSValue :=
  lookup k (rev props).

(** The number two hexadecimal digits write. *)
Definition hex_pair (a b : ascii) : option Z :=
  match hex_value a, hex_value b with
  | Some x, Some y => Some (Z.of_N x * 16 + Z.of_N y)
  | _, _ => None
  end.

(** Whether the handler keeps the stack out of the body: the request's
    [NODE_ENV] when it is a non-empty string, the process's otherwise, is
    [production]. *)
Definition hides_stack (env : Env.t) (c : HonoContext.t) : Prop :=
  match HonoContext.env_NODE_ENV c with
  | Some e => if String.eqb e "" then Env.NODE_ENV env = production else e = "production"
  | None => Env.NODE_ENV env = production
  end.

(** [options.html || options.text] is truthy. *)
Definition has_content (options : EmailOptions.t) : bool :=
  truthy_string (EmailOptions.html options) || truthy_string (EmailOptions.text options).

(** The answer of the Resend client is a delivery: resolved, with no error. *)
Definition delivered (answer : Resend.outcome) : bool :=
  match answer with
  | Resend.resolved _ None => true
  | _ => false
  end.

(** Sample templates, to run the template senders on. *)
Definition sample_templates : Templates :=
  {| welcome_subject := "Welcome";
     welcome_html := fun name => "<h1>Welcome, " ++ name ++ "</h1>";
     welcome_text := fun name => "Welcome, " ++ name;
     passwordReset_subject := "Reset your password";
     passwordReset_html := fun link => "<a href=" ++ link ++ ">Reset</a>";
     passwordReset_text := fun link => "Reset: " ++ link;
     orderConfirmation_subject := fun number _ => "Order " ++ number;
     orderConfirmation_html := fun number total => "<p>" ++ number ++ ": " ++ total ++ "</p>";
     orderConfirmation_text := fun number total => number ++ ": " ++ total |}.

(** A Resend client that accepts every message. *)
Definition accepting (m : EmailData.t) : Resend.outcome :=
  Resend.resolved (JObj [("id", JStr "email_1")]) None.

(** A sample of [Number] on the texts of the examples. *)
Definition sample_Number (s : string) : option QArith_base.Q :=
  if String.eqb s "3000" then Some (QArith_base.inject_Z 3000)
  else if String.eqb s "0.5" then Some (QArith_base.Qmake 1 2)
  else if String.eqb s "2" then Some (QArith_base.inject_Z 2)
  else None.

(** A sample [process.env]: the two required variables, and
    [SENTRY_ENABLED=false] as the README writes it. *)
Definition sample_process_env : ProcessEnv :=
  fun k =>
    if String.eqb k "DATABASE_URL" then Some "postgres://localhost/app"
    else if String.eqb k "RESEND_API_KEY" then Some "re_123"
    else if String.eqb k "SENTRY_ENABLED" then Some "false"
    else None.

(** A variable is not set, or set to the empty string. *)
Definition unset_or_empty (value : option string) : Prop :=
  value = None \/ value = Some "".

(* ===================================================================== *)
(** * Facts about the runtime model *)
(* ===================================================================== *)

Local Close Scope Z_scope.

(** *** Strings and lists *)

Lemma append_assoc (a b c : string) : (a ++ b) ++ c = a ++ (b ++ c).
Proof. induction a as [|x a IH]; simpl; [reflexivity | now rewrite IH]. Qed.

Lemma append_nil_r (a : string) : a ++ "" = a.
Proof. induction a as [|x a IH]; simpl; [reflexivity | now rewrite IH]. Qed.

Lemma length_append (a b : string) :
  String.length (a ++ b) = (String.length a + String.length b)%nat.
Proof. induction a as [|x a IH]; simpl; [reflexivity | now rewrite IH]. Qed.

Lemma skipn_app_exact {A : Type} (l l' : list A) :
  skipn (List.length l) (l ++ l') = l'.
Proof. induction l as [|x l IH]; simpl; [reflexivity | exact IH]. Qed.

Lemma skipn_exact {A : Type} (l : list A) : skipn (List.length l) l = [].
Proof. induction l as [|x l IH]; simpl; [reflexivity | exact IH]. Qed.

Lemma Forall_filter {A} (P : A -> Prop) (f : A -> bool) (l : list A) :
  Forall P l -> Forall P (filter f l).
Proof.
  induction 1 as [|x l Hx Hl IH]; simpl; [constructor|].
  destruct (f x); [constructor|]; assumption.
Qed.

(** Closes a goal about the Sentry calls recorded after a run, once the
    flags are known. *)
Ltac recorded :=
  rewrite <- ?app_assoc; simpl;
  first
    [ reflexivity
    | rewrite skipn_app_exact; reflexivity
    | rewrite skipn_exact; reflexivity
    | eexists; reflexivity
    | exists []; rewrite app_nil_r; reflexivity ].

(** *** JSON strings *)

Lemma escape_char_parse (c : ascii) (rest : string) :
  parse_string_body (escape_char c ++ rest)
  = prepend (String c "") (parse_string_body rest).
Proof.
  destruct c as [[] [] [] [] [] [] [] []]; reflexivity.
Qed.

Lemma parse_string_body_escape (s rest : string) :
  parse_string_body (escape s ++ String dquote rest) = Some (s, rest).
Proof.
  induction s as [|c s IH]; simpl.
  - reflexivity.
  - rewrite append_assoc, escape_char_parse, IH. reflexivity.
Qed.

Lemma parse_quote (s rest : string) :
  exists r, quote s ++ rest = String dquote r /\ parse_string_body r = Some (s, rest).
Proof.
  unfold quote. simpl. eexists. split; [reflexivity|].
  rewrite append_assoc. simpl. apply parse_string_body_escape.
Qed.

(** *** JSON numbers *)

Lemma span_digits_stop (rest : string) :
  ends_number rest = true -> span_digits rest = ("", rest).
Proof.
  destruct rest as [|c r]; simpl; [reflexivity|].
  intros H. apply negb_true_iff in H. now rewrite H.
Qed.

Lemma span_digits_uint (d : Decimal.uint) (rest : string) :
  ends_number rest = true ->
  span_digits (NilEmpty.string_of_uint d ++ rest) = (NilEmpty.string_of_uint d, rest).
Proof.
  intros H. induction d; simpl; try (rewrite IHd; reflexivity).
  now apply span_digits_stop.
Qed.

Lemma unorm_D0 (d d' : Decimal.uint) : Decimal.unorm d = Decimal.D0 d' -> d' = Decimal.Nil.
Proof.
  induction d; simpl; intros H; try discriminate; auto.
  now inversion H.
Qed.

Lemma json_int_uint (d : Decimal.uint) :
  d <> Decimal.Nil -> Decimal.unorm d = d ->
  json_int (NilEmpty.string_of_uint d) = true.
Proof.
  intros Hn Hu. destruct d; simpl; try reflexivity; try congruence.
  rewrite (unorm_D0 (Decimal.D0 d) d Hu). reflexivity.
Qed.

Lemma to_uint_unorm (p : positive) : Decimal.unorm (Pos.to_uint p) = Pos.to_uint p.
Proof.
  rewrite <- (DecimalPos.Unsigned.to_of (Pos.to_uint p)).
  rewrite DecimalPos.Unsigned.of_to. reflexivity.
Qed.

Lemma parse_number_uint (d : Decimal.uint) (rest : string) :
  d <> Decimal.Nil -> Decimal.unorm d = d -> ends_number rest = true ->
  parse_number (NilEmpty.string_of_uint d ++ rest) = Some (Z.of_uint d, rest)
  /\ parse_number (String "-" (NilEmpty.string_of_uint d ++ rest))
     = Some (Z.opp (Z.of_uint d), rest).
Proof.
  intros Hn Hu Hr.
  assert (Hparse : NilZero.uint_of_string (NilEmpty.string_of_uint d) = Some d).
  { rewrite <- (NilZero.usu d Hn). destruct d; try reflexivity. congruence. }
  split.
  - unfold parse_number.
    assert (Hfirst : match NilEmpty.string_of_uint d ++ rest with
                     | String c r => if Ascii.eqb c "-" then (true, r)
                                     else (false, NilEmpty.string_of_uint d ++ rest)
                     | EmptyString => (false, NilEmpty.string_of_uint d ++ rest)
                     end = (false, NilEmpty.string_of_uint d ++ rest)).
    { destruct d; try reflexivity. congruence. }
    rewrite Hfirst, span_digits_uint, json_int_uint, Hparse by assumption.
    reflexivity.
  - unfold parse_number. simpl.
    rewrite span_digits_uint, json_int_uint, Hparse by assumption.
    reflexivity.
Qed.

Lemma Z_of_uint_pos (p : positive) : Z.of_uint (Pos.to_uint p) = Z.pos p.
Proof.
  unfold Z.of_uint. rewrite DecimalPos.Unsigned.of_to. reflexivity.
Qed.

Lemma string_of_uint_nonnil (d : Decimal.uint) :
  d <> Decimal.Nil -> NilZero.string_of_uint d = NilEmpty.string_of_uint d.
Proof. destruct d; try reflexivity. congruence. Qed.

Lemma parse_number_string_of_Z (z : Z) (rest : string) :
  ends_number rest = true ->
  parse_number (string_of_Z z ++ rest) = Some (z, rest).
Proof.
  intros Hr. unfold string_of_Z. destruct z as [|p|p]; simpl.
  - unfold parse_number. simpl. rewrite span_digits_stop by assumption. reflexivity.
  - rewrite string_of_uint_nonnil by apply DecimalPos.Unsigned.to_uint_nonnil.
    destruct (parse_number_uint (Pos.to_uint p) rest) as [H _]; auto.
    + apply DecimalPos.Unsigned.to_uint_nonnil.
    + apply to_uint_unorm.
    + rewrite H, Z_of_uint_pos. reflexivity.
  - rewrite string_of_uint_nonnil by apply DecimalPos.Unsigned.to_uint_nonnil.
    destruct (parse_number_uint (Pos.to_uint p) rest) as [_ H]; auto.
    + apply DecimalPos.Unsigned.to_uint_nonnil.
    + apply to_uint_unorm.
    + rewrite H, Z_of_uint_pos. reflexivity.
Qed.

Lemma string_of_Z_first (z : Z) :
  exists c r, string_of_Z z = String c r /\ starts_number c = true.
Proof.
  unfold string_of_Z. destruct z as [|p|p]; simpl.
  - eexists _, _. split; reflexivity.
  - pose proof (DecimalPos.Unsigned.to_uint_nonnil p) as Hn.
    destruct (Pos.to_uint p); try congruence; eexists _, _; split; reflexivity.
  - eexists _, _. split; reflexivity.
Qed.

(** *** JSON values *)

Lemma ser_JArr l : ser (JArr l) = wrap "[" "]" "" "" "" (map ser l).
Proof. reflexivity. Qed.

Lemma ser_JObj ps :
  ser (JObj ps) = wrap "{" "}" "" "" "" (map entry (filter defined ps)).
Proof.
  unfold ser. simpl. f_equal.
  induction ps as [|[k v] ps IH]; simpl; [reflexivity|].
  rewrite IH. destruct v; reflexivity.
Qed.

Lemma image_JObj ps :
  image (JObj ps)
  = JObj (spread [] (map (fun kv => (fst kv, image (snd kv))) (filter defined ps))).
Proof.
  simpl. do 2 f_equal.
  induction ps as [|[k v] ps IH]; simpl; [reflexivity|].
  rewrite IH. destruct v; reflexivity.
Qed.

Lemma value_start_not (c : ascii) :
  value_start c = true ->
  is_ws c = false /\ Ascii.eqb c "]" = false /\ Ascii.eqb c "}" = false.
Proof.
  destruct c as [[] [] [] [] [] [] [] []]; vm_compute; intros; try discriminate; auto.
Qed.

Lemma starts_number_not (c : ascii) :
  starts_number c = true ->
  is_ws c = false /\ Ascii.eqb c "n" = false /\ Ascii.eqb c "t" = false
  /\ Ascii.eqb c "f" = false /\ Ascii.eqb c dquote = false
  /\ Ascii.eqb c "[" = false /\ Ascii.eqb c "{" = false.
Proof.
  destruct c as [[] [] [] [] [] [] [] []]; vm_compute; intros; try discriminate;
    repeat split; reflexivity.
Qed.

Lemma ser_first (v : JSValue) :
  exists c r, ser v = String c r /\ value_start c = true.
Proof.
  destruct v as [| |b|n|s|l|ps].
  - eexists _, _; split; reflexivity.
  - eexists _, _; split; reflexivity.
  - destruct b; eexists _, _; split; reflexivity.
  - destruct (string_of_Z_first n) as (c & r & E & H).
    exists c, r. split; [exact E|]. unfold value_start. rewrite H. reflexivity.
  - eexists _, _; split; reflexivity.
  - rewrite ser_JArr. unfold wrap. destruct (map ser l); eexists _, _; split; reflexivity.
  - rewrite ser_JObj. unfold wrap.
    destruct (map entry (filter defined ps)); eexists _, _; split; reflexivity.
Qed.

Lemma join_cons (sep x : string) (l : list string) :
  join sep (x :: l) = x ++ match l with [] => "" | _ => sep ++ join sep l end.
Proof. destruct l; simpl; [now rewrite append_nil_r | reflexivity]. Qed.

Lemma parse_value_S fuel s :
  parse_value (S fuel) s =
  match skip_ws s with
  | EmptyString => None
  | String c r =>
      if Ascii.eqb c "n" then option_map (pair JNull) (expect "ull" r)
      else if Ascii.eqb c "t" then option_map (pair (JBool true)) (expect "rue" r)
      else if Ascii.eqb c "f" then option_map (pair (JBool false)) (expect "alse" r)
      else if Ascii.eqb c dquote then
        match parse_string_body r with
        | Some (x, r') => Some (JStr x, r')
        | None => None
        end
      else if Ascii.eqb c "[" then
        match skip_ws r with
        | EmptyString => None
        | String c' r' =>
            if Ascii.eqb c' "]" then Some (JArr [], r')
            else
              match parse_elements fuel r with
              | Some (l, r'') => Some (JArr l, r'')
              | None => None
              end
        end
      else if Ascii.eqb c "{" then
        match skip_ws r with
        | EmptyString => None
        | String c' r' =>
            if Ascii.eqb c' "}" then Some (JObj [], r')
            else
              match parse_members fuel r with
              | Some (ms, r'') => Some (JObj (spread [] ms), r'')
              | None => None
              end
        end
      else
        match parse_number (String c r) with
        | Some (z, r') => Some (JNum z, r')
        | None => None
        end
  end.
Proof. reflexivity. Qed.

Lemma parse_elements_S fuel s :
  parse_elements (S fuel) s =
  match parse_value fuel s with
  | None => None
  | Some (v, r) =>
      match skip_ws r with
      | EmptyString => None
      | String c r' =>
          if Ascii.eqb c "," then
            match parse_elements fuel r' with
            | Some (l, r'') => Some (v :: l, r'')
            | None => None
            end
          else if Ascii.eqb c "]" then Some ([v], r')
          else None
      end
  end.
Proof. reflexivity. Qed.

Lemma parse_members_S fuel s :
  parse_members (S fuel) s =
  match skip_ws s with
  | EmptyString => None
  | String q r =>
      if Ascii.eqb q dquote then
        match parse_string_body r with
        | None => None
        | Some (k, r1) =>
            match skip_ws r1 with
            | EmptyString => None
            | String colon r2 =>
                if Ascii.eqb colon ":" then
                  match parse_value fuel r2 with
                  | None => None
                  | Some (v, r3) =>
                      match skip_ws r3 with
                      | EmptyString => None
                      | String c r4 =>
                          if Ascii.eqb c "," then
                            match parse_members fuel r4 with
                            | Some (ms, r5) => Some ((k, v) :: ms, r5)
                            | None => None
                            end
                          else if Ascii.eqb c "}" then Some ([(k, v)], r4)
                          else None
                      end
                  end
                else None
            end
        end
      else None
  end.
Proof. reflexivity. Qed.

#[local] Arguments join : simpl never.
#[local] Arguments ser : simpl never.

Lemma parse_elements_join (l : list JSValue) :
  Forall reads_back l ->
  forall x fuel rest,
    reads_back x ->
    (String.length (join "," ((ser x :: map ser l))) + 1 < fuel)%nat ->
    parse_elements fuel (join "," ((ser x :: map ser l)) ++ String "]" rest)
    = Some ((image x :: map image l), rest).
Proof.
  induction 1 as [|y l Hy Hl IH]; intros x fuel rest Hx Hfuel.
  - destruct fuel as [|fuel]; [lia|].
    change (join "," (ser x :: map ser [])) with (ser x) in *.
    rewrite parse_elements_S, Hx; [reflexivity | lia | reflexivity].
  - destruct fuel as [|fuel]; [lia|].
    change (map ser (y :: l)) with (ser y :: map ser l) in *.
    rewrite join_cons in *.
    cbv iota in *. change ("," ++ ?a) with (String "," a) in *.
    rewrite length_append in Hfuel. simpl String.length in Hfuel.
    rewrite append_assoc. simpl append at 2.
    rewrite parse_elements_S, Hx; [| lia | reflexivity].
    simpl skip_ws. cbv iota beta. simpl Ascii.eqb. cbv iota.
    rewrite IH; [reflexivity | assumption | lia].
Qed.

Lemma parse_members_entry fuel k v tail :
  parse_members (S fuel) (entry (k, v) ++ tail) =
  match parse_value fuel (ser v ++ tail) with
  | None => None
  | Some (v0, r3) =>
      match skip_ws r3 with
      | EmptyString => None
      | String c r4 =>
          if Ascii.eqb c "," then
            match parse_members fuel r4 with
            | Some (ms, r5) => Some ((k, v0) :: ms, r5)
            | None => None
            end
          else if Ascii.eqb c "}" then Some ([(k, v0)], r4)
          else None
      end
  end.
Proof.
  rewrite parse_members_S. unfold entry, quote. simpl fst. simpl snd.
  rewrite !append_assoc.
  change (String dquote ?a ++ ?b) with (String dquote (a ++ b)).
  rewrite append_assoc.
  change (String dquote "" ++ ":" ++ ?b) with (String dquote (String ":" b)).
  change (skip_ws (String dquote ?r)) with (String dquote r).
  cbv iota beta. rewrite Ascii.eqb_refl, parse_string_body_escape.
  reflexivity.
Qed.

Lemma parse_members_join (l : list (string * JSValue)) :
  Forall (fun kv => reads_back (snd kv)) l ->
  forall kv fuel rest,
    reads_back (snd kv) ->
    (String.length (join "," (entry kv :: map entry l)) + 1 < fuel)%nat ->
    parse_members fuel (join "," (entry kv :: map entry l) ++ String "}" rest)
    = Some ((fst kv, image (snd kv)) :: map (fun kv => (fst kv, image (snd kv))) l,
            rest).
Proof.
  induction 1 as [|y l Hy Hl IH]; intros [k v] fuel rest Hx Hfuel; simpl snd in Hx.
  - destruct fuel as [|fuel]; [lia|].
    change (join "," (entry (k, v) :: map entry [])) with (entry (k, v)) in *.
    assert (String.length (ser v) < fuel)%nat.
    { clear - Hfuel. unfold entry in Hfuel. rewrite !length_append in Hfuel.
      simpl in Hfuel. lia. }
    rewrite parse_members_entry, Hx; [reflexivity | lia | reflexivity].
  - destruct fuel as [|fuel]; [lia|].
    change (map entry (y :: l)) with (entry y :: map entry l) in *.
    rewrite join_cons in *.
    cbv iota in *. change ("," ++ ?a) with (String "," a) in *.
    rewrite length_append in Hfuel. simpl String.length in Hfuel.
    assert (String.length (ser v) < fuel)%nat.
    { clear - Hfuel. unfold entry in Hfuel at 1. rewrite !length_append in Hfuel.
      simpl in Hfuel. lia. }
    rewrite append_assoc.
    change (String "," ?a ++ ?b) with (String "," (a ++ b)).
    rewrite parse_members_entry, Hx; [| lia | reflexivity].
    change (skip_ws (String "," ?r)) with (String "," r).
    cbv iota beta. change (Ascii.eqb "," ",") with true. cbv iota.
    rewrite IH; [reflexivity | assumption | lia].
Qed.

Theorem parse_ser (v : JSValue) : reads_back v.
Proof.
  induction v as [| |b|n|s|l IH|ps IH] using JSValue_ind; intros fuel rest Hfuel Hrest;
    (destruct fuel as [|fuel]; [lia|]).
  - reflexivity.
  - reflexivity.
  - destruct b; reflexivity.
  - destruct (string_of_Z_first n) as (c & r & E & Hc).
    destruct (starts_number_not c Hc) as (W & N1 & N2 & N3 & N4 & N5 & N6).
    change (ser (JNum n)) with (string_of_Z n) in *.
    rewrite parse_value_S.
    assert (Hskip : skip_ws (string_of_Z n ++ rest) = String c (r ++ rest)).
    { rewrite E. simpl. now rewrite W. }
    rewrite Hskip, N1, N2, N3, N4, N5, N6.
    change (String c (r ++ rest)) with (String c r ++ rest).
    rewrite <- E, parse_number_string_of_Z by assumption. reflexivity.
  - change (ser (JStr s)) with (quote s) in *.
    rewrite parse_value_S. unfold quote.
    change (String dquote ?a ++ ?b) with (String dquote (a ++ b)).
    rewrite append_assoc.
    change (String dquote "" ++ ?b) with (String dquote b).
    change (skip_ws (String dquote ?r)) with (String dquote r).
    cbv iota beta.
    change (Ascii.eqb dquote "n") with false.
    change (Ascii.eqb dquote "t") with false.
    change (Ascii.eqb dquote "f") with false.
    rewrite Ascii.eqb_refl, parse_string_body_escape. reflexivity.
  - rewrite ser_JArr in *. destruct l as [|x l].
    + reflexivity.
    + inversion IH as [|? ? Hx Hl]; subst.
      change (map ser (x :: l)) with (ser x :: map ser l) in *.
      unfold wrap in *. change (String.eqb "" "") with true in *. cbv iota in *.
      change ("[" ++ ?a) with (String "[" a) in *.
      simpl String.length in Hfuel. rewrite length_append in Hfuel.
      simpl String.length in Hfuel.
      rewrite parse_value_S.
      change (String "[" (join "," (ser x :: map ser l) ++ "]") ++ rest)
        with (String "[" ((join "," (ser x :: map ser l) ++ "]") ++ rest)).
      rewrite append_assoc. change ("]" ++ rest) with (String "]" rest).
      change (skip_ws (String "[" ?r)) with (String "[" r).
      cbv iota beta.
      change (Ascii.eqb "[" "n") with false.
      change (Ascii.eqb "[" "t") with false.
      change (Ascii.eqb "[" "f") with false.
      change (Ascii.eqb "[" dquote) with false.
      change (Ascii.eqb "[" "[") with true.
      cbv iota.
      destruct (ser_first x) as (c & r & E & Hc).
      destruct (value_start_not c Hc) as (W & N1 & N2).
      assert (Hskip : skip_ws (join "," (ser x :: map ser l) ++ String "]" rest)
                      = String c (r ++ match map ser l with
                                       | [] => ""
                                       | _ => "," ++ join "," (map ser l)
                                       end ++ String "]" rest)).
      { rewrite join_cons, E. rewrite append_assoc. simpl. now rewrite W. }
      rewrite Hskip, N1.
      rewrite parse_elements_join; [reflexivity | assumption | assumption | lia].
  - rewrite ser_JObj, image_JObj in *.
    apply (Forall_filter _ defined) in IH.
    destruct (filter defined ps) as [|kv l].
    + reflexivity.
    + inversion IH as [|? ? Hx Hl]; subst.
      change (map entry (kv :: l)) with (entry kv :: map entry l) in *.
      unfold wrap in *. change (String.eqb "" "") with true in *. cbv iota in *.
      change ("{" ++ ?a) with (String "{" a) in *.
      simpl String.length in Hfuel. rewrite length_append in Hfuel.
      simpl String.length in Hfuel.
      rewrite parse_value_S.
      change (String "{" (join "," (entry kv :: map entry l) ++ "}") ++ rest)
        with (String "{" ((join "," (entry kv :: map entry l) ++ "}") ++ rest)).
      rewrite append_assoc. change ("}" ++ rest) with (String "}" rest).
      change (skip_ws (String "{" ?r)) with (String "{" r).
      cbv iota beta.
      change (Ascii.eqb "{" "n") with false.
      change (Ascii.eqb "{" "t") with false.
      change (Ascii.eqb "{" "f") with false.
      change (Ascii.eqb "{" dquote) with false.
      change (Ascii.eqb "{" "[") with false.
      change (Ascii.eqb "{" "{") with true.
      cbv iota.
      assert (Hskip : exists r, skip_ws (join "," (entry kv :: map entry l) ++ String "}" rest)
                      = String dquote r).
      { rewrite join_cons. unfold entry at 1, quote. eexists. reflexivity. }
      destruct Hskip as [r Hskip]. rewrite Hskip.
      change (Ascii.eqb dquote "}") with false. cbv iota.
      rewrite parse_members_join; [reflexivity | assumption | assumption | lia].
Qed.

Theorem parse_stringify (v : JSValue) (s : string) :
  stringify v = Some s -> parse s = Normal (image v).
Proof.
  intros E. assert (Hs : s = ser v) by (unfold ser; unfold stringify in E; now rewrite E).
  subst s. unfold parse.
  rewrite <- (append_nil_r (ser v)) at 2.
  rewrite parse_ser; [reflexivity | lia | reflexivity].
Qed.

(** *** The timestamp format *)

Local Open Scope Z_scope.

Lemma fits_app (f1 f2 : list Slot) (s1 s2 : string) :
  fits f1 s1 = true -> fits f2 s2 = true -> fits (f1 ++ f2) (s1 ++ s2) = true.
Proof.
  revert s1. induction f1 as [|slot f1 IH]; intros s1 H1 H2.
  - destruct s1; [exact H2 | discriminate].
  - destruct slot as [|a], s1 as [|c s1]; simpl in *; try discriminate;
      apply andb_true_iff in H1; destruct H1 as [Hc H1];
      rewrite Hc; simpl; now apply IH.
Qed.

Lemma decimal_digit (n : Z) :
  is_digit (ascii_of_nat (48 + Z.to_nat (n mod 10))) = true.
Proof.
  assert (H : 0 <= n mod 10 < 10) by (apply Z.mod_pos_bound; lia).
  remember (Z.to_nat (n mod 10)) as k eqn:E.
  assert (Hk : (k < 10)%nat) by lia.
  clear - Hk. do 10 (destruct k as [|k]; [reflexivity|]). lia.
Qed.

Lemma digit_fits (c : ascii) : is_digit c = true -> fits [Digit] (String c "") = true.
Proof. intros H. simpl. now rewrite H. Qed.

Lemma digits_fit (w : nat) (n : Z) : fits (repeat Digit w) (JSDate.digits w n) = true.
Proof.
  revert n. induction w as [|w IH]; intros n; [reflexivity|].
  change (repeat Digit (S w)) with (Digit :: repeat Digit w).
  rewrite repeat_cons.
  change (JSDate.digits (S w) n)
    with (JSDate.digits w (n / 10)
          ++ String (ascii_of_nat (48 + Z.to_nat (n mod 10))) "").
  apply fits_app; [apply IH|].
  apply digit_fits, decimal_digit.
Qed.

Lemma lit_fits (c : ascii) : fits [Lit c] (String c "") = true.
Proof. simpl. now rewrite Ascii.eqb_refl. Qed.

Lemma time_of_day_fits (t : Date) :
  fits [Digit; Digit; Lit ":"; Digit; Digit; Lit ":"; Digit; Digit]%char
    (JSDate.time_of_day t) = true.
Proof.
  unfold JSDate.time_of_day.
  apply (fits_app (repeat Digit 2) _ _ _ (digits_fit 2 _)).
  apply (fits_app [Lit ":"%char] _ _ _ (lit_fits _)).
  apply (fits_app (repeat Digit 2) _ _ _ (digits_fit 2 _)).
  apply (fits_app [Lit ":"%char] _ _ _ (lit_fits _)).
  apply (digits_fit 2).
Qed.

Lemma after_year_fits (m d : Z) (t : Date) :
  fits after_year
    ("-" ++ JSDate.digits 2 m ++ "-" ++ JSDate.digits 2 d ++ "T"
     ++ JSDate.time_of_day t ++ "." ++ JSDate.digits 3 (t mod 1000) ++ "Z") = true.
Proof.
  apply (fits_app [Lit "-"%char] _ _ _ (lit_fits _)).
  apply (fits_app (repeat Digit 2) _ _ _ (digits_fit 2 _)).
  apply (fits_app [Lit "-"%char] _ _ _ (lit_fits _)).
  apply (fits_app (repeat Digit 2) _ _ _ (digits_fit 2 _)).
  apply (fits_app [Lit "T"%char] _ _ _ (lit_fits _)).
  apply (fits_app _ _ _ _ (time_of_day_fits t)).
  apply (fits_app [Lit "."%char] _ _ _ (lit_fits _)).
  apply (fits_app (repeat Digit 3) _ _ _ (digits_fit 3 _)).
  apply lit_fits.
Qed.

(** Whatever the clock reads, [toISOString] gives a text in ISO 8601 form. *)
Theorem toISOString_iso8601 (t : Date) : iso8601 (JSDate.toISOString t) = true.
Proof.
  unfold JSDate.toISOString, iso8601.
  destruct (JSDate.civil (t / 86400000)) as [[y m] d].
  destruct ((0 <=? y) && (y <=? 9999)).
  - rewrite (fits_app _ _ _ _ (digits_fit 4 y) (after_year_fits m d t)). reflexivity.
  - destruct (y <? 0).
    + change (("-" ++ JSDate.digits 6 (Z.abs y)) ++ ?r)
        with (String "-" (JSDate.digits 6 (Z.abs y) ++ r)).
      assert (H : fits (Lit "-"%char :: repeat Digit 6 ++ after_year)
                    (String "-" (JSDate.digits 6 (Z.abs y) ++
                       "-" ++ JSDate.digits 2 m ++ "-" ++ JSDate.digits 2 d ++ "T"
                       ++ JSDate.time_of_day t ++ "." ++ JSDate.digits 3 (t mod 1000) ++ "Z"))
                  = true).
      { apply (fits_app [Lit "-"%char] _ (String "-" "") _ (lit_fits _)).
        apply (fits_app _ _ _ _ (digits_fit 6 _) (after_year_fits m d t)). }
      rewrite H. now rewrite !orb_true_r.
    + change (("+" ++ JSDate.digits 6 (Z.abs y)) ++ ?r)
        with (String "+" (JSDate.digits 6 (Z.abs y) ++ r)).
      assert (H : fits (Lit "+"%char :: repeat Digit 6 ++ after_year)
                    (String "+" (JSDate.digits 6 (Z.abs y) ++
                       "-" ++ JSDate.digits 2 m ++ "-" ++ JSDate.digits 2 d ++ "T"
                       ++ JSDate.time_of_day t ++ "." ++ JSDate.digits 3 (t mod 1000) ++ "Z"))
                  = true).
      { apply (fits_app [Lit "+"%char] _ (String "+" "") _ (lit_fits _)).
        apply (fits_app _ _ _ _ (digits_fit 6 _) (after_year_fits m d t)). }
      rewrite H. now rewrite orb_true_r.
Qed.

(** The timestamp a builder attaches, with the runtime's [toISOString]. *)
Lemma builders_timestamp_iso8601 {codes : StatusCodes} (now : Date) :
  (forall key message options timestamp,
     ErrorResponse.timestamp (@HONO_ERROR codes js_dates now key message options)
     = Some timestamp -> iso8601 timestamp = true)
  /\ (forall options timestamp,
        SuccessResponse.timestamp (@HONO_RESPONSE codes js_dates now options)
        = Some timestamp -> iso8601 timestamp = true).
Proof.
  split.
  - intros key message options timestamp. unfold HONO_ERROR. simpl.
    destruct (default (ErrorOptions.timestamp options) true); [|discriminate].
    intros [= <-]. apply toISOString_iso8601.
  - intros options timestamp. unfold HONO_RESPONSE. simpl.
    destruct (default (ResponseOptions.timestamp options) true); [|discriminate].
    intros [= <-]. apply toISOString_iso8601.
Qed.

Local Close Scope Z_scope.

(* ===================================================================== *)
(** * The claims *)
(* ===================================================================== *)

Local Open Scope Z_scope.

(* --------------------------------------------------------------------- *)
(** ** C1: the default validation hook *)
(* --------------------------------------------------------------------- *)

(** C1, counterexample.  The hook built with [includeErrorDetails = false]
    is handed a failure that carries one structured issue, and answers with
    the generic issue, not with the mapped one. *)
Lemma C1_details_gate_counterexample :
  let r := @createDefaultHook std_codes js_dates false 0 sample_failure (Context.mk None) in
  result_issues sample_failure = Some [sample_issue]
  /\ response_issues r = Some [generic_issue]
  /\ response_issues r <> Some (map spec_issue [sample_issue]).
Proof.
  split; [reflexivity|]. split; [reflexivity|]. discriminate.
Qed.

(** C1, amended.  For every validation result with [success = false], the
    default hook returns a JSON response with status 422 whose body is the
    error envelope built from the key "UNPROCESSABLE_ENTITY" and the
    message "Validation failed": [success] false, [statusCode] 422,
    [error.name] "Validation Error", a timestamp, and [error.issues] equal
    to the structured issues mapped to [{message, path, code}] (path
    dot-joined, left out when empty; code left out when empty) when
    [includeErrorDetails] is on and the result carries structured issues,
    and equal to [[{message: "Validation failed"}]] otherwise. *)
Theorem C1_validation_hook {codes : StatusCodes} {fmt : DateFormat}
  (includeErrorDetails : bool) (now : Date) (result : HookResult.t) (c : Context.t) :
  HookResult.success result = false ->
  HTTP "UNPROCESSABLE_ENTITY" = 422 ->
  UNPROCESSABLE_ENTITY = 422 ->
  exists body,
    createDefaultHook includeErrorDetails now result c = Some (JsonResponse.mk body 422)
    /\ ErrorResponse.success body = false
    /\ ErrorResponse.statusCode body = 422
    /\ ErrorResponse.name (ErrorResponse.error body) = "Validation Error"
    /\ ErrorResponse.issues (ErrorResponse.error body)
       = match includeErrorDetails, result_issues result with
         | true, Some l => map spec_issue l
         | _, _ => [generic_issue]
         end
    /\ ErrorResponse.timestamp body = Some (toISOString now)
    /\ body = HONO_ERROR now "UNPROCESSABLE_ENTITY" "Validation failed"
                (ErrorOptions.mk (Some "Validation Error")
                   (Some (ErrorResponse.issues (ErrorResponse.error body)))
                   (Some true) (Context.requestId c)).
Proof.
  intros Hfail H422 Hconst.
  unfold createDefaultHook. rewrite Hfail, Hconst. simpl negb. cbv iota.
  eexists. split; [reflexivity|].
  unfold HONO_ERROR. simpl. rewrite H422.
  do 3 (split; [reflexivity|]).
  split; [|split; reflexivity].
  destruct includeErrorDetails; [|reflexivity].
  destruct (result_issues result); reflexivity.
Qed.

(** C1, witness: the default configuration on a failure at [user.email]. *)
Lemma C1_validation_hook_witness :
  HookResult.success sample_failure = false
  /\ @HTTP std_codes "UNPROCESSABLE_ENTITY" = 422
  /\ @UNPROCESSABLE_ENTITY std_codes = 422
  /\ exists body,
      @createDefaultHook std_codes js_dates true 0 sample_failure (Context.mk (Some "req_1"))
      = Some (JsonResponse.mk body 422)
      /\ ErrorResponse.issues (ErrorResponse.error body)
         = [Issue.mk "Required" (Some "user.email") (Some "invalid_type")]
      /\ ErrorResponse.requestId body = Some "req_1".
Proof.
  split; [reflexivity|]. split; [reflexivity|]. split; [reflexivity|].
  destruct (@C1_validation_hook std_codes js_dates true 0 sample_failure
              (Context.mk (Some "req_1")) eq_refl eq_refl eq_refl)
    as (body & Hhook & _ & _ & _ & Hissues & _ & Hbody).
  exists body. split; [exact Hhook|]. split; [exact Hissues|].
  rewrite Hbody. reflexivity.
Defined.

(** A root-level issue has no [path] in the envelope. *)
Lemma root_level_issue_has_no_path (message code : string) :
  Issue.path (map_issue (ZodIssue.mk message [] code)) = None.
Proof. reflexivity. Qed.

(** [createRouter()] installs the hook with the details on. *)
Lemma createRouter_default_hook {codes : StatusCodes} {fmt : DateFormat} :
  OpenAPIHono.defaultHook (createRouter RouterConfig.empty) = createDefaultHook true.
Proof. reflexivity. Qed.

(* --------------------------------------------------------------------- *)
(** ** C2: no data under NO_CONTENT *)
(* --------------------------------------------------------------------- *)

(** C2.  For every call of [HONO_RESPONSE]: when the status key is
    "NO_CONTENT" the envelope has no [data] field, whatever the caller
    supplied; for every other key the envelope has a [data] field exactly
    when the caller supplied one that is not [undefined], and it is the
    supplied value. *)
Theorem C2_no_content_has_no_data {codes : StatusCodes} {fmt : DateFormat}
  (now : Date) (options : ResponseOptions.t) :
  let key := default (ResponseOptions.statusCode options) "OK" in
  let supplied := ResponseOptions.data options in
  let r := HONO_RESPONSE now options in
  (key = "NO_CONTENT" ->
     SuccessResponse.data r = None
     /\ has_property "data" (SuccessResponse_to_js r) = false)
  /\ (key <> "NO_CONTENT" ->
        (supplied <> JUndefined ->
           SuccessResponse.data r = Some supplied
           /\ has_property "data" (SuccessResponse_to_js r) = true)
        /\ (supplied = JUndefined ->
              SuccessResponse.data r = None
              /\ has_property "data" (SuccessResponse_to_js r) = false)).
Proof.
  cbv zeta. unfold HONO_RESPONSE, SuccessResponse_to_js, has_property. simpl.
  split.
  - intros ->. simpl. rewrite andb_false_r. simpl.
    destruct (default (ResponseOptions.timestamp options) true),
      (truthy_string (ResponseOptions.requestId options));
      try destruct (ResponseOptions.requestId options); auto.
  - intros Hkey. apply String.eqb_neq in Hkey. rewrite Hkey. simpl. rewrite andb_true_r.
    split.
    + intros Hd. destruct (ResponseOptions.data options); try congruence; auto.
    + intros ->. simpl.
      destruct (default (ResponseOptions.timestamp options) true),
        (truthy_string (ResponseOptions.requestId options));
        try destruct (ResponseOptions.requestId options); auto.
Qed.

(** The spec's example, [buildSuccess({statusCode: "NO_CONTENT", data: {x: 1}})]. *)
Example C2_no_content_example :
  let r := @HONO_RESPONSE std_codes js_dates 0
             (ResponseOptions.mk (JObj [("x", JNum 1)]) None (Some "NO_CONTENT") None None) in
  SuccessResponse.data r = None
  /\ SuccessResponse_to_js r
     = JObj [ ("success", JBool true);
              ("message", JStr "Operation completed successfully");
              ("statusCode", JNum 204);
              ("timestamp", JStr "1970-01-01T00:00:00.000Z") ].
Proof. split; reflexivity. Qed.

(** [buildSuccess({})] *)
Example buildSuccess_default :
  @HONO_RESPONSE std_codes js_dates 0 ResponseOptions.empty
  = SuccessResponse.mk true "Operation completed successfully" 200 None
      (Some "1970-01-01T00:00:00.000Z") None.
Proof. reflexivity. Qed.

(* --------------------------------------------------------------------- *)
(** ** C3: which log entries carry an identifier *)
(* --------------------------------------------------------------------- *)

(** C3.  A log entry carries an identifier if and only if its level is
    error, warn or verbose, and carries none if and only if its level is
    log or debug; two entries of the same level agree on carrying one; and
    the five logger operations draw an identifier accordingly (one for
    error, warn and verbose, none for log and debug). *)
Theorem C3_identifier_by_level {fmt : DateFormat} :
  (forall level message context w,
     let entry := fst (createLogEntry level message context w) in
     LogEntry.level entry = level
     /\ (present (LogEntry.logId entry) = true <->
         level = Level.error \/ level = Level.warn \/ level = Level.verbose)
     /\ (present (LogEntry.logId entry) = false <->
         level = Level.log \/ level = Level.debug))
  /\ (forall level message1 context1 w1 message2 context2 w2,
        present (LogEntry.logId (fst (createLogEntry level message1 context1 w1)))
        = present (LogEntry.logId (fst (createLogEntry level message2 context2 w2))))
  /\ (forall message context w,
        World.drawn (snd (logger.error message context w)) = S (World.drawn w)
        /\ World.drawn (snd (logger.warn message context w)) = S (World.drawn w)
        /\ World.drawn (snd (logger.verbose message context w)) = S (World.drawn w)
        /\ World.drawn (snd (logger.log message context w)) = World.drawn w
        /\ World.drawn (snd (logger.debug message context w)) = World.drawn w).
Proof.
  split; [|split].
  - intros level message context w.
    destruct level; simpl; (split; [reflexivity|]); split; split; intros H;
      try reflexivity; try discriminate; auto;
      try (destruct H as [H|[H|H]]; discriminate);
      try (destruct H as [H|H]; discriminate).
  - intros level m1 c1 w1 m2 c2 w2. destruct level; reflexivity.
  - intros message context w.
    destruct w as [[node enabled logs] clock ids drawn console collector].
    destruct enabled, logs, node; repeat split.
Qed.

(* --------------------------------------------------------------------- *)
(** ** C4: debug and verbose reach Sentry in development only *)
(* --------------------------------------------------------------------- *)

(** C4.  A debug or verbose call forwards one breadcrumb to Sentry exactly
    when SENTRY_ENABLED and SENTRY_ENABLE_LOGS are both true and NODE_ENV is
    "development"; in every other case (both flags set in "production" or
    "test" included) it makes no Sentry call.  Whatever it forwards is a
    breadcrumb, never a captured exception or message, and earlier calls
    are left as they were. *)
Theorem C4_debug_verbose_forwarding {fmt : DateFormat}
  (message : string) (context : option LogContext) (w : World.t) :
  let env := World.env w in
  let forwarded :=
    match Env.NODE_ENV env with
    | development => Env.SENTRY_ENABLED env && Env.SENTRY_ENABLE_LOGS env
    | test | production => false
    end in
  let data := default context [] in
  calls_of (logger.debug message context) w
  = (if forwarded
     then [Sentry.addBreadcrumb message Severity.debug "logger" (Some data)]
     else [])
  /\ calls_of (logger.verbose message context) w
     = (if forwarded
        then [Sentry.addBreadcrumb message Severity.debug "logger"
                (Some (spread [("logId", JStr (next_id w))] data))]
        else [])
  /\ forallb is_breadcrumb (calls_of (logger.debug message context) w) = true
  /\ forallb is_breadcrumb (calls_of (logger.verbose message context) w) = true
  /\ (exists new, World.collector (snd (logger.debug message context w))
                  = (World.collector w ++ new)%list)
  /\ (exists new, World.collector (snd (logger.verbose message context w))
                  = (World.collector w ++ new)%list).
Proof.
  cbv zeta.
  destruct w as [[node enabled logs] clock ids drawn console collector].
  unfold calls_of, calls_since, next_id; simpl.
  destruct enabled, logs, node; simpl; repeat split; recorded.
Qed.

(** Both flags set in production, and in test: nothing is forwarded. *)
Example C4_production_and_test {fmt : DateFormat}
  (message : string) (context : option LogContext)
  (clock : Date) (ids : nat -> string) (drawn : nat) (console : list string)
  (collector : list Sentry.call) :
  let in_production :=
    World.mk (Env.mk production true true) clock ids drawn console collector in
  let in_test :=
    World.mk (Env.mk test true true) clock ids drawn console collector in
  calls_of (logger.debug message context) in_production = []
  /\ calls_of (logger.verbose message context) in_production = []
  /\ calls_of (logger.debug message context) in_test = []
  /\ calls_of (logger.verbose message context) in_test = [].
Proof.
  cbv zeta. unfold calls_of, calls_since. simpl. rewrite skipn_exact. repeat split.
Qed.

(* --------------------------------------------------------------------- *)
(** ** C5: error and warn are breadcrumb plus capture *)
(* --------------------------------------------------------------------- *)

(** C5.  With SENTRY_ENABLED and SENTRY_ENABLE_LOGS both true, an error
    call makes exactly two Sentry calls: one breadcrumb of severity
    "error", then [captureException] of a new [Error] carrying the message,
    tagged with the entry's identifier; a warn call makes exactly two: one
    breadcrumb, then [captureMessage] at severity "warning", tagged with
    the entry's identifier.  With either flag false, neither makes any
    Sentry call. *)
Theorem C5_error_warn_forwarding {fmt : DateFormat}
  (message : string) (context : option LogContext) (w : World.t) :
  let env := World.env w in
  let both := Env.SENTRY_ENABLED env && Env.SENTRY_ENABLE_LOGS env in
  let id := next_id w in
  let data := default context [] in
  LogEntry.logId (fst (createLogEntry Level.error message context w)) = Some id
  /\ LogEntry.logId (fst (createLogEntry Level.warn message context w)) = Some id
  /\ calls_of (logger.error message context) w
     = (if both
        then [ Sentry.addBreadcrumb message Severity.error "logger"
                 (Some (spread [("logId", JStr id)] data));
               Sentry.captureException (JSError.mk message)
                 (Tags.mk "custom-logger" (Some id)) (Some Severity.error) (Some data) ]
        else [])
  /\ calls_of (logger.warn message context) w
     = (if both
        then [ Sentry.addBreadcrumb message Severity.warning "logger"
                 (Some (spread [("logId", JStr id)] data));
               Sentry.captureMessage message Severity.warning
                 (Tags.mk "custom-logger" (Some id)) (Some data) ]
        else [])
  /\ (exists new, World.collector (snd (logger.error message context w))
                  = (World.collector w ++ new)%list)
  /\ (exists new, World.collector (snd (logger.warn message context w))
                  = (World.collector w ++ new)%list).
Proof.
  cbv zeta.
  destruct w as [[node enabled logs] clock ids drawn console collector].
  unfold calls_of, calls_since, next_id; simpl.
  destruct enabled, logs; simpl; repeat split; recorded.
Qed.

(** An error call in production with both flags set, on 2026-11-02 at
    13:29:00 UTC: the console line and the two Sentry calls. *)
Example logger_error_run :
  let w := World.mk (Env.mk production true true) 1793626140123
             (fun n => "id" ++ string_of_nat n) 0 [] [] in
  let w' := snd (@logger.error js_dates "Payment processing failed"
                   (Some [("userId", JStr "123")]) w) in
  World.console w'
  = [ COLORS.Dim ++ "[Mon, 02 Nov 2026 13:29:00 GMT]: id0 -" ++ COLORS.Reset
      ++ ESC ++ "[38;2;209;24;36m ERROR - Payment processing failed"
      ++ String Json.nl "{" ++ String Json.nl "  " ++ quote "userId" ++ ": "
      ++ quote "123" ++ String Json.nl "}" ++ COLORS.Reset ]
  /\ World.collector w'
     = [ Sentry.addBreadcrumb "Payment processing failed" Severity.error "logger"
           (Some [("logId", JStr "id0"); ("userId", JStr "123")]);
         Sentry.captureException (JSError.mk "Payment processing failed")
           (Tags.mk "custom-logger" (Some "id0")) (Some Severity.error)
           (Some [("userId", JStr "123")]) ].
Proof. split; vm_compute; reflexivity. Qed.

(** A log call, in between: one breadcrumb of severity "info" under both
    flags, nothing otherwise. *)
Lemma log_forwarding {fmt : DateFormat}
  (message : string) (context : option LogContext) (w : World.t) :
  calls_of (logger.log message context) w
  = if Env.SENTRY_ENABLED (World.env w) && Env.SENTRY_ENABLE_LOGS (World.env w)
    then [Sentry.addBreadcrumb message Severity.info "logger" (Some (default context []))]
    else [].
Proof.
  destruct w as [[node enabled logs] clock ids drawn console collector].
  unfold calls_of, calls_since; simpl.
  destruct enabled, logs; simpl; recorded.
Qed.

(* --------------------------------------------------------------------- *)
(** ** C6: the error envelope *)
(* --------------------------------------------------------------------- *)

(** C6, counterexample.  A caller who supplies [issues: []] gets an
    envelope whose [error.issues] is empty. *)
Lemma C6_empty_issues_counterexample :
  let r := @HONO_ERROR std_codes js_dates 0 "BAD_REQUEST" "Request failed"
             (ErrorOptions.mk None (Some []) None None) in
  ErrorResponse.issues (ErrorResponse.error r) = []
  /\ ~ (ErrorResponse.issues (ErrorResponse.error r) <> []).
Proof. split; [reflexivity | intros H; apply H; reflexivity]. Qed.

(** C6, amended.  For every call of [HONO_ERROR]: [success] is false,
    [statusCode] is the number of the status key, [error.name] is the
    supplied name, else the phrase of the status code, else "Error";
    [error.issues] is the supplied sequence when there is one (even an
    empty one) and [[{message}]] when there is none, so it is non-empty
    unless the caller supplies an empty sequence; and
    [buildError("UNPROCESSABLE_ENTITY", "bad input")] is
    [{success: false, error: {name: "Unprocessable Entity",
    issues: [{message: "bad input"}]}, statusCode: 422, timestamp}] with
    the timestamp [new Date().toISOString()]. *)
Theorem C6_error_envelope {codes : StatusCodes} {fmt : DateFormat}
  (now : Date) (statusCode : HTTPStatusKey) (message : string) (options : ErrorOptions.t) :
  HTTP "UNPROCESSABLE_ENTITY" = 422 ->
  HTTP_STATUS_PHRASE 422 = Some "Unprocessable Entity" ->
  let r := HONO_ERROR now statusCode message options in
  ErrorResponse.success r = false
  /\ ErrorResponse.statusCode r = HTTP statusCode
  /\ ErrorResponse.name (ErrorResponse.error r)
     = match ErrorOptions.name options, HTTP_STATUS_PHRASE (HTTP statusCode) with
       | Some n, _ => n
       | None, Some phrase => if String.eqb phrase "" then "Error" else phrase
       | None, None => "Error"
       end
  /\ ErrorResponse.issues (ErrorResponse.error r)
     = match ErrorOptions.issues options with
       | Some supplied => supplied
       | None => [Issue.mk message None None]
       end
  /\ (ErrorOptions.issues options <> Some [] ->
      ErrorResponse.issues (ErrorResponse.error r) <> [])
  /\ HONO_ERROR now "UNPROCESSABLE_ENTITY" "bad input" ErrorOptions.empty
     = ErrorResponse.mk false
         (ErrorResponse.mk_error "Unprocessable Entity" [Issue.mk "bad input" None None])
         422 (Some (toISOString now)) None.
Proof.
  intros H422 Hphrase. cbv zeta. unfold HONO_ERROR. simpl.
  split; [reflexivity|]. split; [reflexivity|].
  split.
  { destruct (ErrorOptions.name options); [reflexivity|].
    destruct (HTTP_STATUS_PHRASE (HTTP statusCode)); reflexivity. }
  split.
  { destruct (ErrorOptions.issues options) as [[|i l]|]; reflexivity. }
  split.
  { destruct (ErrorOptions.issues options) as [[|i l]|]; simpl; congruence. }
  rewrite H422, Hphrase. reflexivity.
Qed.

(** C6, witness: the standard table, on 2026-11-02 at 13:29:00.123 UTC. *)
Lemma C6_error_envelope_witness :
  @HTTP std_codes "UNPROCESSABLE_ENTITY" = 422
  /\ @HTTP_STATUS_PHRASE std_codes 422 = Some "Unprocessable Entity"
  /\ @HONO_ERROR std_codes js_dates 1793626140123 "UNPROCESSABLE_ENTITY" "bad input"
       ErrorOptions.empty
     = ErrorResponse.mk false
         (ErrorResponse.mk_error "Unprocessable Entity" [Issue.mk "bad input" None None])
         422 (Some "2026-11-02T13:29:00.123Z") None.
Proof.
  split; [reflexivity|]. split; [reflexivity|].
  destruct (@C6_error_envelope std_codes js_dates 1793626140123 "UNPROCESSABLE_ENTITY"
              "bad input" ErrorOptions.empty eq_refl eq_refl)
    as (_ & _ & _ & _ & _ & H).
  rewrite H. reflexivity.
Defined.

(* --------------------------------------------------------------------- *)
(** ** C7: the two predicates *)
(* --------------------------------------------------------------------- *)

(** C7, at the failing input.  [isErrorResponse(null)] and
    [isSuccessResponse(null)] return [null], the argument itself, where the
    claim has them return the boolean [false]. *)
Theorem C7_null_is_returned_as_is :
  isErrorResponse JNull = Normal JNull
  /\ isSuccessResponse JNull = Normal JNull
  /\ isErrorResponse JNull <> Normal (JBool false)
  /\ isSuccessResponse JNull <> Normal (JBool false).
Proof. repeat split; discriminate. Qed.

(** Neither predicate throws, whatever it is given. *)
Lemma predicates_never_throw (v : JSValue) :
  (exists r, isErrorResponse v = Normal r) /\ (exists r, isSuccessResponse v = Normal r).
Proof.
  unfold isErrorResponse, isSuccessResponse.
  destruct v as [| |b|n|s|l|ps]; simpl; try (split; eexists; reflexivity).
  - destruct b; split; eexists; reflexivity.
  - destruct (negb (Z.eqb n 0)); split; eexists; reflexivity.
  - destruct (negb (String.eqb s "")); split; eexists; reflexivity.
  - destruct (lookup "success" ps); split; eexists; reflexivity.
Qed.

(** A falsy argument comes back unchanged. *)
Lemma predicates_on_falsy (v : JSValue) :
  truthy v = false -> isErrorResponse v = Normal v /\ isSuccessResponse v = Normal v.
Proof. unfold isErrorResponse, isSuccessResponse. intros ->. split; reflexivity. Qed.

(** A truthy argument gives a boolean. *)
Lemma predicates_on_truthy (v : JSValue) :
  truthy v = true ->
  (exists b, isErrorResponse v = Normal (JBool b))
  /\ (exists b, isSuccessResponse v = Normal (JBool b)).
Proof.
  unfold isErrorResponse, isSuccessResponse. intros H. rewrite H.
  destruct v as [| |b|n|s|l|ps]; simpl in *; try discriminate;
    try (split; eexists; reflexivity).
  destruct (lookup "success" ps); split; eexists; reflexivity.
Qed.

(** Truthy values without a boolean [success] are rejected with [false]. *)
Lemma predicates_on_malformed :
  isErrorResponse (JNum 42) = Normal (JBool false)
  /\ isErrorResponse (JObj []) = Normal (JBool false)
  /\ isSuccessResponse (JNum 42) = Normal (JBool false)
  /\ isSuccessResponse (JObj []) = Normal (JBool false)
  /\ isErrorResponse (JStr "error") = Normal (JBool false)
  /\ isErrorResponse (JArr []) = Normal (JBool false).
Proof. repeat split. Qed.

Lemma predicates_on_error_envelope (r : ErrorResponse.t) :
  ErrorResponse.success r = false ->
  isErrorResponse (ErrorResponse_to_js r) = Normal (JBool true)
  /\ isSuccessResponse (ErrorResponse_to_js r) = Normal (JBool false).
Proof.
  intros H. unfold isErrorResponse, isSuccessResponse, ErrorResponse_to_js. simpl.
  rewrite H. split; reflexivity.
Qed.

Lemma predicates_on_success_envelope (r : SuccessResponse.t) :
  SuccessResponse.success r = true ->
  isSuccessResponse (SuccessResponse_to_js r) = Normal (JBool true)
  /\ isErrorResponse (SuccessResponse_to_js r) = Normal (JBool false).
Proof.
  intros H. unfold isErrorResponse, isSuccessResponse, SuccessResponse_to_js. simpl.
  rewrite H. split; reflexivity.
Qed.

(** On the envelopes the three builders return, the matching predicate
    says [true] and the other one [false]. *)
Lemma predicates_on_built_envelopes {codes : StatusCodes} {fmt : DateFormat}
  (now : Date) :
  (forall key message options,
     let v := ErrorResponse_to_js (HONO_ERROR now key message options) in
     isErrorResponse v = Normal (JBool true) /\ isSuccessResponse v = Normal (JBool false))
  /\ (forall options,
        let v := SuccessResponse_to_js (HONO_RESPONSE now options) in
        isSuccessResponse v = Normal (JBool true) /\ isErrorResponse v = Normal (JBool false))
  /\ (forall items pagination options,
        let v := SuccessResponse_to_js
                   (HONO_PAGINATED_RESPONSE now items pagination options) in
        isSuccessResponse v = Normal (JBool true) /\ isErrorResponse v = Normal (JBool false)).
Proof.
  repeat split; try (apply predicates_on_error_envelope; reflexivity);
    apply predicates_on_success_envelope; reflexivity.
Qed.

(* --------------------------------------------------------------------- *)
(** ** C8: the paginated envelope *)
(* --------------------------------------------------------------------- *)

(** C8, counterexample.  The spec's example call with
    [statusCode: "NO_CONTENT"]: the envelope has no [data], hence no
    [pagination.hasNext]. *)
Lemma C8_no_content_counterexample :
  let r := @HONO_PAGINATED_RESPONSE std_codes js_dates 0 example_items example_page
             (ResponseOptions.mk JUndefined None (Some "NO_CONTENT") None None) in
  SuccessResponse.data r = None
  /\ pagination_field r "hasNext" <> Some (Normal (JBool true))
  /\ has_property "data" (SuccessResponse_to_js r) = false.
Proof. split; [reflexivity|]. split; [discriminate | reflexivity]. Qed.

(** C8, amended.  For every call of [HONO_PAGINATED_RESPONSE] the message
    is the caller's when it is non-empty and "Retrieved {items.length}
    items" otherwise; and unless the status key is "NO_CONTENT" (where the
    envelope carries no data at all) [data] holds the items and the
    pagination counters, with [hasNext] the caller's value when supplied
    ([false] included) and [page < totalPages] otherwise, and [hasPrev] the
    caller's value when supplied and [page > 1] otherwise.  In particular
    [buildPaginated([1,2,3], {page: 2, limit: 3, total: 10, totalPages: 4})]
    has [hasNext] true, [hasPrev] true and message "Retrieved 3 items". *)
Theorem C8_paginated_envelope {codes : StatusCodes} {fmt : DateFormat}
  (now : Date) (items : list JSValue) (pagination : Pagination.t)
  (options : ResponseOptions.t) :
  let r := HONO_PAGINATED_RESPONSE now items pagination options in
  let key := default (ResponseOptions.statusCode options) "OK" in
  let page := Pagination.page pagination in
  let totalPages := Pagination.totalPages pagination in
  let retrieved := "Retrieved " ++ string_of_nat (List.length items) ++ " items" in
  let example :=
    HONO_PAGINATED_RESPONSE now example_items example_page ResponseOptions.empty in
  SuccessResponse.message r
  = match ResponseOptions.message options with
    | Some m => if String.eqb m "" then retrieved else m
    | None => retrieved
    end
  /\ (key = "NO_CONTENT" -> SuccessResponse.data r = None)
  /\ (key <> "NO_CONTENT" ->
      (exists d, SuccessResponse.data r = Some d
                 /\ get_prop d "items" = Normal (JArr items))
      /\ pagination_field r "page" = Some (Normal (JNum page))
      /\ pagination_field r "limit" = Some (Normal (JNum (Pagination.limit pagination)))
      /\ pagination_field r "total" = Some (Normal (JNum (Pagination.total pagination)))
      /\ pagination_field r "totalPages" = Some (Normal (JNum totalPages))
      /\ pagination_field r "hasNext"
         = Some (Normal (JBool match Pagination.hasNext pagination with
                               | Some supplied => supplied
                               | None => page <? totalPages
                               end))
      /\ pagination_field r "hasPrev"
         = Some (Normal (JBool match Pagination.hasPrev pagination with
                               | Some supplied => supplied
                               | None => 1 <? page
                               end)))
  /\ pagination_field example "hasNext" = Some (Normal (JBool true))
  /\ pagination_field example "hasPrev" = Some (Normal (JBool true))
  /\ SuccessResponse.message example = "Retrieved 3 items".
Proof.
  cbv zeta. unfold pagination_field, HONO_PAGINATED_RESPONSE, HONO_RESPONSE. simpl.
  split.
  { destruct (ResponseOptions.message options) as [m|]; simpl.
    - destruct (String.eqb m "") eqn:E; simpl; [reflexivity|]. rewrite E. reflexivity.
    - reflexivity. }
  split.
  { intros ->. reflexivity. }
  split; [|repeat split].
  intros Hkey. apply String.eqb_neq in Hkey. rewrite Hkey. simpl.
  split; [eexists; split; reflexivity|].
  unfold get_path, paginationData. simpl.
  do 4 (split; [reflexivity|]).
  split.
  - destruct (Pagination.hasNext pagination); reflexivity.
  - destruct (Pagination.hasPrev pagination); [reflexivity|].
    simpl. rewrite Z.gtb_ltb. reflexivity.
Qed.

(** A supplied [false] stays, although [page < totalPages] and [page > 1]. *)
Example C8_supplied_false_is_kept {codes : StatusCodes} {fmt : DateFormat} (now : Date) :
  let r := HONO_PAGINATED_RESPONSE now example_items
             (Pagination.mk 2 3 10 4 (Some false) (Some false)) ResponseOptions.empty in
  pagination_field r "hasNext" = Some (Normal (JBool false))
  /\ pagination_field r "hasPrev" = Some (Normal (JBool false)).
Proof. repeat split. Qed.

(* --------------------------------------------------------------------- *)
(** ** C9: envelopes through JSON *)
(* --------------------------------------------------------------------- *)




(** One envelope through the wire, with payload, timestamp and request id. *)
Example C9_on_the_wire :
  let r := @HONO_RESPONSE std_codes js_dates 1793626140123
             (ResponseOptions.mk (JObj [("id", JNum 1); ("name", JStr "John")])
                None (Some "CREATED") None (Some "req_123456")) in
  stringify (SuccessResponse_to_js r)
  = Some ("{" ++ quote "success" ++ ":true,"
          ++ quote "message" ++ ":" ++ quote "Resource created successfully" ++ ","
          ++ quote "statusCode" ++ ":201,"
          ++ quote "data" ++ ":{" ++ quote "id" ++ ":1," ++ quote "name" ++ ":"
          ++ quote "John" ++ "},"
          ++ quote "timestamp" ++ ":" ++ quote "2026-11-02T13:29:00.123Z" ++ ","
          ++ quote "requestId" ++ ":" ++ quote "req_123456" ++ "}")
  /\ round_trip (SuccessResponse_to_js r) = Normal (SuccessResponse_to_js r).
Proof. split; vm_compute; reflexivity. Qed.

(* --------------------------------------------------------------------- *)
(** ** C10: the Sentry passthroughs *)
(* --------------------------------------------------------------------- *)

(** C10.  Each operation of [logger.sentry] ([captureException],
    [captureMessage], [setContext], [setUser], [setTag], [addBreadcrumb])
    makes its one Sentry call exactly when SENTRY_ENABLED is true, whatever
    SENTRY_ENABLE_LOGS and NODE_ENV are, and makes no Sentry call when
    SENTRY_ENABLED is false. *)
Theorem C10_sentry_passthroughs {fmt : DateFormat} (w : World.t) :
  let enabled := Env.SENTRY_ENABLED (World.env w) in
  let tags := Tags.mk "custom-logger" (Some (next_id w)) in
  (forall error context,
     calls_of (logger.sentry.captureException error context) w
     = if enabled then [Sentry.captureException error tags None context] else [])
  /\ (forall message level extra,
        calls_of (logger.sentry.captureMessage message level extra) w
        = if enabled
          then [Sentry.captureMessage message (default level Severity.info) tags extra]
          else [])
  /\ (forall key context,
        calls_of (logger.sentry.setContext key context) w
        = if enabled then [Sentry.setContext key context] else [])
  /\ (forall user,
        calls_of (logger.sentry.setUser user) w
        = if enabled then [Sentry.setUser user] else [])
  /\ (forall key value,
        calls_of (logger.sentry.setTag key value) w
        = if enabled then [Sentry.setTag key value] else [])
  /\ (forall message category level data,
        calls_of (logger.sentry.addBreadcrumb message category level data) w
        = if enabled
          then [Sentry.addBreadcrumb message (default level Severity.info)
                  (default category "custom") data]
          else []).
Proof.
  cbv zeta.
  destruct w as [[node enabled logs] clock ids drawn console collector].
  unfold calls_of, calls_since, next_id; simpl.
  destruct enabled; simpl; repeat split; intros; recorded.
Qed.

(* ===================================================================== *)
(** * Further properties *)
(* ===================================================================== *)

(* --------------------------------------------------------------------- *)
(** ** JSON with indentation *)
(* --------------------------------------------------------------------- *)

#[local] Arguments ser_indented : simpl never.

Lemma skip_ws_app (w s : string) : ws_only w = true -> skip_ws (w ++ s) = skip_ws s.
Proof.
  induction w as [|c w IH]; simpl; [reflexivity|].
  intros H. apply andb_true_iff in H. destruct H as [Hc Hw].
  rewrite Hc. now apply IH.
Qed.

Lemma ws_only_app (a b : string) : ws_only (a ++ b) = ws_only a && ws_only b.
Proof.
  induction a as [|c a IH]; simpl; [reflexivity|].
  rewrite IH. now rewrite andb_assoc.
Qed.

Lemma parse_value_ws (fuel : nat) (w s : string) :
  ws_only w = true -> parse_value fuel (w ++ s) = parse_value fuel s.
Proof.
  intros H. destruct fuel as [|fuel]; [reflexivity|].
  rewrite !parse_value_S, skip_ws_app by assumption. reflexivity.
Qed.

Lemma parse_elements_ws (fuel : nat) (w s : string) :
  ws_only w = true -> parse_elements fuel (w ++ s) = parse_elements fuel s.
Proof.
  intros H. destruct fuel as [|fuel]; [reflexivity|].
  rewrite !parse_elements_S, parse_value_ws by assumption. reflexivity.
Qed.

Lemma parse_members_ws (fuel : nat) (w s : string) :
  ws_only w = true -> parse_members fuel (w ++ s) = parse_members fuel s.
Proof.
  intros H. destruct fuel as [|fuel]; [reflexivity|].
  rewrite !parse_members_S, skip_ws_app by assumption. reflexivity.
Qed.

Section Indented.

Variable gap : string.

Hypothesis gap_ws : ws_only gap = true.

Hypothesis gap_nonempty : String.eqb gap "" = false.

Lemma ser_indented_JArr indent l :
  ser_indented gap indent (JArr l)
  = wrap "[" "]" gap indent (indent ++ gap) (map (ser_indented gap (indent ++ gap)) l).
Proof. reflexivity. Qed.

Lemma ser_indented_JObj indent ps :
  ser_indented gap indent (JObj ps)
  = wrap "{" "}" gap indent (indent ++ gap)
      (map (entry_indented gap (indent ++ gap)) (filter defined ps)).
Proof.
  unfold ser_indented at 1. simpl. f_equal.
  induction ps as [|[k v] ps IH]; simpl; [reflexivity|].
  rewrite IH, gap_nonempty. unfold entry_indented, ser_indented.
  destruct v; reflexivity.
Qed.

Lemma wrap_indented opening closing stepback indent x l :
  wrap opening closing gap stepback indent (x :: l)
  = opening ++ String nl indent
    ++ join ("," ++ String nl indent) (x :: l) ++ String nl stepback ++ closing.
Proof. unfold wrap. now rewrite gap_nonempty. Qed.

Lemma ser_indented_first indent v :
  exists c r, ser_indented gap indent v = String c r /\ value_start c = true.
Proof.
  destruct v as [| |b|n|s|l|ps].
  - eexists _, _; split; reflexivity.
  - eexists _, _; split; reflexivity.
  - destruct b; eexists _, _; split; reflexivity.
  - destruct (string_of_Z_first n) as (c & r & E & H).
    exists c, r. split; [exact E|]. unfold value_start. rewrite H. reflexivity.
  - eexists _, _; split; reflexivity.
  - rewrite ser_indented_JArr.
    destruct (map (ser_indented gap (indent ++ gap)) l).
    + eexists _, _; split; reflexivity.
    + rewrite wrap_indented. eexists _, _; split; reflexivity.
  - rewrite ser_indented_JObj.
    destruct (map (entry_indented gap (indent ++ gap)) (filter defined ps)).
    + eexists _, _; split; reflexivity.
    + rewrite wrap_indented. eexists _, _; split; reflexivity.
Qed.

Lemma parse_elements_indented (l : list JSValue) :
  Forall (reads_back_indented gap) l ->
  forall x indent w fuel tail rest,
    reads_back_indented gap x ->
    ws_only indent = true -> ws_only w = true ->
    ends_number tail = true -> skip_ws tail = String "]" rest ->
    (String.length (join ("," ++ String nl indent)
                      (ser_indented gap indent x :: map (ser_indented gap indent) l))
     + 1 < fuel)%nat ->
    parse_elements fuel
      (w ++ join ("," ++ String nl indent)
              (ser_indented gap indent x :: map (ser_indented gap indent) l)
         ++ tail)
    = Some (image x :: map image l, rest).
Proof.
  induction 1 as [|y l Hy Hl IH];
    intros x indent w fuel tail rest Hx Hind Hw Htail Hclose Hfuel;
    (destruct fuel as [|fuel]; [lia|]);
    rewrite parse_elements_ws by assumption.
  - change (join ("," ++ String nl indent) (ser_indented gap indent x :: map _ []))
      with (ser_indented gap indent x) in *.
    rewrite parse_elements_S, Hx; [| assumption | lia | assumption].
    rewrite Hclose. reflexivity.
  - change (map (ser_indented gap indent) (y :: l))
      with (ser_indented gap indent y :: map (ser_indented gap indent) l) in *.
    rewrite join_cons in *. cbv iota in *.
    change (("," ++ String nl indent) ++ ?a) with (String "," (String nl indent ++ a)) in *.
    rewrite length_append in Hfuel. simpl String.length in Hfuel.
    rewrite length_append in Hfuel.
    rewrite append_assoc.
    change (String "," ?a ++ ?b) with (String "," (a ++ b)).
    rewrite parse_elements_S, Hx; [| assumption | lia | reflexivity].
    change (skip_ws (String "," ?r)) with (String "," r).
    cbv iota beta. change (Ascii.eqb "," ",") with true. cbv iota.
    rewrite append_assoc.
    rewrite (IH y indent (String nl indent) fuel tail rest); try assumption.
    + reflexivity.
    + change ("," ++ String nl indent) with (String "," (String nl indent)). lia.
Qed.

Lemma parse_members_entry_indented fuel indent w k v tail :
  ws_only w = true ->
  parse_members (S fuel) (w ++ entry_indented gap indent (k, v) ++ tail) =
  match parse_value fuel (ser_indented gap indent v ++ tail) with
  | None => None
  | Some (v0, r3) =>
      match skip_ws r3 with
      | EmptyString => None
      | String c r4 =>
          if Ascii.eqb c "," then
            match parse_members fuel r4 with
            | Some (ms, r5) => Some ((k, v0) :: ms, r5)
            | None => None
            end
          else if Ascii.eqb c "}" then Some ([(k, v0)], r4)
          else None
      end
  end.
Proof.
  intros Hw. rewrite parse_members_ws by assumption.
  rewrite parse_members_S. unfold entry_indented, quote. simpl fst. simpl snd.
  rewrite !append_assoc.
  change (String dquote ?a ++ ?b) with (String dquote (a ++ b)).
  rewrite append_assoc.
  change (String dquote "" ++ ": " ++ ?b) with (String dquote (String ":" (" " ++ b))).
  change (skip_ws (String dquote ?r)) with (String dquote r).
  cbv iota beta. rewrite Ascii.eqb_refl, parse_string_body_escape.
  change (skip_ws (String ":" ?r)) with (String ":" r).
  cbv iota beta. change (Ascii.eqb ":" ":") with true. cbv iota.
  rewrite parse_value_ws by reflexivity.
  reflexivity.
Qed.

Lemma parse_members_indented (l : list (string * JSValue)) :
  Forall (fun kv => reads_back_indented gap (snd kv)) l ->
  forall kv indent w fuel tail rest,
    reads_back_indented gap (snd kv) ->
    ws_only indent = true -> ws_only w = true ->
    ends_number tail = true -> skip_ws tail = String "}" rest ->
    (String.length (join ("," ++ String nl indent)
                      (entry_indented gap indent kv :: map (entry_indented gap indent) l))
     + 1 < fuel)%nat ->
    parse_members fuel
      (w ++ join ("," ++ String nl indent)
              (entry_indented gap indent kv :: map (entry_indented gap indent) l)
         ++ tail)
    = Some ((fst kv, image (snd kv)) :: map (fun kv => (fst kv, image (snd kv))) l,
            rest).
Proof.
  induction 1 as [|y l Hy Hl IH];
    intros [k v] indent w fuel tail rest Hx Hind Hw Htail Hclose Hfuel;
    simpl snd in Hx; simpl fst; simpl snd;
    (destruct fuel as [|fuel]; [lia|]).
  - change (join ("," ++ String nl indent) (entry_indented gap indent (k, v) :: map _ []))
      with (entry_indented gap indent (k, v)) in *.
    assert (String.length (ser_indented gap indent v) < fuel)%nat.
    { clear - Hfuel. unfold entry_indented in Hfuel.
      rewrite !length_append in Hfuel. simpl in Hfuel. lia. }
    rewrite parse_members_entry_indented, Hx by assumption.
    rewrite Hclose. reflexivity.
  - change (map (entry_indented gap indent) (y :: l))
      with (entry_indented gap indent y :: map (entry_indented gap indent) l) in *.
    rewrite join_cons in *. cbv iota in *.
    change (("," ++ String nl indent) ++ ?a) with (String "," (String nl indent ++ a)) in *.
    rewrite length_append in Hfuel. simpl String.length in Hfuel.
    rewrite length_append in Hfuel.
    assert (String.length (ser_indented gap indent v) < fuel)%nat.
    { clear - Hfuel. unfold entry_indented in Hfuel at 1.
      rewrite !length_append in Hfuel. simpl in Hfuel. lia. }
    rewrite append_assoc.
    change (String "," ?a ++ ?b) with (String "," (a ++ b)).
    rewrite parse_members_entry_indented, Hx; [| assumption | lia | reflexivity | assumption].
    change (skip_ws (String "," ?r)) with (String "," r).
    cbv iota beta. change (Ascii.eqb "," ",") with true. cbv iota.
    rewrite append_assoc.
    rewrite (IH y indent (String nl indent) fuel tail rest); try assumption.
    + reflexivity.
    + change ("," ++ String nl indent) with (String "," (String nl indent)). rewrite !length_append in Hfuel. lia.
Qed.

Lemma closing_tail (indent rest : string) (c : ascii) :
  ws_only indent = true -> is_ws c = false ->
  skip_ws (String nl (indent ++ String c rest)) = String c rest
  /\ ends_number (String nl (indent ++ String c rest)) = true.
Proof.
  intros Hind Hc. split; [|reflexivity].
  change (skip_ws (String nl ?r)) with (skip_ws r).
  rewrite skip_ws_app by assumption. simpl. now rewrite Hc.
Qed.

(** The parser reads back every value printed with an indentation unit
    made of white space. *)
Theorem parse_ser_indented (v : JSValue) : reads_back_indented gap v.
Proof.
  induction v as [| |b|n|s|l IH|ps IH] using JSValue_ind;
    intros indent fuel rest Hind Hfuel Hrest;
    (destruct fuel as [|fuel]; [lia|]).
  - reflexivity.
  - reflexivity.
  - destruct b; reflexivity.
  - apply (parse_ser (JNum n)); assumption.
  - apply (parse_ser (JStr s)); assumption.
  - assert (Hind' : ws_only (indent ++ gap) = true)
      by (rewrite ws_only_app, Hind, gap_ws; reflexivity).
    rewrite ser_indented_JArr in *. destruct l as [|x l].
    + reflexivity.
    + inversion IH as [|? ? Hx Hl]; subst.
      change (map (ser_indented gap (indent ++ gap)) (x :: l))
        with (ser_indented gap (indent ++ gap) x
              :: map (ser_indented gap (indent ++ gap)) l) in *.
      rewrite wrap_indented in *.
      change ("[" ++ ?a) with (String "[" a) in *.
      change (String "[" ?a ++ rest) with (String "[" (a ++ rest)).
      simpl String.length in Hfuel. rewrite !length_append in Hfuel.
      simpl String.length in Hfuel.
      rewrite parse_value_S.
      change (skip_ws (String "[" ?r)) with (String "[" r).
      cbv iota beta.
      change (Ascii.eqb "[" "n") with false.
      change (Ascii.eqb "[" "t") with false.
      change (Ascii.eqb "[" "f") with false.
      change (Ascii.eqb "[" dquote) with false.
      change (Ascii.eqb "[" "[") with true.
      cbv iota.
      rewrite !append_assoc.
      change (String nl indent ++ "]" ++ rest) with (String nl (indent ++ String "]" rest)).
      destruct (closing_tail indent rest "]" Hind eq_refl) as [Hclose Htail].
      destruct (ser_indented_first (indent ++ gap) x) as (c & r & E & Hc).
      destruct (value_start_not c Hc) as (W & N1 & N2).
      assert (Hskip :
                exists r',
                  skip_ws (String nl (indent ++ gap)
                           ++ join ("," ++ String nl (indent ++ gap))
                                (ser_indented gap (indent ++ gap) x
                                 :: map (ser_indented gap (indent ++ gap)) l)
                           ++ String nl (indent ++ String "]" rest))
                  = String c r').
      { rewrite skip_ws_app by (simpl; now rewrite Hind').
        rewrite join_cons, E, append_assoc. simpl. rewrite W. eexists. reflexivity. }
      destruct Hskip as [r' Hskip]. rewrite Hskip, N1.
      rewrite (parse_elements_indented l Hl x (indent ++ gap) (String nl (indent ++ gap))
                 fuel (String nl (indent ++ String "]" rest)) rest);
        try assumption; try reflexivity.
      change ("," ++ String nl (indent ++ gap)) with (String "," (String nl (indent ++ gap))) in *. lia.
  - assert (Hind' : ws_only (indent ++ gap) = true)
      by (rewrite ws_only_app, Hind, gap_ws; reflexivity).
    rewrite ser_indented_JObj, image_JObj in *.
    apply (Forall_filter _ defined) in IH.
    destruct (filter defined ps) as [|kv l].
    + reflexivity.
    + inversion IH as [|? ? Hx Hl]; subst.
      change (map (entry_indented gap (indent ++ gap)) (kv :: l))
        with (entry_indented gap (indent ++ gap) kv
              :: map (entry_indented gap (indent ++ gap)) l) in *.
      rewrite wrap_indented in *.
      change ("{" ++ ?a) with (String "{" a) in *.
      change (String "{" ?a ++ rest) with (String "{" (a ++ rest)).
      simpl String.length in Hfuel. rewrite !length_append in Hfuel.
      simpl String.length in Hfuel.
      rewrite parse_value_S.
      change (skip_ws (String "{" ?r)) with (String "{" r).
      cbv iota beta.
      change (Ascii.eqb "{" "n") with false.
      change (Ascii.eqb "{" "t") with false.
      change (Ascii.eqb "{" "f") with false.
      change (Ascii.eqb "{" dquote) with false.
      change (Ascii.eqb "{" "[") with false.
      change (Ascii.eqb "{" "{") with true.
      cbv iota.
      rewrite !append_assoc.
      change (String nl indent ++ "}" ++ rest) with (String nl (indent ++ String "}" rest)).
      destruct (closing_tail indent rest "}" Hind eq_refl) as [Hclose Htail].
      assert (Hskip :
                exists r',
                  skip_ws (String nl (indent ++ gap)
                           ++ join ("," ++ String nl (indent ++ gap))
                                (entry_indented gap (indent ++ gap) kv
                                 :: map (entry_indented gap (indent ++ gap)) l)
                           ++ String nl (indent ++ String "}" rest))
                  = String dquote r').
      { rewrite skip_ws_app by (simpl; now rewrite Hind').
        rewrite join_cons. unfold entry_indented at 1, quote. eexists. reflexivity. }
      destruct Hskip as [r' Hskip]. rewrite Hskip.
      change (Ascii.eqb dquote "}") with false. cbv iota.
      rewrite (parse_members_indented l Hl kv (indent ++ gap) (String nl (indent ++ gap))
                 fuel (String nl (indent ++ String "}" rest)) rest);
        try assumption; try reflexivity.
      change ("," ++ String nl (indent ++ gap)) with (String "," (String nl (indent ++ gap))) in *. lia.
Qed.

End Indented.

(** [JSON.parse(JSON.stringify(v, null, 2))] is the value as JSON carries
    it, as for the compact form. *)
Theorem parse_stringify_pretty (v : JSValue) (text : string) :
  stringify_pretty v = Some text -> parse text = Normal (image v).
Proof.
  intros E.
  assert (Hs : text = ser_indented "  " "" v)
    by (unfold ser_indented; unfold stringify_pretty in E; now rewrite E).
  subst text. unfold parse.
  rewrite <- (append_nil_r (ser_indented "  " "" v)) at 2.
  rewrite (parse_ser_indented "  " eq_refl eq_refl v "");
    [reflexivity | reflexivity | lia | reflexivity].
Qed.

(* --------------------------------------------------------------------- *)
(** ** Values that JSON carries unchanged *)
(* --------------------------------------------------------------------- *)









(* --------------------------------------------------------------------- *)
(** ** response-utils.ts: the envelopes *)
(* --------------------------------------------------------------------- *)





Lemma or_string_nonempty (s : option string) (d : string) : d <> "" -> or_string s d <> "".
Proof.
  intros Hd. destruct s as [x|]; simpl; [|exact Hd].
  destruct (String.eqb x "") eqn:E; [exact Hd|].
  now apply String.eqb_neq.
Qed.

Lemma truthy_requestId (q : option string) :
  (if truthy_string q then q else None) <> Some "".
Proof.
  destruct q as [x|]; simpl; [|discriminate].
  destruct (String.eqb x "") eqn:E; simpl; [discriminate|].
  intros H. inversion H; subst. discriminate.
Qed.

(** X4.  The message of a success or paginated envelope is never the empty
    string, and the requestId of an envelope is never the empty string; the
    name of an error envelope is empty only when the caller passes the
    empty name. *)
Theorem envelope_texts {codes : StatusCodes} {fmt : DateFormat} (now : Date) :
  (forall options,
     let r := HONO_RESPONSE now options in
     SuccessResponse.message r <> "" /\ SuccessResponse.requestId r <> Some "")
  /\ (forall items pagination options,
        let r := HONO_PAGINATED_RESPONSE now items pagination options in
        SuccessResponse.message r <> "" /\ SuccessResponse.requestId r <> Some "")
  /\ (forall statusCode message options,
        let r := HONO_ERROR now statusCode message options in
        ErrorResponse.requestId r <> Some ""
        /\ (ErrorResponse.name (ErrorResponse.error r) = ""
            <-> ErrorOptions.name options = Some "")).
Proof.
  split; [|split].
  - intros options. split; [|apply truthy_requestId].
    apply or_string_nonempty, or_string_nonempty. discriminate.
  - intros items pagination options. split; [|apply truthy_requestId].
    unfold HONO_PAGINATED_RESPONSE, HONO_RESPONSE.
    cbn [SuccessResponse.message ResponseOptions.message].
    apply or_string_nonempty, or_string_nonempty. discriminate.
  - intros statusCode message options. split; [apply truthy_requestId|].
    unfold HONO_ERROR. simpl ErrorResponse.name.
    destruct (ErrorOptions.name options) as [n|]; simpl.
    + split; intros H; [now subst | now inversion H].
    + split; [|discriminate].
      intros H. exfalso. revert H. apply or_string_nonempty. discriminate.
Qed.

(** X5.  The object of a success or an error envelope has a [timestamp]
    property exactly when [options.timestamp] is not [false], and its value
    is [new Date().toISOString()]; it has a [requestId] property exactly
    when [options.requestId] is a non-empty string, and its value is that
    string. *)
Theorem envelope_optional_fields {codes : StatusCodes} {fmt : DateFormat} (now : Date) :
  (forall options,
     let v := SuccessResponse_to_js (HONO_RESPONSE now options) in
     has_property "timestamp" v = default (ResponseOptions.timestamp options) true
     /\ has_property "requestId" v = truthy_string (ResponseOptions.requestId options)
     /\ (has_property "timestamp" v = true ->
         get_prop v "timestamp" = Normal (JStr (toISOString now)))
     /\ (has_property "requestId" v = true ->
         get_prop v "requestId" = Normal (js_string (ResponseOptions.requestId options))))
  /\ (forall statusCode message options,
        let v := ErrorResponse_to_js (HONO_ERROR now statusCode message options) in
        has_property "timestamp" v = default (ErrorOptions.timestamp options) true
        /\ has_property "requestId" v = truthy_string (ErrorOptions.requestId options)
        /\ (has_property "timestamp" v = true ->
            get_prop v "timestamp" = Normal (JStr (toISOString now)))
        /\ (has_property "requestId" v = true ->
            get_prop v "requestId" = Normal (js_string (ErrorOptions.requestId options)))).
Proof.
  split.
  - intros [data message statusCode [[]|] [q|]]; unfold HONO_RESPONSE; simpl;
      try destruct (String.eqb q ""); simpl;
      destruct (negb (is_undefined data) && negb (String.eqb _ "NO_CONTENT"));
      simpl; repeat split; intros; try reflexivity; try discriminate.
  - intros statusCode message [name issues [[]|] [q|]]; unfold HONO_ERROR; simpl;
      try destruct (String.eqb q ""); simpl;
      repeat split; intros; try reflexivity; try discriminate.
Qed.

(** X6.  [HONO_PAGINATED_RESPONSE] does not read [options.data]; passing
    the flags it computed back in as [hasNext] and [hasPrev] gives the same
    envelope; and unless the status key is NO_CONTENT the envelope's data
    holds the items as given and the four counters of the pagination as
    given. *)
Theorem paginated_payload {codes : StatusCodes} {fmt : DateFormat}
  (now : Date) (items : list JSValue) (pagination : Pagination.t)
  (options : ResponseOptions.t) :
  let r := HONO_PAGINATED_RESPONSE now items pagination options in
  let hasNext :=
    default (Pagination.hasNext pagination)
      (Pagination.page pagination <? Pagination.totalPages pagination) in
  let hasPrev := default (Pagination.hasPrev pagination) (Pagination.page pagination >? 1) in
  (forall data,
     HONO_PAGINATED_RESPONSE now items pagination
       (ResponseOptions.mk data (ResponseOptions.message options)
          (ResponseOptions.statusCode options) (ResponseOptions.timestamp options)
          (ResponseOptions.requestId options))
     = r)
  /\ HONO_PAGINATED_RESPONSE now items
       (Pagination.mk (Pagination.page pagination) (Pagination.limit pagination)
          (Pagination.total pagination) (Pagination.totalPages pagination)
          (Some hasNext) (Some hasPrev))
       options
     = r
  /\ (default (ResponseOptions.statusCode options) "OK" <> "NO_CONTENT" ->
      exists d,
        SuccessResponse.data r = Some d
        /\ get_prop d "items" = Normal (JArr items)
        /\ get_path d "pagination" "page" = Normal (JNum (Pagination.page pagination))
        /\ get_path d "pagination" "limit" = Normal (JNum (Pagination.limit pagination))
        /\ get_path d "pagination" "total" = Normal (JNum (Pagination.total pagination))
        /\ get_path d "pagination" "totalPages"
           = Normal (JNum (Pagination.totalPages pagination))).
Proof.
  cbv zeta. split; [reflexivity|]. split; [reflexivity|].
  intros H. apply String.eqb_neq in H.
  unfold HONO_PAGINATED_RESPONSE, HONO_RESPONSE.
  cbn [ResponseOptions.data ResponseOptions.statusCode SuccessResponse.data is_undefined negb
       andb].
  rewrite H. cbn [negb]. eexists. split; [reflexivity|]. repeat split.
Qed.

(* --------------------------------------------------------------------- *)
(** ** create-router.ts: the default hook *)
(* --------------------------------------------------------------------- *)

(** X7.  The default hook answers nothing exactly when the validation
    succeeded.  When it answers, the response status is the constant
    [UNPROCESSABLE_ENTITY], the body's statusCode is the table's entry for
    the key UNPROCESSABLE_ENTITY, the timestamp is there, [error.issues] is
    empty exactly when details are included and the validation error
    carries an empty issue list, and with details included the messages of
    the issues are those of the Zod issues, in order. *)
Theorem default_hook_answer {codes : StatusCodes} {fmt : DateFormat}
  (includeErrorDetails : bool) (now : Date) (result : HookResult.t) (c : Context.t) :
  let answer := createDefaultHook includeErrorDetails now result c in
  (answer = None <-> HookResult.success result = true)
  /\ (forall response,
        answer = Some response ->
        let body := JsonResponse.body response in
        let issues := ErrorResponse.issues (ErrorResponse.error body) in
        JsonResponse.status response = UNPROCESSABLE_ENTITY
        /\ ErrorResponse.statusCode body = HTTP "UNPROCESSABLE_ENTITY"
        /\ ErrorResponse.timestamp body = Some (toISOString now)
        /\ (issues = [] <-> includeErrorDetails = true /\ result_issues result = Some [])
        /\ (forall l,
              includeErrorDetails = true -> result_issues result = Some l ->
              map Issue.message issues = map ZodIssue.message l)).
Proof.
  unfold createDefaultHook.
  destruct (HookResult.success result); simpl.
  - split; [split; reflexivity|]. discriminate.
  - split; [split; discriminate|].
    intros response H. inversion H; subst; clear H. simpl.
    split; [reflexivity|]. split; [reflexivity|]. split; [reflexivity|].
    destruct includeErrorDetails; simpl.
    + destruct (result_issues result) as [l|].
      * split.
        -- split.
           ++ intros H. split; [reflexivity|]. destruct l; [reflexivity | discriminate].
           ++ intros [_ H]. inversion H; subst. reflexivity.
        -- intros l' _ H. inversion H; subst. rewrite map_map. reflexivity.
      * split; [split; [discriminate | intros [_ H]; discriminate]|].
        intros l _ H. discriminate.
    + split; [split; [discriminate | intros [H _]; discriminate]|].
      intros l H. discriminate.
Qed.

Lemma string_of_nat_nonempty (n : nat) : string_of_nat n <> "".
Proof.
  unfold string_of_nat.
  assert (H : Nat.to_uint n <> Decimal.Nil).
  { rewrite <- (DecimalNat.Unsigned.of_to n) at 1.
    rewrite DecimalNat.Unsigned.to_of. apply DecimalFacts.unorm_nonnil. }
  destruct (Nat.to_uint n); try congruence; discriminate.
Qed.

Lemma append_empty (a b : string) : a ++ b = "" -> a = "" /\ b = "".
Proof. destruct a; simpl; [now split | discriminate]. Qed.

Lemma join_dot_empty (l : list string) :
  join "." l = "" <-> l = [] \/ l = [""].
Proof.
  destruct l as [|x [|y l]].
  - split; [now left | reflexivity].
  - change (join "." [x]) with x.
    split; [intros ->; now right | intros [H|H]; [discriminate | now inversion H]].
  - rewrite join_cons. split.
    + intros H. apply append_empty in H. destruct H as [_ H]. discriminate.
    + intros [H|H]; discriminate.
Qed.

(** X8.  A mapped issue has no path exactly when the Zod path is empty or
    is the single empty field name; its path is never the empty string, its
    message is the Zod message, and it has no code exactly when the Zod
    code is empty. *)
Theorem map_issue_path (issue : ZodIssue.t) :
  (Issue.path (map_issue issue) = None
   <-> ZodIssue.path issue = [] \/ ZodIssue.path issue = [Field ""])
  /\ Issue.path (map_issue issue) <> Some ""
  /\ Issue.message (map_issue issue) = ZodIssue.message issue
  /\ (Issue.code (map_issue issue) = None <-> ZodIssue.code issue = "").
Proof.
  unfold map_issue, or_undefined. simpl.
  split; [|split; [|split]].
  - destruct (String.eqb _ "") eqn:E.
    + apply String.eqb_eq in E. apply join_dot_empty in E.
      split; [|reflexivity]. intros _.
      destruct (ZodIssue.path issue) as [|k [|k' l]]; simpl in E.
      * now left.
      * right. destruct E as [E|E]; [discriminate|].
        destruct k as [s|n]; simpl in E; inversion E as [E'].
        -- reflexivity.
        -- exfalso. exact (string_of_nat_nonempty n E').
      * destruct E as [E|E]; discriminate.
    + split; [discriminate|]. intros H. exfalso.
      apply String.eqb_neq in E. apply E.
      destruct H as [H|H]; rewrite H; reflexivity.
  - destruct (String.eqb _ "") eqn:E; [discriminate|].
    apply String.eqb_neq in E. intros H. inversion H as [H']. contradiction.
  - reflexivity.
  - destruct (String.eqb (ZodIssue.code issue) "") eqn:E.
    + apply String.eqb_eq in E. split; [intros _; exact E | reflexivity].
    + apply String.eqb_neq in E. split; [discriminate | contradiction].
Qed.

(* --------------------------------------------------------------------- *)
(** ** hono-logger.ts: the context, the calls and the colours *)
(* --------------------------------------------------------------------- *)


(** What one logger call does to the world. *)
Lemma run_call_effect {fmt : DateFormat} (c : LoggerCall) (w : World.t) :
  let w' := snd (run_call c w) in
  World.env w' = World.env w
  /\ World.clock w' = World.clock w
  /\ World.ids w' = World.ids w
  /\ World.drawn w' = (World.drawn w + count draws_id [c])%nat
  /\ (exists lines,
        World.console w' = (World.console w ++ lines)%list
        /\ List.length lines = count writes_line [c])
  /\ (exists calls,
        World.collector w' = (World.collector w ++ calls)%list
        /\ (Env.SENTRY_ENABLED (World.env w) = false -> calls = [])
        /\ (Env.SENTRY_ENABLE_LOGS (World.env w) = false ->
            is_level_call c = true -> calls = [])).
Proof.
  cbv zeta.
  destruct w as [[node enabled logs] clock ids drawn console collector].
  destruct c, enabled, logs, node; unfold count; simpl;
    rewrite ?Nat.add_0_r, ?Nat.add_1_r, <- ?app_assoc; simpl;
    (split; [reflexivity|]); (split; [reflexivity|]); (split; [reflexivity|]);
    (split; [reflexivity|]).
  all: split;
    first [ eexists; split; [reflexivity | reflexivity]
          | exists []; split; [now rewrite app_nil_r | reflexivity]
          | eexists; split; [reflexivity|]; split; intros; (reflexivity || discriminate)
          | exists []; split; [now rewrite app_nil_r|]; split; intros; reflexivity ].
Qed.

(** What a sequence of logger calls does to the world. *)
Lemma run_calls_effect {fmt : DateFormat} (cs : list LoggerCall) (w : World.t) :
  let w' := snd (run_calls cs w) in
  World.env w' = World.env w
  /\ World.clock w' = World.clock w
  /\ World.ids w' = World.ids w
  /\ World.drawn w' = (World.drawn w + count draws_id cs)%nat
  /\ (exists lines,
        World.console w' = (World.console w ++ lines)%list
        /\ List.length lines = count writes_line cs)
  /\ (exists calls,
        World.collector w' = (World.collector w ++ calls)%list
        /\ (Env.SENTRY_ENABLED (World.env w) = false -> calls = [])
        /\ (Env.SENTRY_ENABLE_LOGS (World.env w) = false ->
            forallb is_level_call cs = true -> calls = [])).
Proof.
  cbv zeta. revert w.
  induction cs as [|c cs IH]; intros w.
  - unfold count. simpl. rewrite Nat.add_0_r.
    repeat (split; [reflexivity|]).
    split; exists []; rewrite app_nil_r; repeat split; reflexivity.
  - change (run_calls (c :: cs) w) with (bind (run_call c) (fun _ => run_calls cs) w).
    unfold bind.
    destruct (run_call_effect c w) as (E1 & E2 & E3 & E4 & (l1 & E5 & L1) & (c1 & E6 & S1 & S2)).
    destruct (run_call c w) as [[] w1]. simpl snd in *.
    destruct (IH w1) as (F1 & F2 & F3 & F4 & (l2 & F5 & L2) & (c2 & F6 & T1 & T2)).
    rewrite E1 in *.
    split; [now rewrite F1|]. split; [now rewrite F2|]. split; [now rewrite F3|].
    split.
    { rewrite F4, E4. unfold count in *. simpl. destruct (draws_id c); simpl; lia. }
    split.
    { exists (l1 ++ l2)%list. rewrite F5, E5, app_assoc. split; [reflexivity|].
      rewrite length_app, L1, L2. unfold count. simpl.
      destruct (writes_line c); reflexivity. }
    exists (c1 ++ c2)%list. rewrite F6, E6, app_assoc. split; [reflexivity|].
    split.
    + intros H. now rewrite (S1 H), (T1 H).
    + intros H Hall. simpl in Hall. apply andb_true_iff in Hall.
      destruct Hall as [Hc Hcs]. now rewrite (S2 H Hc), (T2 H Hcs).
Qed.

(** X10.  Whatever sequence of logger calls runs, the configuration, the
    clock and the identifier source are unchanged; the number of
    identifiers drawn grows by the number of error, warn, verbose,
    sentry.captureException and sentry.captureMessage calls; the console
    keeps its lines and gains exactly one per level call, [HonoLogger] call
    and sentry.captureException call, whatever the Sentry flags are; the
    Sentry calls made earlier are kept. *)
Theorem logger_calls_frame {fmt : DateFormat} (cs : list LoggerCall) (w : World.t) :
  let w' := snd (run_calls cs w) in
  World.env w' = World.env w
  /\ World.clock w' = World.clock w
  /\ World.ids w' = World.ids w
  /\ World.drawn w' = (World.drawn w + count draws_id cs)%nat
  /\ (exists lines,
        World.console w' = (World.console w ++ lines)%list
        /\ List.length lines = count writes_line cs)
  /\ (exists calls, World.collector w' = (World.collector w ++ calls)%list).
Proof.
  cbv zeta.
  destruct (run_calls_effect cs w) as (E1 & E2 & E3 & E4 & E5 & (calls & E6 & _)).
  repeat (split; [assumption|]). now exists calls.
Qed.

(** X11.  With SENTRY_ENABLED false, no sequence of logger calls makes any
    Sentry call. *)
Theorem sentry_disabled_is_silent {fmt : DateFormat} (cs : list LoggerCall) (w : World.t) :
  Env.SENTRY_ENABLED (World.env w) = false ->
  World.collector (snd (run_calls cs w)) = World.collector w.
Proof.
  intros H.
  destruct (run_calls_effect cs w) as (_ & _ & _ & _ & _ & (calls & E & S & _)).
  cbv zeta in E. now rewrite E, (S H), app_nil_r.
Qed.

(** X11, witness: four calls in development with SENTRY_ENABLED false. *)
Lemma sentry_disabled_is_silent_witness :
  let w := World.mk (Env.mk development false true) 0 (fun n => string_of_nat n) 0 [] [] in
  World.collector
    (snd (@run_calls js_dates
            [ call_error "failed" (Some [("userId", JStr "123")]);
              call_captureException (JSError.mk "boom") None;
              call_setTag "feature" "checkout";
              call_verbose "trace" None ] w))
  = [].
Proof.
  apply (@sentry_disabled_is_silent js_dates
           [ call_error "failed" (Some [("userId", JStr "123")]);
             call_captureException (JSError.mk "boom") None;
             call_setTag "feature" "checkout";
             call_verbose "trace" None ]
           (World.mk (Env.mk development false true) 0 (fun n => string_of_nat n) 0 [] [])).
  reflexivity.
Defined.

(** X12.  With SENTRY_ENABLE_LOGS false, a sequence of level calls (error,
    warn, log, debug, verbose, [HonoLogger]) makes no Sentry call. *)
Theorem logs_disabled_levels_are_silent {fmt : DateFormat}
  (cs : list LoggerCall) (w : World.t) :
  Env.SENTRY_ENABLE_LOGS (World.env w) = false ->
  forallb is_level_call cs = true ->
  World.collector (snd (run_calls cs w)) = World.collector w.
Proof.
  intros H Hall.
  destruct (run_calls_effect cs w) as (_ & _ & _ & _ & _ & (calls & E & _ & S)).
  cbv zeta in E. now rewrite E, (S H Hall), app_nil_r.
Qed.

(** X12, witness: four level calls with SENTRY_ENABLE_LOGS false. *)
Lemma logs_disabled_levels_are_silent_witness :
  let w := World.mk (Env.mk development true false) 0 (fun n => string_of_nat n) 0 [] [] in
  World.collector
    (snd (@run_calls js_dates
            [ call_error "failed" (Some [("userId", JStr "123")]);
              call_warn "slow" None;
              call_HonoLogger "GET /api" ["200"];
              call_debug "trace" None ] w))
  = [].
Proof.
  apply (@logs_disabled_levels_are_silent js_dates
           [ call_error "failed" (Some [("userId", JStr "123")]);
             call_warn "slow" None;
             call_HonoLogger "GET /api" ["200"];
             call_debug "trace" None ]
           (World.mk (Env.mk development true false) 0 (fun n => string_of_nat n) 0 [] []));
    reflexivity.
Defined.

Lemma lookup_set_prop (k k' : string) (v : JSValue) (a : list (string * JSValue)) :
  lookup k (set_prop k' v a) = if String.eqb k k' then Some v else lookup k a.
Proof.
  induction a as [|[k0 v0] a IH]; simpl.
  - reflexivity.
  - destruct (String.eqb k' k0) eqn:E0; simpl.
    + apply String.eqb_eq in E0. subst k0.
      destruct (String.eqb k k'); reflexivity.
    + rewrite IH. destruct (String.eqb k k0) eqn:E1; [|reflexivity].
      apply String.eqb_eq in E1. subst k0.
      rewrite String.eqb_sym in E0. now rewrite E0.
Qed.

Lemma lookup_app (k : string) (a b : list (string * JSValue)) :
  lookup k (a ++ b)
  = match lookup k a with
    | Some v => Some v
    | None => lookup k b
    end.
Proof.
  induction a as [|[k0 v0] a IH]; simpl; [reflexivity|].
  destruct (String.eqb k k0); [reflexivity | exact IH].
Qed.

(** Reading a property of [{ ...a, ...b }]. *)
Lemma lookup_spread (k : string) (b a : list (string * JSValue)) :
  lookup k (spread a b)
  = match last_assigned k b with
    | Some v => Some v
    | None => lookup k a
    end.
Proof.
  unfold spread, last_assigned. revert a.
  induction b as [|[k0 v0] b IH]; intros a; simpl; [reflexivity|].
  rewrite IH, lookup_app, lookup_set_prop. simpl.
  destruct (lookup k (rev b)); [reflexivity|].
  destruct (String.eqb k k0); reflexivity.
Qed.

(** X13.  With both flags true, the breadcrumb of an error or warn call
    carries, under [logId], the context's own [logId] when the context has
    one and the generated identifier otherwise; every other key reads as in
    the context. *)
Theorem breadcrumb_data_logId {fmt : DateFormat}
  (message : string) (context : option LogContext) (w : World.t) :
  Env.SENTRY_ENABLED (World.env w) = true ->
  Env.SENTRY_ENABLE_LOGS (World.env w) = true ->
  let supplied := default context [] in
  forall op,
    op = logger.error message context \/ op = logger.warn message context ->
    exists data,
      first_breadcrumb_data (calls_of op w) = Some data
      /\ lookup "logId" data
         = Some (default (last_assigned "logId" supplied) (JStr (next_id w)))
      /\ (forall k, k <> "logId" -> lookup k data = last_assigned k supplied).
Proof.
  intros He Hl supplied op Hop.
  destruct w as [[node enabled logs] clock ids drawn console collector].
  simpl in He, Hl. subst enabled logs.
  exists (spread [("logId", JStr (ids drawn))] supplied).
  split.
  - destruct Hop as [-> | ->]; unfold calls_of, calls_since; simpl;
      rewrite <- ?app_assoc; simpl; rewrite skipn_app_exact; reflexivity.
  - split.
    + rewrite lookup_spread. unfold next_id. simpl.
      destruct (last_assigned "logId" supplied); reflexivity.
    + intros k Hk. rewrite lookup_spread.
      destruct (last_assigned k supplied); [reflexivity|].
      simpl. apply String.eqb_neq in Hk. now rewrite Hk.
Qed.

(** X13, witness: a context that brings its own [logId]. *)
Lemma breadcrumb_data_logId_witness :
  let w := World.mk (Env.mk production true true) 0 (fun n => "id" ++ string_of_nat n) 0 [] [] in
  let context := Some [("logId", JStr "mine"); ("userId", JStr "123")] in
  Env.SENTRY_ENABLED (World.env w) = true
  /\ Env.SENTRY_ENABLE_LOGS (World.env w) = true
  /\ exists data,
      first_breadcrumb_data (calls_of (@logger.error js_dates "failed" context) w) = Some data
      /\ lookup "logId" data = Some (JStr "mine")
      /\ (forall k, k <> "logId" ->
          lookup k data = last_assigned k [("logId", JStr "mine"); ("userId", JStr "123")]).
Proof.
  split; [reflexivity|]. split; [reflexivity|].
  exact (@breadcrumb_data_logId js_dates "failed"
           (Some [("logId", JStr "mine"); ("userId", JStr "123")])
           (World.mk (Env.mk production true true) 0 (fun n => "id" ++ string_of_nat n) 0 [] [])
           eq_refl eq_refl
           (@logger.error js_dates "failed"
              (Some [("logId", JStr "mine"); ("userId", JStr "123")]))
           (or_introl eq_refl)).
Defined.

Lemma hex_value_digit (c : ascii) (d : N) :
  hex_value c = Some d ->
  (d < 16)%N /\ is_ws c = false
  /\ Ascii.eqb c "-" = false /\ Ascii.eqb c "+" = false
  /\ Ascii.eqb c "x" = false /\ Ascii.eqb c "X" = false.
Proof.
  destruct c as [[] [] [] [] [] [] [] []]; vm_compute; intros H;
    try discriminate; inversion H; subst; repeat split; reflexivity.
Qed.

(** [parseInt(s, 16)] on two hexadecimal digits. *)
Lemma parseInt16_pair (a b : ascii) (n : Z) :
  hex_pair a b = Some n ->
  parseInt16 (String a (String b "")) = Some n /\ 0 <= n <= 255.
Proof.
  unfold hex_pair.
  destruct (hex_value a) as [x|] eqn:Ea; [|discriminate].
  destruct (hex_value b) as [y|] eqn:Eb; [|discriminate].
  intros H. inversion H; subst; clear H.
  destruct (hex_value_digit a x Ea) as (Hx & Wa & Ma & Pa & _ & _).
  destruct (hex_value_digit b y Eb) as (Hy & _ & _ & _ & Xb & XXb).
  split; [|lia].
  unfold parseInt16. cbn [skip_ws]. rewrite Wa, Ma, Pa, Xb, XXb, andb_false_r.
  cbn [hex_digits]. rewrite Ea. cbn [hex_digits]. rewrite Eb. reflexivity.
Qed.

(** X14.  For a text made of one character, six hexadecimal digits and
    anything after them, [hexToAnsi] gives the escape sequence with the
    three pairs of digits as decimal numbers between 0 and 255: the first
    character is not looked at and what follows the sixth digit (an alpha
    channel) is ignored. *)
Theorem hexToAnsi_well_formed (h c1 c2 c3 c4 c5 c6 : ascii) (alpha : string)
  (isBg : option bool) (r g b : Z) :
  hex_pair c1 c2 = Some r -> hex_pair c3 c4 = Some g -> hex_pair c5 c6 = Some b ->
  let hex :=
    String h (String c1 (String c2 (String c3 (String c4 (String c5 (String c6 alpha)))))) in
  hexToAnsi hex isBg
  = ESC ++ "[" ++ (if default isBg false then "48" else "38") ++ ";2;"
    ++ string_of_Z r ++ ";" ++ string_of_Z g ++ ";" ++ string_of_Z b ++ "m"
  /\ 0 <= r <= 255 /\ 0 <= g <= 255 /\ 0 <= b <= 255.
Proof.
  intros Hr Hg Hb hex.
  destruct (parseInt16_pair _ _ _ Hr) as [Er Rr].
  destruct (parseInt16_pair _ _ _ Hg) as [Eg Rg].
  destruct (parseInt16_pair _ _ _ Hb) as [Eb Rb].
  split; [|now repeat split].
  unfold hexToAnsi.
  change (slice hex 1 3) with (String c1 (String c2 "")).
  change (slice hex 3 5) with (String c3 (String c4 "")).
  change (slice hex 5 7) with (String c5 (String c6 (substring 0 0 alpha))).
  replace (substring 0 0 alpha) with "" by (destruct alpha; reflexivity).
  rewrite Er, Eg, Eb. reflexivity.
Qed.

(** X14, witness: the colour of the error level, with its alpha channel. *)
Lemma hexToAnsi_well_formed_witness :
  hexToAnsi "#d11824ff" None
  = ESC ++ "[" ++ "38" ++ ";2;" ++ string_of_Z 209 ++ ";" ++ string_of_Z 24 ++ ";"
    ++ string_of_Z 36 ++ "m"
  /\ 0 <= 209 <= 255 /\ 0 <= 24 <= 255 /\ 0 <= 36 <= 255.
Proof.
  exact (hexToAnsi_well_formed "#" "d" "1" "1" "8" "2" "4" "ff" None 209 24 36
           eq_refl eq_refl eq_refl).
Defined.

(** X15.  For a text of at most one character, [hexToAnsi] gives the
    sequence with NaN for each of the three components. *)
Theorem hexToAnsi_too_short (hex : string) (isBg : option bool) :
  (String.length hex <= 1)%nat ->
  hexToAnsi hex isBg
  = ESC ++ "[" ++ (if default isBg false then "48" else "38") ++ ";2;NaN;NaN;NaNm".
Proof.
  intros H. destruct hex as [|c [|d hex]]; [reflexivity | reflexivity | simpl in H; lia].
Qed.

(** X15, witness: a lone number sign, as a background. *)
Lemma hexToAnsi_too_short_witness :
  hexToAnsi "#" (Some true) = ESC ++ "[48;2;NaN;NaN;NaNm".
Proof.
  apply (hexToAnsi_too_short "#" (Some true)). simpl. lia.
Defined.

(* --------------------------------------------------------------------- *)
(** ** The error handler *)
(* --------------------------------------------------------------------- *)



Lemma NodeEnv_to_string_production (e : NodeEnv) :
  NodeEnv_to_string e = "production" <-> e = production.
Proof. destruct e; split; intros H; try discriminate; reflexivity. Qed.

Lemma NodeEnv_to_string_nonempty (e : NodeEnv) : NodeEnv_to_string e <> "".
Proof. destruct e; discriminate. Qed.

(** X17.  On the wire the body of the error handler always has the
    message; it has the stack exactly when the error has one and the
    environment in force is not production, the environment in force being
    the request's NODE_ENV when that is a non-empty string and the
    process's otherwise. *)
Theorem onError_stack {codes : StatusCodes} {consts : StatusConstants}
  (env : Env.t) (err : HTTPError.t) (c : HonoContext.t) :
  exists wire,
    round_trip (Response.body (onError env err c)) = Normal (JObj wire)
    /\ lookup "message" wire = Some (JStr (HTTPError.message err))
    /\ (hides_stack env c -> lookup "stack" wire = None)
    /\ (~ hides_stack env c ->
        lookup "stack" wire = option_map JStr (HTTPError.stack err)).
Proof.
  unfold round_trip.
  destruct (stringify (Response.body (onError env err c))) as [text|] eqn:E;
    [|discriminate].
  rewrite (parse_stringify _ _ E). clear E text.
  assert (D : String.eqb
                (or_string (HonoContext.env_NODE_ENV c)
                   (NodeEnv_to_string (Env.NODE_ENV env))) "production" = true
              <-> hides_stack env c).
  { rewrite String.eqb_eq. unfold hides_stack, or_string.
    destruct (HonoContext.env_NODE_ENV c) as [e|].
    - destruct (String.eqb e ""); [apply NodeEnv_to_string_production | reflexivity].
    - apply NodeEnv_to_string_production. }
  unfold onError. cbn [Response.body].
  destruct (String.eqb _ "production") eqn:P.
  - eexists. split; [reflexivity|]. split; [reflexivity|]. split.
    + reflexivity.
    + intros H. exfalso. apply H, D. reflexivity.
  - destruct (HTTPError.stack err) as [s|]; simpl;
      (eexists; split; [reflexivity|]; split; [reflexivity|]; split;
       [ intros H; apply D in H; discriminate | reflexivity ]).
Qed.

(** X18.  The body of the error handler has no [success] property: neither
    [isErrorResponse] nor [isSuccessResponse] recognises it, before or
    after the wire. *)
Theorem onError_body_is_no_envelope {codes : StatusCodes} {consts : StatusConstants}
  (env : Env.t) (err : HTTPError.t) (c : HonoContext.t) :
  let body := Response.body (onError env err c) in
  isErrorResponse body = Normal (JBool false)
  /\ isSuccessResponse body = Normal (JBool false)
  /\ has_property "success" body = false
  /\ (forall wire, round_trip body = Normal wire ->
      isErrorResponse wire = Normal (JBool false)
      /\ isSuccessResponse wire = Normal (JBool false)).
Proof.
  cbv zeta. split; [reflexivity|]. split; [reflexivity|]. split; [reflexivity|].
  intros wire. unfold round_trip.
  destruct (stringify _) as [text|] eqn:E; [|discriminate].
  rewrite (parse_stringify _ _ E). intros H. inversion H; subst; clear H E.
  unfold onError. cbn [Response.body].
  destruct (String.eqb _ "production"); [split; reflexivity|].
  destruct (HTTPError.stack err); split; reflexivity.
Qed.

(* --------------------------------------------------------------------- *)
(** ** The mailer service *)
(* --------------------------------------------------------------------- *)

(** X19.  Without html and text content [sendEmail] answers with the
    failure that asks for content, and touches neither Resend nor the
    console.  With content it hands exactly one message to Resend and
    writes exactly one console entry; the message has the sender of the
    options, or onboarding@resend.dev, and never an empty sender; it has
    the recipients, subject, replyTo, cc and bcc of the options, never an
    empty html or text, and at least one of html and text. *)
Theorem sendEmail_hands_over (options : EmailOptions.t) (w : MailWorld.t) :
  let w' := snd (sendEmail options w) in
  (has_content options = false ->
     sendEmail options w
     = (EmailResponse.mk false None
          (Some "Either html or text content must be provided"), w))
  /\ (has_content options = true ->
        exists emailData entry,
          MailWorld.sent w' = (MailWorld.sent w ++ [emailData])%list
          /\ MailWorld.console w' = (MailWorld.console w ++ [entry])%list
          /\ EmailData.from emailData
             = or_string (EmailOptions.from options) "onboarding@resend.dev"
          /\ EmailData.from emailData <> ""
          /\ EmailData.to emailData = EmailOptions.to options
          /\ EmailData.subject emailData = EmailOptions.subject options
          /\ EmailData.replyTo emailData = EmailOptions.replyTo options
          /\ EmailData.cc emailData = EmailOptions.cc options
          /\ EmailData.bcc emailData = EmailOptions.bcc options
          /\ EmailData.html emailData <> Some ""
          /\ EmailData.text emailData <> Some ""
          /\ (EmailData.html emailData <> None \/ EmailData.text emailData <> None)).
Proof.
  cbv zeta. unfold has_content. split.
  - intros H. apply orb_false_iff in H. destruct H as [Hh Ht].
    unfold sendEmail. rewrite Hh, Ht. reflexivity.
  - intros H. unfold sendEmail, resend_send.
    replace (negb (truthy_string (EmailOptions.html options))
             && negb (truthy_string (EmailOptions.text options)))
      with false by (rewrite <- negb_orb, H; reflexivity).
    match goal with
    | |- context [MailWorld.resend w ?d] => set (emailData := d)
    end.
    exists emailData.
    assert (Hfields :
              EmailData.from emailData <> ""
              /\ EmailData.html emailData <> Some ""
              /\ EmailData.text emailData <> Some ""
              /\ (EmailData.html emailData <> None \/ EmailData.text emailData <> None)).
    { split; [apply or_string_nonempty; discriminate|].
      split; [apply truthy_requestId|]. split; [apply truthy_requestId|].
      unfold emailData. simpl.
      destruct (truthy_string (EmailOptions.html options)) eqn:Hh.
      - left. destruct (EmailOptions.html options); [discriminate | discriminate Hh].
      - right. simpl in H. rewrite H.
        destruct (EmailOptions.text options); [discriminate | discriminate H]. }
    destruct Hfields as (F1 & F2 & F3 & F4).
    destruct (MailWorld.resend w emailData) as [data [e|]|t]; simpl;
      eexists; repeat (split; [first [reflexivity | assumption]|]); assumption.
Qed.

(** X20.  [sendEmail] leaves the Resend client as it is.  It answers
    success exactly when it handed a message to Resend and Resend resolved
    without error; a success carries data and no error, a failure carries
    an error text and no data; the error text is empty only when Resend
    threw an [Error] with an empty message. *)
Theorem sendEmail_answer (options : EmailOptions.t) (w : MailWorld.t) :
  let r := fst (sendEmail options w) in
  let w' := snd (sendEmail options w) in
  MailWorld.resend w' = MailWorld.resend w
  /\ (EmailResponse.success r = true
      <-> exists emailData,
            MailWorld.sent w' = (MailWorld.sent w ++ [emailData])%list
            /\ delivered (MailWorld.resend w emailData) = true)
  /\ (EmailResponse.success r = true ->
      EmailResponse.error r = None /\ exists data, EmailResponse.data r = Some data)
  /\ (EmailResponse.success r = false ->
      EmailResponse.data r = None /\ exists message, EmailResponse.error r = Some message)
  /\ (EmailResponse.error r = Some "" ->
      exists emailData,
        MailWorld.resend w emailData = Resend.rejected (Resend.an_Error "")).
Proof.
  cbv zeta. unfold sendEmail, resend_send.
  destruct (negb (truthy_string (EmailOptions.html options))
            && negb (truthy_string (EmailOptions.text options))).
  - simpl. split; [reflexivity|]. split.
    + split; [discriminate|]. intros (m & H & _). exfalso.
      apply (f_equal (@List.length _)) in H. rewrite length_app in H. simpl in H. lia.
    + split; [discriminate|]. split; [intros _; split; [reflexivity | eexists; reflexivity]|].
      discriminate.
  - match goal with
    | |- context [MailWorld.resend w ?d] => set (emailData := d)
    end.
    destruct (MailWorld.resend w emailData) as [data [e|]|t] eqn:R; simpl.
    + split; [reflexivity|]. split.
      * split; [discriminate|]. intros (m & H & D).
        apply app_inj_tail in H. destruct H as [_ <-]. rewrite R in D. discriminate.
      * split; [discriminate|].
        split; [intros _; split; [reflexivity | eexists; reflexivity]|].
        intros H. exfalso. inversion H as [H0]. revert H0.
        apply (or_string_nonempty (Some (Resend.message e))). discriminate.
    + split; [reflexivity|]. split.
      * split; [|reflexivity]. intros _. exists emailData. rewrite R. now split.
      * split; [intros _; split; [reflexivity | eexists; reflexivity]|].
        split; discriminate.
    + split; [reflexivity|]. split.
      * split; [discriminate|]. intros (m & H & D).
        apply app_inj_tail in H. destruct H as [_ <-]. rewrite R in D. discriminate.
      * split; [discriminate|].
        split; [intros _; split; [reflexivity | eexists; reflexivity]|].
        intros H. exists emailData. rewrite R.
        destruct t as [message|v]; [|discriminate]. inversion H; subst. reflexivity.
Qed.

(** [sendEmail] on the options the template senders build. *)
Lemma sendEmail_template_mail (to subject html text : string) (w : MailWorld.t) :
  html <> "" \/ text <> "" ->
  let emailData :=
    EmailData.mk "onboarding@resend.dev" (One to) subject None None None
      (or_undefined html) (or_undefined text) in
  let r := sendEmail (template_mail to subject html text) w in
  MailWorld.sent (snd r) = (MailWorld.sent w ++ [emailData])%list
  /\ EmailResponse.success (fst r) = delivered (MailWorld.resend w emailData).
Proof.
  intros H. cbv zeta. unfold sendEmail, resend_send, template_mail, or_undefined. simpl.
  assert (E : negb (negb (String.eqb html "")) && negb (negb (String.eqb text "")) = false).
  { destruct H as [H|H]; apply String.eqb_neq in H; rewrite H; simpl;
      [reflexivity | apply andb_false_r]. }
  rewrite E.
  replace (if negb (String.eqb html "") then Some html else None)
    with (if String.eqb html "" then None else Some html)
    by (destruct (String.eqb html ""); reflexivity).
  replace (if negb (String.eqb text "") then Some text else None)
    with (if String.eqb text "" then None else Some text)
    by (destruct (String.eqb text ""); reflexivity).
  match goal with
  | |- context [MailWorld.resend w ?d] =>
      destruct (MailWorld.resend w d) as [data [e|]|t]; simpl; split; reflexivity
  end.
Qed.

(** X21.  When the template gives a non-empty html or text, each of the
    three template senders hands Resend exactly one message: from
    onboarding@resend.dev, to the one recipient, with the template's
    subject, no replyTo, cc or bcc, and the non-empty ones of the
    template's html and text; it answers success exactly when Resend
    resolves without error. *)
Theorem template_senders {templates : Templates} (to : string) (w : MailWorld.t)
  (send : MailWorld.t -> EmailResponse.t * MailWorld.t) (subject html text : string) :
  (exists name,
     send = sendWelcomeEmail to name /\ subject = welcome_subject
     /\ html = welcome_html name /\ text = welcome_text name)
  \/ (exists resetLink,
        send = sendPasswordResetEmail to resetLink /\ subject = passwordReset_subject
        /\ html = passwordReset_html resetLink /\ text = passwordReset_text resetLink)
  \/ (exists orderNumber orderTotal,
        send = sendOrderConfirmationEmail to orderNumber orderTotal
        /\ subject = orderConfirmation_subject orderNumber orderTotal
        /\ html = orderConfirmation_html orderNumber orderTotal
        /\ text = orderConfirmation_text orderNumber orderTotal) ->
  html <> "" \/ text <> "" ->
  let emailData :=
    EmailData.mk "onboarding@resend.dev" (One to) subject None None None
      (or_undefined html) (or_undefined text) in
  MailWorld.sent (snd (send w)) = (MailWorld.sent w ++ [emailData])%list
  /\ EmailResponse.success (fst (send w)) = delivered (MailWorld.resend w emailData).
Proof.
  intros Hsend Hcontent.
  destruct Hsend as [(name & -> & -> & -> & ->)
                    |[(resetLink & -> & -> & -> & ->)
                     |(orderNumber & orderTotal & -> & -> & -> & ->)]];
    apply sendEmail_template_mail; assumption.
Qed.

(** X21, witness: the welcome message of the sample templates, accepted by
    Resend. *)
Lemma template_senders_witness :
  let w := MailWorld.mk accepting [] [] in
  let r := @sendWelcomeEmail sample_templates "john@example.com" "John" w in
  MailWorld.sent (snd r)
  = [ EmailData.mk "onboarding@resend.dev" (One "john@example.com") "Welcome" None None None
        (Some "<h1>Welcome, John</h1>") (Some "Welcome, John") ]
  /\ EmailResponse.success (fst r) = true.
Proof.
  apply (@template_senders sample_templates "john@example.com" (MailWorld.mk accepting [] [])
           (@sendWelcomeEmail sample_templates "john@example.com" "John")
           "Welcome" "<h1>Welcome, John</h1>" "Welcome, John").
  - left. exists "John". repeat split.
  - left. discriminate.
Defined.

(* --------------------------------------------------------------------- *)
(** ** env.ts: the schema *)
(* --------------------------------------------------------------------- *)

(** The fields of an accepted environment that do not depend on
    [Number]. *)
Lemma EnvSchema_fields (Number : string -> option QArith_base.Q) (env : ProcessEnv)
  (parsed : ParsedEnv.t) :
  EnvSchema Number env = Some parsed ->
  ParsedEnv.SENTRY_ENABLED parsed = coerce_boolean_default false (env "SENTRY_ENABLED")
  /\ ParsedEnv.SENTRY_ENABLE_LOGS parsed
     = coerce_boolean_default true (env "SENTRY_ENABLE_LOGS")
  /\ NODE_ENV_schema (env "NODE_ENV") = Some (ParsedEnv.NODE_ENV parsed)
  /\ ParsedEnv.SENTRY_DSN parsed = env "SENTRY_DSN".
Proof.
  unfold EnvSchema.
  destruct (NODE_ENV_schema (env "NODE_ENV")); [|discriminate].
  destruct (coerce_number_default Number _ (env "PORT")); [|discriminate].
  destruct (string_schema (env "DATABASE_URL")); [|discriminate].
  destruct (nonempty_string_schema (env "RESEND_API_KEY")); [|discriminate].
  destruct (coerce_number_between Number _ _ _ (env "SENTRY_TRACES_SAMPLE_RATE"));
    [|discriminate].
  intros H. inversion H; subst. repeat split.
Qed.

Lemma coerce_boolean_false (d : bool) (value : option string) :
  coerce_boolean_default d value = false
  <-> (value = None /\ d = false) \/ value = Some "".
Proof.
  destruct value as [s|]; simpl.
  - destruct (String.eqb s "") eqn:E; simpl.
    + apply String.eqb_eq in E. subst. split; [now right | reflexivity].
    + apply String.eqb_neq in E. split; [discriminate|].
      intros [[H _]|H]; [discriminate | inversion H; contradiction].
  - split; [now left | intros [[_ H]|H]; [exact H | discriminate]].
Qed.

(** X22.  In an accepted environment SENTRY_ENABLED is false exactly when
    the variable is unset or empty, so every non-empty text turns it on,
    the text false included; SENTRY_ENABLE_LOGS is false exactly when the
    variable is set to the empty text; NODE_ENV is development when unset
    and otherwise the value the variable names. *)
Theorem EnvSchema_sentry_switches (Number : string -> option QArith_base.Q)
  (env : ProcessEnv) (parsed : ParsedEnv.t) :
  EnvSchema Number env = Some parsed ->
  (ParsedEnv.SENTRY_ENABLED parsed = false <-> unset_or_empty (env "SENTRY_ENABLED"))
  /\ (ParsedEnv.SENTRY_ENABLE_LOGS parsed = false <-> env "SENTRY_ENABLE_LOGS" = Some "")
  /\ (forall s, env "SENTRY_ENABLED" = Some s -> s <> "" ->
      ParsedEnv.SENTRY_ENABLED parsed = true)
  /\ (env "NODE_ENV" = None -> ParsedEnv.NODE_ENV parsed = development)
  /\ (forall s, env "NODE_ENV" = Some s -> s = NodeEnv_to_string (ParsedEnv.NODE_ENV parsed)).
Proof.
  intros H. destruct (EnvSchema_fields _ _ _ H) as (E1 & E2 & E3 & _).
  rewrite E1, E2. split; [|split; [|split; [|split]]].
  - rewrite coerce_boolean_false. unfold unset_or_empty. tauto.
  - rewrite coerce_boolean_false. split; [intros [[_ D]|D]; [discriminate | exact D] | now right].
  - intros s Hs Hne. rewrite Hs. simpl. apply String.eqb_neq in Hne. now rewrite Hne.
  - intros Hn. rewrite Hn in E3. simpl in E3. now inversion E3.
  - intros s Hs. rewrite Hs in E3. simpl in E3.
    destruct (String.eqb s "development") eqn:D1;
      [apply String.eqb_eq in D1; inversion E3; subst; reflexivity|].
    destruct (String.eqb s "test") eqn:D2;
      [apply String.eqb_eq in D2; inversion E3; subst; reflexivity|].
    destruct (String.eqb s "production") eqn:D3;
      [apply String.eqb_eq in D3; inversion E3; subst; reflexivity|].
    discriminate.
Qed.

(** X22, witness: the sample environment, which writes
    SENTRY_ENABLED=false. *)
Lemma EnvSchema_sentry_switches_witness :
  exists parsed,
    EnvSchema sample_Number sample_process_env = Some parsed
    /\ ParsedEnv.SENTRY_ENABLED parsed = true
    /\ ParsedEnv.SENTRY_ENABLE_LOGS parsed = true
    /\ ParsedEnv.NODE_ENV parsed = development.
Proof.
  destruct (EnvSchema sample_Number sample_process_env) as [parsed|] eqn:E;
    [|discriminate E].
  exists parsed.
  destruct (EnvSchema_sentry_switches sample_Number sample_process_env parsed E)
    as (_ & Hlogs & Hon & Hnode & _).
  split; [reflexivity|].
  split; [apply (Hon "false"); [reflexivity | discriminate]|].
  split; [|apply Hnode; reflexivity].
  destruct (ParsedEnv.SENTRY_ENABLE_LOGS parsed); [reflexivity|].
  destruct Hlogs as [Hlogs _]. discriminate (Hlogs eq_refl).
Defined.

(** X23.  With SENTRY_ENABLED set to a non-empty text (such as false) in an
    accepted environment, the logger's sentry operations make their Sentry
    calls, and with SENTRY_ENABLE_LOGS unset [logger.log] leaves its
    breadcrumb. *)
Theorem nonempty_text_enables_sentry {fmt : DateFormat}
  (Number : string -> option QArith_base.Q) (env : ProcessEnv) (parsed : ParsedEnv.t)
  (w : World.t) (s : string) :
  EnvSchema Number env = Some parsed ->
  World.env w = logger_env parsed ->
  env "SENTRY_ENABLED" = Some s -> s <> "" ->
  (forall key value,
     calls_of (logger.sentry.setTag key value) w = [Sentry.setTag key value])
  /\ (forall error context,
        calls_of (logger.sentry.captureException error context) w
        = [Sentry.captureException error (Tags.mk "custom-logger" (Some (next_id w)))
             None context])
  /\ (env "SENTRY_ENABLE_LOGS" = None ->
      forall message context,
        calls_of (logger.log message context) w
        = [Sentry.addBreadcrumb message Severity.info "logger" (Some (default context []))]).
Proof.
  intros H Hw Hs Hne.
  destruct (EnvSchema_fields _ _ _ H) as (E1 & E2 & _).
  rewrite Hs in E1. simpl in E1. apply String.eqb_neq in Hne. rewrite Hne in E1. simpl in E1.
  destruct w as [e clock ids drawn console collector]. simpl in Hw. subst e.
  unfold calls_of, calls_since, next_id, logger_env. simpl. rewrite E1.
  split; [|split].
  - intros. simpl. rewrite skipn_app_exact. reflexivity.
  - intros. simpl. rewrite skipn_app_exact. reflexivity.
  - intros Hunset message context. rewrite Hunset in E2. simpl in E2. rewrite E2.
    simpl. rewrite skipn_app_exact. reflexivity.
Qed.

(** X23, witness: the sample environment again; setTag reaches Sentry. *)
Lemma nonempty_text_enables_sentry_witness :
  exists parsed,
    EnvSchema sample_Number sample_process_env = Some parsed
    /\ sample_process_env "SENTRY_ENABLED" = Some "false"
    /\ forall clock ids drawn console collector key value,
         calls_of (logger.sentry.setTag key value)
           (World.mk (logger_env parsed) clock ids drawn console collector)
         = [Sentry.setTag key value].
Proof.
  destruct (EnvSchema sample_Number sample_process_env) as [parsed|] eqn:E;
    [|discriminate E].
  exists parsed. split; [reflexivity|]. split; [reflexivity|].
  intros clock ids drawn console collector.
  assert (Hne : "false" <> "") by discriminate.
  exact (proj1 (@nonempty_text_enables_sentry js_dates sample_Number sample_process_env
                  parsed (World.mk (logger_env parsed) clock ids drawn console collector)
                  "false" E eq_refl eq_refl Hne)).
Defined.

(** X24.  The environment is rejected exactly when NODE_ENV is set to
    something other than development, test and production, or PORT is set
    to a text that is not a number, or DATABASE_URL is unset, or
    RESEND_API_KEY is unset or empty, or SENTRY_TRACES_SAMPLE_RATE is set
    to a text that is not a number between 0 and 1. *)
Theorem EnvSchema_rejects (Number : string -> option QArith_base.Q) (env : ProcessEnv) :
  EnvSchema Number env = None
  <-> (exists s, env "NODE_ENV" = Some s
                 /\ s <> "development" /\ s <> "test" /\ s <> "production")
      \/ (exists s, env "PORT" = Some s /\ Number s = None)
      \/ env "DATABASE_URL" = None
      \/ unset_or_empty (env "RESEND_API_KEY")
      \/ (exists s, env "SENTRY_TRACES_SAMPLE_RATE" = Some s
                    /\ forall q, Number s = Some q ->
                                 ~ (QArith_base.Qle (QArith_base.inject_Z 0) q
                                    /\ QArith_base.Qle q (QArith_base.inject_Z 1))).
Proof.
  unfold EnvSchema, unset_or_empty.
  assert (N : NODE_ENV_schema (env "NODE_ENV") = None
              <-> exists s, env "NODE_ENV" = Some s
                            /\ s <> "development" /\ s <> "test" /\ s <> "production").
  { unfold NODE_ENV_schema. destruct (env "NODE_ENV") as [s|].
    - destruct (String.eqb s "development") eqn:D1.
      { apply String.eqb_eq in D1. split; [discriminate|].
        intros (s' & H & H1 & _). inversion H; subst. contradiction. }
      destruct (String.eqb s "test") eqn:D2.
      { apply String.eqb_eq in D2. split; [discriminate|].
        intros (s' & H & _ & H2 & _). inversion H; subst. contradiction. }
      destruct (String.eqb s "production") eqn:D3.
      { apply String.eqb_eq in D3. split; [discriminate|].
        intros (s' & H & _ & _ & H3). inversion H; subst. contradiction. }
      apply String.eqb_neq in D1, D2, D3. split; [|reflexivity].
      intros _. exists s. repeat split; assumption.
    - split; [discriminate|]. intros (s & H & _). discriminate. }
  assert (P : coerce_number_default Number (QArith_base.inject_Z 9999) (env "PORT") = None
              <-> exists s, env "PORT" = Some s /\ Number s = None).
  { unfold coerce_number_default. destruct (env "PORT") as [s|].
    - split; [intros H; now exists s|]. intros (s' & H & H'). inversion H; subst. exact H'.
    - split; [discriminate|]. intros (s & H & _). discriminate. }
  assert (K : nonempty_string_schema (env "RESEND_API_KEY") = None
              <-> env "RESEND_API_KEY" = None \/ env "RESEND_API_KEY" = Some "").
  { unfold nonempty_string_schema. destruct (env "RESEND_API_KEY") as [s|].
    - destruct (String.eqb s "") eqn:D.
      + apply String.eqb_eq in D. subst. split; [now right | reflexivity].
      + apply String.eqb_neq in D. split; [discriminate|].
        intros [H|H]; [discriminate | inversion H; contradiction].
    - split; [now left | reflexivity]. }
  assert (R : coerce_number_between Number (QArith_base.inject_Z 0) (QArith_base.inject_Z 1)
                (QArith_base.Qmake 1 10) (env "SENTRY_TRACES_SAMPLE_RATE") = None
              <-> exists s, env "SENTRY_TRACES_SAMPLE_RATE" = Some s
                            /\ forall q, Number s = Some q ->
                                         ~ (QArith_base.Qle (QArith_base.inject_Z 0) q
                                            /\ QArith_base.Qle q (QArith_base.inject_Z 1))).
  { unfold coerce_number_between. destruct (env "SENTRY_TRACES_SAMPLE_RATE") as [s|].
    - destruct (Number s) as [q|] eqn:Nq.
      + destruct (QArith_base.Qle_bool (QArith_base.inject_Z 0) q
                  && QArith_base.Qle_bool q (QArith_base.inject_Z 1)) eqn:B.
        * apply andb_true_iff in B. destruct B as [B1 B2].
          apply QArith_base.Qle_bool_iff in B1, B2.
          split; [discriminate|]. intros (s' & H & H'). inversion H; subst.
          exfalso. apply (H' q Nq). now split.
        * split; [|reflexivity]. intros _. exists s. split; [reflexivity|].
          intros q' Hq' [B1 B2]. rewrite Nq in Hq'. inversion Hq'; subst.
          apply QArith_base.Qle_bool_iff in B1, B2. rewrite B1, B2 in B. discriminate.
      + split; [|reflexivity]. intros _. exists s. split; [reflexivity|].
        intros q Hq. rewrite Nq in Hq. discriminate.
    - split; [discriminate|]. intros (s & H & _). discriminate. }
  unfold string_schema in *.
  destruct (NODE_ENV_schema (env "NODE_ENV")) as [node|].
  2: { split; [intros _; left; now apply N | reflexivity]. }
  destruct (coerce_number_default Number _ (env "PORT")) as [port|].
  2: { split; [intros _; right; left; now apply P | reflexivity]. }
  destruct (env "DATABASE_URL") as [database|].
  2: { split; [intros _; right; right; now left | reflexivity]. }
  destruct (nonempty_string_schema (env "RESEND_API_KEY")) as [key|].
  2: { split; [intros _; right; right; right; left; now apply K | reflexivity]. }
  destruct (coerce_number_between Number _ _ _ (env "SENTRY_TRACES_SAMPLE_RATE")) as [rate|].
  2: { split; [intros _; right; right; right; right; now apply R | reflexivity]. }
  split; [discriminate|].
  intros [H|[H|[H|[H|H]]]].
  - apply N in H. discriminate.
  - apply P in H. discriminate.
  - discriminate.
  - apply K in H. discriminate.
  - apply R in H. discriminate.
Qed.
